(** * ChatService: a shallow embedding of [app/services/chat_service.py]

    The development follows the source file top to bottom: Python values and
    string helpers first, then the billing formula ([get_points]), the
    provider selector ([_get_llm]), the message assembler
    ([get_chat_messages], [_has_content], the per-path message builders), the
    token estimator and meter, and finally the four generation flows as
    trace-producing programs over an explicit record of external
    collaborators. *)

From Stdlib Require Import ZArith Lia Ascii String List.
From Stdlib Require Import Floats.PrimFloat Floats.SpecFloat Floats.FloatOps.
From stdpp Require Import base option list strings gmap fin_maps.

Set Warnings "-inexact-float,-register-all".
Set Default Proof Using "Type".

Local Open Scope string_scope.
Local Open Scope list_scope.
Local Open Scope Z_scope.

(** ** Python values and string helpers *)

Module Py.

(** [str.lower()] on ASCII text: only [A]..[Z] change. *)
Definition lower_ascii (a : ascii) : ascii :=
  let n := nat_of_ascii a in
  if ((65 <=? n)%nat && (n <=? 90)%nat)%bool then ascii_of_nat (n + 32) else a.

Fixpoint lower (s : string) : string :=
  match s with
  | EmptyString => EmptyString
  | String a s' => String (lower_ascii a) (lower s')
  end.

(** [str.isspace()] on one ASCII character: TAB, LF, VT, FF, CR, the four
    separators FS, GS, RS, US, and the space. *)
Definition isspace (a : ascii) : bool :=
  let n := nat_of_ascii a in
  (((9 <=? n)%nat && (n <=? 13)%nat) || ((28 <=? n)%nat && (n <=? 32)%nat))%bool.

Fixpoint lstrip (s : string) : string :=
  match s with
  | EmptyString => EmptyString
  | String a s' => if isspace a then lstrip s' else s
  end.

Definition rstrip (s : string) : string := String.rev (lstrip (String.rev s)).

(** [str.strip()] with no argument. *)
Definition strip (s : string) : string := rstrip (lstrip s).

(** [len(s)]. *)
Definition len (s : string) : Z := Z.of_nat (String.length s).

(** Truth value of a string: [bool(s)]. *)
Definition str_truthy (s : string) : bool :=
  match s with EmptyString => false | String _ _ => true end.

(** [xs[:-1]]: everything but the last element, empty on the empty list. *)
Definition but_last {A} (xs : list A) : list A := removelast xs.

(** Conversion of a Python [int] to [float], as performed by [int * float]:
    round to nearest, ties to even.  Python raises [OverflowError] where
    this yields an infinity (magnitudes from 2^1024 on). *)
Definition float_of_int (z : Z) : float :=
  SF2Prim (binary_normalize prec emax z 0 false).

(** [int(x)] on a finite float: truncation toward zero. *)
Definition int_of_float (x : float) : option Z :=
  match Prim2SF x with
  | S754_zero _ => Some 0
  | S754_finite s m e =>
      let mag := if (0 <=? e) then Z.pos m * 2 ^ e else Z.pos m / 2 ^ (- e) in
      Some (if s then - mag else mag)
  | S754_infinity _ | S754_nan => None
  end.

(** JSON-like Python values as they occur in messages. *)
Inductive value : Type :=
| Str (s : string)
| List (l : list value)
| Dict (d : gmap string value)
| Int (z : Z)
| None_.

(** [bool(v)]. *)
Definition truthy (v : value) : bool :=
  match v with
  | Str s => str_truthy s
  | List l => match l with [] => false | _ => true end
  | Dict d => negb (bool_decide (d = ∅))
  | Int z => negb (z =? 0)
  | None_ => false
  end.

End Py.

(** ** Data model *)

(** Modelled from the spec: [AiConfig], declared in [app/models/chat.py],
    which is not among the sources.  Section 3 lists its fields: the
    provider, the model identifier, the three billing rate factors (Python
    floats; [get_points] is annotated to return a float) and the image
    capability flag. *)
Record AiConfig := {
  provider : string;
  model : string;
  inputCost : float;
  outputCost : float;
  multiplier : float;
  imageSupport : bool
}.

(** Modelled from the spec: [IRouterChatLog], declared in
    [app/models/chat.py], which is not among the sources.  Section 3
    describes a turn by its prompt and its response, each a text or empty;
    these are the two fields the service reads. *)
Record IRouterChatLog := {
  prompt : string;
  response : string
}.

(** The token-usage dictionary with its three fixed keys. *)
Record token_usage := {
  prompt_tokens : Z;
  completion_tokens : Z;
  total_tokens : Z
}.

(** ** Billing *)

Definition get_points (inputToken outputToken : Z) (ai_config : AiConfig) : float :=
  ((Py.float_of_int inputToken * inputCost ai_config
    + Py.float_of_int outputToken * outputCost ai_config)
   * multiplier ai_config / 0.001)%float.

(** The billing formula in the words of the specification: prompt tokens
    times input cost plus completion tokens times output cost, times the
    multiplier, divided by the scaling constant 0.001. *)
Definition billing_scale : float := 0.001%float.

Definition billing_formula (promptTokens completionTokens : Z)
    (inCost outCost mult : float) : float :=
  let input_part := (Py.float_of_int promptTokens * inCost)%float in
  let output_part := (Py.float_of_int completionTokens * outCost)%float in
  (((input_part + output_part) * mult) / billing_scale)%float.

(** ** Image and audio estimates *)

Definition estimate_image_tokens (prompt : string) : token_usage :=
  let char_count := Py.len prompt in
  let estimated_tokens := char_count / 4 in
  {| prompt_tokens := estimated_tokens;
     completion_tokens := 0;
     total_tokens := estimated_tokens |}.

Definition estimate_audio_tokens (text : string) : token_usage :=
  let char_count := Py.len text in
  let estimated_tokens := char_count / 4 in
  {| prompt_tokens := estimated_tokens;
     completion_tokens := 0;
     total_tokens := estimated_tokens |}.

(** ** Provider selector *)

(** The client classes [_get_llm] can construct. *)
Inductive client_class :=
| ChatAnthropic | ChatDeepSeek | ChatGoogleGenerativeAI | ChatXAI
| ChatOllama | ChatMistralAI | ChatCerebras | ChatOpenAI.

(** Entries of the external [settings] object that [_get_llm] reads. *)
Inductive setting :=
| ANTHROPIC_API_KEY | DEEPSEEK_API_KEY | GOOGLE_API_KEY | XAI_API_KEY
| OLLAMA_BASE_URL | MISTRAL_API_KEY | CEREBRAS_API_KEY | OPENROUTER_API_KEY
| OPENAI_API_KEY.

Inductive base_url :=
| FromSetting (s : setting)
| Literal (url : string).

(** The keyword arguments a client is constructed with.  [llm_temperature]
    is [true] when [temperature=0.7] is passed. *)
Record llm_client := {
  llm_class : client_class;
  llm_temperature : bool;
  llm_streaming : bool;
  llm_model : string;
  llm_max_tokens : Z;
  llm_api_key : option setting;
  llm_stream_usage : bool;
  llm_base_url : option base_url
}.

Definition _get_llm (ai_config : AiConfig) (isStream : bool) : llm_client :=
  let p := Py.lower (provider ai_config) in
  if String.eqb p "anthropic" then
    {| llm_class := ChatAnthropic; llm_temperature := true; llm_streaming := isStream;
       llm_model := model ai_config; llm_max_tokens := 2000;
       llm_api_key := Some ANTHROPIC_API_KEY; llm_stream_usage := isStream;
       llm_base_url := None |}
  else if String.eqb p "deepseek" then
    {| llm_class := ChatDeepSeek; llm_temperature := true; llm_streaming := isStream;
       llm_model := model ai_config; llm_max_tokens := 2000;
       llm_api_key := Some DEEPSEEK_API_KEY; llm_stream_usage := isStream;
       llm_base_url := None |}
  else if String.eqb p "google" then
    {| llm_class := ChatGoogleGenerativeAI; llm_temperature := true; llm_streaming := isStream;
       llm_model := model ai_config; llm_max_tokens := 2000;
       llm_api_key := Some GOOGLE_API_KEY; llm_stream_usage := isStream;
       llm_base_url := None |}
  else if String.eqb p "xai" then
    {| llm_class := ChatXAI; llm_temperature := true; llm_streaming := isStream;
       llm_model := model ai_config; llm_max_tokens := 2000;
       llm_api_key := Some XAI_API_KEY; llm_stream_usage := isStream;
       llm_base_url := None |}
  else if String.eqb p "ollama" then
    {| llm_class := ChatOllama; llm_temperature := true; llm_streaming := isStream;
       llm_model := model ai_config; llm_max_tokens := 2000;
       llm_api_key := None; llm_stream_usage := isStream;
       llm_base_url := Some (FromSetting OLLAMA_BASE_URL) |}
  else if String.eqb p "mistralai" then
    {| llm_class := ChatMistralAI; llm_temperature := true; llm_streaming := isStream;
       llm_model := model ai_config; llm_max_tokens := 2000;
       llm_api_key := Some MISTRAL_API_KEY; llm_stream_usage := isStream;
       llm_base_url := None |}
  else if (String.eqb p "cerebras" || String.eqb p "edith")%bool then
    {| llm_class := ChatCerebras; llm_temperature := true; llm_streaming := isStream;
       llm_model := if String.eqb p "edith" then "llama-3.3-70b" else model ai_config;
       llm_max_tokens := 2000;
       llm_api_key := Some CEREBRAS_API_KEY; llm_stream_usage := isStream;
       llm_base_url := None |}
  else if String.eqb p "openrouter" then
    {| llm_class := ChatOpenAI; llm_temperature := false; llm_streaming := isStream;
       llm_model := model ai_config; llm_max_tokens := 2000;
       llm_api_key := Some OPENROUTER_API_KEY; llm_stream_usage := isStream;
       llm_base_url := Some (Literal "https://openrouter.ai/api/v1") |}
  else
    {| llm_class := ChatOpenAI; llm_temperature := false; llm_streaming := isStream;
       llm_model := model ai_config; llm_max_tokens := 2000;
       llm_api_key := Some OPENAI_API_KEY; llm_stream_usage := isStream;
       llm_base_url := None |}.

(** The vendors [_get_llm] names in its dispatch. *)
Definition enumerated_vendors : list string :=
  ["anthropic"; "deepseek"; "google"; "xai"; "ollama"; "mistralai";
   "cerebras"; "edith"; "openrouter"].

(** ** Message assembler *)

(** A message is a Python dict from field names to values. *)
Abbreviation message := (gmap string Py.value).

Definition nl : string := String "010"%char "".

(** The dict literal [{"role": role, "content": content}]. *)
Definition role_content (role : string) (content : Py.value) : message :=
  <["role" := Py.Str role]> (<["content" := content]> ∅).

(** One pass of the history loop body: a user message when the prompt is
    non-empty, then an assistant message when the response is non-empty. *)
Definition append_turn (messages : list message) (chat : IRouterChatLog) : list message :=
  let messages :=
    if Py.str_truthy (prompt chat)
    then messages ++ [role_content "user" (Py.Str (prompt chat))] else messages in
  if Py.str_truthy (response chat)
  then messages ++ [role_content "assistant" (Py.Str (response chat))] else messages.

(** [get_chat_messages]; [db_system_prompt] is what [db.get_system_prompt()]
    returns.  The result is the pair [(messages, system_prompt)]. *)
Definition get_chat_messages (db_system_prompt : string)
    (chat_history : list IRouterChatLog) (provider : string)
    : list message * string :=
  let system_prompt := if String.eqb provider "edith" then db_system_prompt else "" in
  let messages : list message := [] in
  let messages :=
    if negb (String.eqb (Py.lower provider) "anthropic")
    then messages ++ [role_content "system" (Py.Str system_prompt)] else messages in
  if String.eqb (Py.lower provider) "deepseek" then
    let valid_history :=
      List.filter (fun chat => (Py.str_truthy (prompt chat) || Py.str_truthy (response chat))%bool)
        chat_history in
    match valid_history with
    | [] => (messages, system_prompt)
    | first_chat :: rest =>
        if negb (Py.str_truthy (prompt first_chat)) then (messages, system_prompt)
        else
          let messages := messages ++ [role_content "user" (Py.Str (prompt first_chat))] in
          let messages :=
            if Py.str_truthy (response first_chat)
            then messages ++ [role_content "assistant" (Py.Str (response first_chat))]
            else messages in
          (fold_left append_turn rest messages, system_prompt)
    end
  else
    (fold_left append_turn chat_history messages, system_prompt).

(** Python's [any] over a generator whose items may raise: evaluation stops
    at the first true item, and an exception met before that escapes. *)
Fixpoint py_any {A} (f : A -> option bool) (xs : list A) : option bool :=
  match xs with
  | [] => Some false
  | x :: xs' =>
      match f x with
      | None => None
      | Some true => Some true
      | Some false => py_any f xs'
      end
  end.

(** [d.get("text", "").strip()] as a truth value; raises ([None]) when the
    stored value has no [strip] method. *)
Definition text_field_present (d : gmap string Py.value) : option bool :=
  match d !! "text" with
  | None => Some false
  | Some (Py.Str s) => Some (Py.str_truthy (Py.strip s))
  | Some _ => None
  end.

(** [d.get("type") in ["image_url", "image"]]. *)
Definition type_is_image (d : gmap string Py.value) : bool :=
  match d !! "type" with
  | Some (Py.Str t) => (String.eqb t "image_url" || String.eqb t "image")%bool
  | _ => false
  end.

(** The generator expression inside [_has_content] for one list item. *)
Definition item_has_content (item : Py.value) : option bool :=
  match item with
  | Py.Dict d =>
      match text_field_present d with
      | None => None
      | Some true => Some true
      | Some false => Some (type_is_image d)
      end
  | _ => Some false
  end.

(** [_has_content]; [None] stands for an exception escaping the call. *)
Definition _has_content (message : message) : option bool :=
  match message !! "content" with
  | None => Some false
  | Some content =>
      if negb (Py.truthy content) then Some false
      else match content with
           | Py.Str s => Some (Py.str_truthy (Py.strip s))
           | Py.List l => py_any item_has_content l
           | Py.Dict d => text_field_present d
           | _ => Some false
           end
  end.

(** ** Token estimator and meter *)

(** The [tiktoken] library is an external collaborator.  An encoding turns a
    text into its token list or raises (on disallowed special tokens);
    [encoding_for_model] raises [KeyError] ([None]) on an unknown model;
    [cl100k_base] is what [tiktoken.get_encoding("cl100k_base")] returns. *)
Record Encoding := { encode : string -> option (list N) }.

Class Tiktoken := {
  encoding_for_model : string -> option Encoding;
  cl100k_base : Encoding
}.

(** A [for] loop whose body may raise: the state is threaded through the
    elements in order and the first exception ends the loop. *)
Fixpoint for_each {S A} (body : S -> A -> option S) (xs : list A) (s : S) : option S :=
  match xs with
  | [] => Some s
  | x :: xs' =>
      match body s x with
      | None => None
      | Some s' => for_each body xs' s'
      end
  end.

(** [len(encoding.encode(v))]; encoding anything but a string raises. *)
Definition encoded_len (encoding : Encoding) (v : Py.value) : option Z :=
  match v with
  | Py.Str s =>
      match encode encoding s with
      | Some tokens => Some (Z.of_nat (length tokens))
      | None => None
      end
  | _ => None
  end.

(** [v == s] for a string literal [s]. *)
Definition value_is (v : Py.value) (s : string) : bool :=
  match v with
  | Py.Str t => String.eqb t s
  | _ => false
  end.

(** [d.get(key) == s] for a string literal [s]. *)
Definition field_is (d : gmap string Py.value) (key s : string) : bool :=
  match d !! key with
  | Some v => value_is v s
  | None => false
  end.

Section Estimator.
Context `{tk : Tiktoken}.

Definition _get_encoding (model : string) : Encoding :=
  match encoding_for_model model with
  | Some encoding => encoding
  | None => cl100k_base
  end.

(** Body of the loop over the items of a list content. *)
Definition content_item_step (encoding : Encoding) (num_tokens : Z)
    (content_item : Py.value) : option Z :=
  match content_item with
  | Py.Dict d =>
      if field_is d "type" "text" then
        let text := default (Py.Str "") (d !! "text") in
        n ← encoded_len encoding text; Some (num_tokens + n)
      else if field_is d "type" "image_url" then
        match default (Py.Dict ∅) (d !! "image_url") with
        | Py.Dict image_url =>
            let detail := default (Py.Str "auto") (image_url !! "detail") in
            if value_is detail "low" then Some (num_tokens + 85)
            else Some (num_tokens + 170)
        | _ => None
        end
      else if field_is d "type" "image" then Some (num_tokens + 170)
      else Some num_tokens
  | _ => Some num_tokens
  end.

(** First statement of the loop over [message.items()]: the tokens of the
    value, by the key it is stored under. *)
Definition item_value_step (encoding : Encoding) (num_tokens : Z)
    (key : string) (value : Py.value) : option Z :=
  if String.eqb key "content" then
    match value with
    | Py.Str _ => n ← encoded_len encoding value; Some (num_tokens + n)
    | Py.List l => for_each (content_item_step encoding) l num_tokens
    | Py.Dict d =>
        match d !! "text" with
        | Some text => n ← encoded_len encoding text; Some (num_tokens + n)
        | None => Some num_tokens
        end
    | _ => Some num_tokens
    end
  else
    match value with
    | Py.Str _ => n ← encoded_len encoding value; Some (num_tokens + n)
    | _ => Some num_tokens
    end.

(** Body of the loop over [message.items()]: the value, then the discount
    when the key is [name]. *)
Definition item_step (encoding : Encoding) (num_tokens : Z)
    (kv : string * Py.value) : option Z :=
  let '(key, value) := kv in
  num_tokens ← item_value_step encoding num_tokens key value;
  Some (if String.eqb key "name" then num_tokens + -1 else num_tokens).

(** Body of the loop over the messages. *)
Definition message_step (encoding : Encoding) (num_tokens : Z)
    (message : message) : option Z :=
  let num_tokens := num_tokens + 4 in
  for_each (item_step encoding) (map_to_list message) num_tokens.

Definition estimate_tokens (messages : list message) (model : string) : option Z :=
  let encoding := _get_encoding model in
  let num_tokens := 0 in
  num_tokens ← for_each (message_step encoding) messages num_tokens;
  Some (num_tokens + 2).

(** [min(int(prompt_tokens * 1.5), max_tokens)].  The product is computed
    in floating point; it is exact for every count below 2^52, where
    [int] truncates it toward zero, and from 1334 on the minimum is the
    cap, so on token counts the result is this integer expression. *)
Definition estimate_response_tokens (prompt_tokens : Z) : Z :=
  let max_tokens := 2000 in
  Z.min (Z.quot (prompt_tokens * 3) 2) max_tokens.

(** The same function with the product and the truncation carried out on
    binary64 floats, as the interpreter does. *)
Definition estimate_response_tokens_float (prompt_tokens : Z) : option Z :=
  let max_tokens := 2000 in
  n ← Py.int_of_float (Py.float_of_int prompt_tokens * 1.5)%float;
  Some (Z.min n max_tokens).

(** [estimate_total_tokens]; an exception is re-raised ([None]). *)
Definition estimate_total_tokens (messages : list message) (system_template : string)
    (model : string) (context : string) : option token_usage :=
  let encoding := _get_encoding model in
  n_messages ← estimate_tokens messages model;
  n_template ← encoded_len encoding (Py.Str system_template);
  n_context ← encoded_len encoding (Py.Str context);
  let prompt_tokens := n_messages + n_template + n_context in
  let response_tokens := estimate_response_tokens prompt_tokens in
  let total_tokens := prompt_tokens + response_tokens in
  Some {| prompt_tokens := prompt_tokens;
          completion_tokens := response_tokens;
          total_tokens := total_tokens |}.

Definition zero_usage : token_usage :=
  {| prompt_tokens := 0; completion_tokens := 0; total_tokens := 0 |}.

(** [track_actual_token_usage]; every exception is caught and turned into
    the all-zero usage. *)
Definition track_actual_token_usage (messages : list message) (response : string)
    (model : string) : token_usage :=
  let encoding := _get_encoding model in
  let attempt :=
    prompt_tokens ← estimate_tokens messages model;
    completion_tokens ← encoded_len encoding (Py.Str response);
    Some {| prompt_tokens := prompt_tokens;
            completion_tokens := completion_tokens;
            total_tokens := prompt_tokens + completion_tokens |} in
  match attempt with
  | Some usage => usage
  | None => zero_usage
  end.

End Estimator.

(** ** Multimodal messages and the per-path message builders *)

(** [sep.join(xs)]. *)
Fixpoint py_join (sep : string) (xs : list string) : string :=
  match xs with
  | [] => ""
  | [x] => x
  | x :: xs' => (x ++ sep ++ py_join sep xs')%string
  end.

(** [s.startswith(p)] and [s.endswith(p)]. *)
Definition startswith (s p : string) : bool := String.prefix p s.
Definition endswith (s p : string) : bool := String.prefix (String.rev p) (String.rev s).

(** [full_response.split("\n\n")[0]]: the text before the first blank line. *)
Fixpoint first_paragraph (s : string) : string :=
  match s with
  | EmptyString => EmptyString
  | String a s' =>
      if startswith s (nl ++ nl)%string then EmptyString
      else String a (first_paragraph s')
  end.

(** The history as text:
    ["\n".join(f"User: {h.prompt}\nAssistant: {h.response}" for h in chat_history if h.response)]. *)
Definition chat_history_text (chat_history : list IRouterChatLog) : string :=
  py_join nl
    (map (fun h => ("User: " ++ prompt h ++ nl ++ "Assistant: " ++ response h)%string)
       (List.filter (fun h => Py.str_truthy (response h)) chat_history)).

(** A retrieved document: its text and, when the metadata carries one, its
    source tag. *)
Record Doc := {
  page_content : string;
  doc_source : option string
}.

Definition context_part (doc : Doc) : string :=
  match doc_source doc with
  | Some src => ("[Source: " ++ src ++ "]" ++ nl ++ page_content doc)%string
  | None => page_content doc
  end.

Definition rag_preamble : string :=
  "You are a helpful AI assistant. Use the following context from the provided documents to answer the user's question. If the answer cannot be found in the context, say so.".

(** The system template of the retrieval path; the placeholder
    [{chat_history}] is filled by the chain. *)
Definition rag_system_template (context : string) : string :=
  (rag_preamble ++ nl ++ nl ++ "Context from documents:" ++ nl ++ context ++ nl ++ nl
   ++ "Previous conversation:" ++ nl ++ "{chat_history}" ++ nl ++ nl
   ++ "Now, please answer the user's question based on the above context.")%string.

Definition plain_system_template (system_prompt : string) : string :=
  (system_prompt ++ nl ++ nl ++ "Previous conversation:" ++ nl ++ "{chat_history}")%string.

(** The system content of the multimodal path. *)
Definition rag_system_content (context chat_history_str : string) : string :=
  (rag_preamble ++ nl ++ nl ++ "Context from documents:" ++ nl ++ context ++ nl ++ nl
   ++ "Previous conversation:" ++ nl ++ chat_history_str ++ nl ++ nl
   ++ "Now, please answer the user's question based on the above context and the images provided.")%string.

Definition plain_system_content (system_prompt chat_history_str : string) : string :=
  (system_prompt ++ nl ++ nl ++ "Previous conversation:" ++ nl ++ chat_history_str)%string.

(** The dict literal [{"type": "text", "text": text}]. *)
Definition text_part (text : string) : Py.value :=
  Py.Dict (<["type" := Py.Str "text"]> (<["text" := Py.Str text]> ∅)).

(** History copied into the list sent to the model:
    [{"role": msg["role"], "content": msg["content"]} for msg in messages[:-1] if self._has_content(msg)].
    [None] when [_has_content] raises or a kept message lacks a key. *)
Definition copy_history (messages : list message) : option (list message) :=
  for_each
    (fun acc msg =>
       b ← _has_content msg;
       if b : bool then
         role ← msg !! "role";
         content ← msg !! "content";
         Some (acc ++ [<["role" := role]> (<["content" := content]> ∅)])
       else Some acc)
    (Py.but_last messages) [].

(** The loop that, for Anthropic, folds the system content into the first
    user message: a string content gets the system content and a blank line
    in front, a list content gets a text part inserted at index 0, and the
    loop stops at that message.  [None] when a message has no role or the
    user message no content ([KeyError]). *)
Fixpoint prepend_to_first_user (system_content : string) (direct_messages : list message)
    : option (list message) :=
  match direct_messages with
  | [] => Some []
  | msg :: rest =>
      role ← msg !! "role";
      if value_is role "user" then
        content ← msg !! "content";
        match content with
        | Py.Str s =>
            Some (<["content" := Py.Str (system_content ++ nl ++ nl ++ s)%string]> msg :: rest)
        | Py.List l =>
            Some (<["content" := Py.List (text_part system_content :: l)]> msg :: rest)
        | _ => Some (msg :: rest)
        end
      else
        rest' ← prepend_to_first_user system_content rest;
        Some (msg :: rest')
  end.

(** The list built for direct invocation on the multimodal path. *)
Definition build_direct_messages (provider system_content : string)
    (messages : list message) (current_question_msg : message)
    : option (list message) :=
  let direct_messages : list message := [] in
  let direct_messages :=
    if negb (String.eqb (Py.lower provider) "anthropic")
    then direct_messages ++ [role_content "system" (Py.Str system_content)]
    else direct_messages in
  history ← copy_history messages;
  let direct_messages := direct_messages ++ history in
  let direct_messages := direct_messages ++ [current_question_msg] in
  if (String.eqb (Py.lower provider) "anthropic"
      && match direct_messages with [] => false | _ => true end)%bool
  then prepend_to_first_user system_content direct_messages
  else Some direct_messages.

(** The list built on the streamed path without files. *)
Definition build_formatted_messages (provider system_prompt : string)
    (messages : list message) (query : string) : option (list message) :=
  let formatted_messages : list message := [] in
  let formatted_messages :=
    if negb (String.eqb (Py.lower provider) "anthropic")
    then formatted_messages ++ [role_content "system" (Py.Str system_prompt)]
    else formatted_messages in
  history ← copy_history messages;
  let formatted_messages := formatted_messages ++ history in
  Some (formatted_messages ++ [role_content "user" (Py.Str query)]).

(** ** External collaborators *)

(** An exception, with the text [str(e)] gives. *)
Inductive exn := Exception (text : string).

Definition exn_text (e : exn) : string := let 'Exception t := e in t.

(** The result of a call that may raise. *)
Inductive res (A : Type) :=
| Ok (a : A)
| Err (e : exn).
Arguments Ok {A} a.
Arguments Err {A} e.

(** A prompt template entry of [ChatPromptTemplate.from_messages]. *)
Inductive template_message :=
| SystemMessagePromptTemplate (template : string)
| HumanMessagePromptTemplate (template : string)
| AIMessagePromptTemplate (template : string).

(** What is handed to the model: a message list for direct invocation, or a
    chain made of a prompt template and, when the chain has an input
    mapping, the text bound to [chat_history]. *)
Inductive payload :=
| Direct (messages : list message)
| Chain (chat_history : option string) (prompt : list template_message).

(** The role of each entry of a payload, in order. *)
Definition template_role (t : template_message) : string :=
  match t with
  | SystemMessagePromptTemplate _ => "system"
  | HumanMessagePromptTemplate _ => "user"
  | AIMessagePromptTemplate _ => "assistant"
  end.

Definition message_role (m : message) : option string :=
  match m !! "role" with
  | Some (Py.Str r) => Some r
  | _ => None
  end.

Definition payload_roles (p : payload) : list (option string) :=
  match p with
  | Direct messages => map message_role messages
  | Chain _ prompt => map (fun t => Some (template_role t)) prompt
  end.

(** The quota error payload and the internal-error payload. *)
Inductive error_details :=
| QuotaDetails (estimated_points : float) (available_points points_used : Py.value)
| ExceptionDetails (text : string).

Record error_response := {
  status : Z;
  error_message : string;
  details : error_details
}.

(** Pieces of the text a flow yields or returns: plain text and the three
    in-band markers. *)
Inductive output :=
| Text (s : string)
| PointsMarker (points : float)
| OutputTimeMarker (seconds : float)
| ErrorMarker (e : error_response).

(** The persisted records (timestamps left out). *)
Record chat_log := {
  cl_email : string;
  cl_sessionId : string;
  cl_reGenerate : bool;
  cl_title : string;
  cl_prompt : string;
  cl_response : string;
  cl_inputToken : Z;
  cl_outputToken : Z;
  cl_outputTime : float;
  cl_chatType : Z;
  cl_fileUrls : list string;
  cl_model : string;
  cl_points : float;
  cl_count : Z
}.

Record usage_log := {
  ul_userId : Py.value;
  ul_modelId : string;
  ul_planId : Py.value;
  ul_input : Z;
  ul_output : Z;
  ul_total : Z;
  ul_pointsUsage : float
}.

(** The answer of the image endpoint: the URL of the first image and the
    usage block when the provider sent one. *)
Record image_response := {
  image_url : string;
  image_usage : option token_usage
}.

(** Modelled from the spec: the collaborators of section 6 (file
    processor, point service, database, object storage) and the provider
    SDKs, none of which is among the sources.  Each is given by what it
    answers; a field of type [res _] is a call that may raise. *)
Class World := {
  (* interpreter and standard library *)
  py_repr : Py.value -> string;
  b64encode : string -> string;
  elapsed_seconds : float;
  timestamp : string;
  (* settings *)
  AWS_CDN_URL : string;
  AWS_BUCKET_NAME : string;
  (* requests and object storage *)
  requests_get : string -> res string;
  upload_file : string -> string -> string -> res unit;
  (* file processor, vector store *)
  identify_files : list string -> list string * list string;
  vector_store_for : list string -> res bool;
  retriever_ainvoke : string -> res (list Doc);
  (* point service *)
  initialize : string -> res unit;
  check_user_available_to_chat : float -> AiConfig -> res bool;
  user_doc : option (gmap string Py.value);
  save_user_points : float -> res unit;
  (* database *)
  get_ai_config : string -> option AiConfig;
  get_system_prompt : string;
  save_chat_log : chat_log -> res unit;
  save_usage_log : usage_log -> res unit;
  (* model providers *)
  llm_astream : llm_client -> payload -> list string * option exn;
  llm_ainvoke : llm_client -> payload -> res string;
  images_generate : string -> res image_response;
  speech_create : string -> res string
}.

(** What a flow does to the outside, in order. *)
Inductive event :=
| EvInitialize (email : string)
| EvGetAiConfig (model : string)
| EvHttpGet (url : string)
| EvVectorStore (text_files : list string)
| EvRetrieve (query : string)
| EvCheckQuota (estimated_points : float)
| EvInvoke (llm : llm_client) (p : payload)
| EvImagesGenerate (prompt : string)
| EvSpeechCreate (input : string)
| EvUpload (bucket key content_type : string)
| EvYield (o : output)
| EvSaveChatLog (r : chat_log)
| EvSaveUsageLog (r : usage_log)
| EvSaveUserPoints (points : float).

Definition is_provider_call (ev : event) : bool :=
  match ev with
  | EvInvoke _ _ | EvImagesGenerate _ | EvSpeechCreate _ => true
  | _ => false
  end.

Definition is_persist (ev : event) : bool :=
  match ev with
  | EvSaveChatLog _ | EvSaveUsageLog _ => true
  | _ => false
  end.

Definition is_quota_check (ev : event) : bool :=
  match ev with
  | EvCheckQuota _ => true
  | _ => false
  end.

(** ** The flow monad: a trace of events, and how the block ended *)

Inductive ending (R A : Type) :=
| Normal (a : A)
| Raised (e : exn)
| Returned (r : R).
Arguments Normal {R A} a.
Arguments Raised {R A} e.
Arguments Returned {R A} r.

Definition Flow (R A : Type) : Type := (list event * ending R A)%type.

Definition pure {R A} (a : A) : Flow R A := ([], Normal a).
Definition raise {R A} (e : exn) : Flow R A := ([], Raised e).
Definition return_ {R A} (r : R) : Flow R A := ([], Returned r).
Definition emit {R} (ev : event) : Flow R unit := ([ev], Normal tt).

Definition bind {R A B} (m : Flow R A) (k : A -> Flow R B) : Flow R B :=
  match m with
  | (t, Normal a) => let '(t', e) := k a in (t ++ t', e)
  | (t, Raised e) => (t, Raised e)
  | (t, Returned r) => (t, Returned r)
  end.

(** An external call: the event is recorded, then the call returns or raises. *)
Definition call {R A} (ev : event) (r : res A) : Flow R A :=
  match r with
  | Ok a => ([ev], Normal a)
  | Err e => ([ev], Raised e)
  end.

(** A local computation that may raise, without any event. *)
Definition lift_opt {R A} (what : string) (o : option A) : Flow R A :=
  match o with
  | Some a => pure a
  | None => raise (Exception what)
  end.

(** [try: m except Exception as e: handler e]. *)
Definition try_except {R A} (m : Flow R A) (handler : exn -> Flow R A) : Flow R A :=
  match m with
  | (t, Raised e) => let '(t', r) := handler e in (t ++ t', r)
  | _ => m
  end.

Notation "'do' x <- m ; k" := (bind m (fun x => k))
  (at level 10, x name, m at level 100, k at level 200).
Notation "m ;; k" := (bind m (fun _ => k))
  (at level 100, k at level 200, right associativity).

Section Service.
Context `{tk : Tiktoken} `{world : World}.

(** [str(v)]: a string is itself, anything else is rendered by the
    interpreter. *)
Definition py_str (v : Py.value) : string :=
  match v with
  | Py.Str s => s
  | _ => py_repr v
  end.

Definition _extract_text_content (content : Py.value) : string :=
  match content with
  | Py.Str s => s
  | Py.List l =>
      let text_parts :=
        flat_map
          (fun item =>
             match item with
             | Py.Dict d =>
                 if field_is d "type" "text"
                 then [py_str (default (Py.Str "") (d !! "text"))] else []
             | _ => []
             end) l in
      py_join " " text_parts
  | Py.Dict d =>
      match d !! "text" with
      | Some t => py_str t
      | None =>
          match d !! "content" with
          | Some c => py_str c
          | None => py_repr content
          end
      end
  | Py.None_ => ""
  | _ => py_repr content
  end.

(** [image_url if image_url.startswith('http') else f"{settings.AWS_CDN_URL}/{image_url}"]. *)
Definition full_url (image_url : string) : string :=
  if startswith image_url "http" then image_url
  else (AWS_CDN_URL ++ "/" ++ image_url)%string.

(** The media type inferred from the file extension. *)
Definition media_type_of (image_url : string) : string :=
  let u := Py.lower image_url in
  if endswith u ".png" then "image/png"
  else if (endswith u ".jpg" || endswith u ".jpeg")%bool then "image/jpeg"
  else if endswith u ".gif" then "image/gif"
  else if endswith u ".webp" then "image/webp"
  else "image/jpeg".

Definition url_part (url : string) (detail : option string) : Py.value :=
  let inner : gmap string Py.value := <["url" := Py.Str url]> ∅ in
  let inner :=
    match detail with
    | Some d => <["detail" := Py.Str d]> inner
    | None => inner
    end in
  Py.Dict (<["type" := Py.Str "image_url"]> (<["image_url" := Py.Dict inner]> ∅)).

Definition base64_part (media_type data : string) : Py.value :=
  Py.Dict (<["type" := Py.Str "image"]>
    (<["source" :=
        Py.Dict (<["type" := Py.Str "base64"]>
                   (<["media_type" := Py.Str media_type]>
                      (<["data" := Py.Str data]> ∅)))]> ∅)).

(** One pass of the loop of [format_image_content]. *)
Definition format_one_image {R} (provider : string) (formatted_content : list Py.value)
    (image_url : string) : Flow R (list Py.value) :=
  let p := Py.lower provider in
  if String.eqb p "openai" then
    pure (formatted_content ++ [url_part (full_url image_url) (Some "high")])
  else if String.eqb p "anthropic" then
    try_except
      (do content <- call (EvHttpGet (full_url image_url)) (requests_get (full_url image_url));
       let image_base64 := b64encode content in
       pure (formatted_content ++ [base64_part (media_type_of image_url) image_base64]))
      (fun _ => pure formatted_content)
  else if String.eqb p "google" then
    try_except
      (do content <- call (EvHttpGet (full_url image_url)) (requests_get (full_url image_url));
       let image_base64 := b64encode content in
       pure (formatted_content
             ++ [url_part ("data:" ++ media_type_of image_url ++ ";base64," ++ image_base64)%string
                   None]))
      (fun _ => pure formatted_content)
  else
    pure (formatted_content ++ [url_part (full_url image_url) None]).

Fixpoint format_images_from {R} (provider : string) (image_files : list string)
    (formatted_content : list Py.value) : Flow R (list Py.value) :=
  match image_files with
  | [] => pure formatted_content
  | image_url :: rest =>
      do formatted_content <- format_one_image provider formatted_content image_url;
      format_images_from provider rest formatted_content
  end.

Definition format_image_content {R} (image_files : list string) (provider : string)
    : Flow R (list Py.value) :=
  format_images_from provider image_files [].

Definition default_image_prompt : string :=
  "Please analyze and describe what you see in this image. Provide detailed information about the content, objects, text, symbols, or any other relevant details you can observe.".

Definition create_multimodal_message {R} (text_content : string)
    (image_files : list string) (provider : string) : Flow R message :=
  match image_files with
  | [] => pure (role_content "user" (Py.Str text_content))
  | _ =>
      let text_content :=
        if (negb (Py.str_truthy text_content)
            || String.eqb (Py.strip text_content) ""
            || (Py.len (Py.strip text_content) <? 5))%bool
        then default_image_prompt else text_content in
      let p := Py.lower provider in
      if (String.eqb p "openai" || String.eqb p "anthropic"
          || String.eqb p "google" || String.eqb p "openrouter")%bool
      then
        do images <- format_image_content image_files provider;
        pure (role_content "user" (Py.List (text_part text_content :: images)))
      else pure (role_content "user" (Py.Str text_content))
  end.

(** The template list of the text-only path with files:
    the system template, the history, the current question. *)
Definition build_rag_prompt (system_template : string) (messages : list message)
    (current_question_msg : message) : option (list template_message) :=
  history ←
    for_each
      (fun acc msg =>
         b ← _has_content msg;
         if b : bool then
           role ← msg !! "role";
           let content := default (Py.Str "") (msg !! "content") in
           if value_is role "user"
           then Some (acc ++ [HumanMessagePromptTemplate (py_str (Py.Str (_extract_text_content content)))])
           else Some (acc ++ [AIMessagePromptTemplate (py_str content)])
         else Some acc)
      (Py.but_last messages) [];
  Some ([SystemMessagePromptTemplate system_template] ++ history
        ++ [HumanMessagePromptTemplate
              (py_str (Py.Str (_extract_text_content
                                 (default (Py.Str "") (current_question_msg !! "content")))))]).

(** The template list of the non-streamed path without files. *)
Definition build_plain_prompt (system_template : string) (messages : list message)
    (query : string) : option (list template_message) :=
  history ←
    for_each
      (fun acc msg =>
         b ← _has_content msg;
         if b : bool then
           role ← msg !! "role";
           let content := default (Py.Str "") (msg !! "content") in
           if value_is role "user"
           then Some (acc ++ [HumanMessagePromptTemplate (py_str content)])
           else Some (acc ++ [AIMessagePromptTemplate (py_str content)])
         else Some acc)
      (Py.but_last messages) [];
  Some ([SystemMessagePromptTemplate system_template] ++ history
        ++ [HumanMessagePromptTemplate query]).

(** The template list of the streamed path without files, one entry per
    formatted message; a template must be a string. *)
Definition build_formatted_prompt (formatted_messages : list message)
    : option (list template_message) :=
  for_each
    (fun acc msg =>
       role ← msg !! "role";
       content ← msg !! "content";
       match content with
       | Py.Str template =>
           if value_is role "system" then Some (acc ++ [SystemMessagePromptTemplate template])
           else if value_is role "user" then Some (acc ++ [HumanMessagePromptTemplate template])
           else Some (acc ++ [AIMessagePromptTemplate template])
       | _ => None
       end)
    formatted_messages [].

(** *** Pieces shared by the four flows *)

Definition user_doc_field (key : string) (fallback : Py.value) : Py.value :=
  match user_doc with
  | Some d => if Py.truthy (Py.Dict d) then default fallback (d !! key) else Py.Int 0
  | None => Py.Int 0
  end.

(** The payload sent when the quota check fails. *)
Definition quota_error (estimated_points : float) : error_response :=
  {| status := 429;
     error_message := "Insufficient points available";
     details := QuotaDetails estimated_points
                  (user_doc_field "availablePoints" (Py.Int 0))
                  (user_doc_field "pointsUsed" (Py.Int 0)) |}.

(** The payload of the top-level exception handlers. *)
Definition internal_error (e : exn) : error_response :=
  {| status := 500;
     error_message := "An error occurred while processing your request";
     details := ExceptionDetails (exn_text e) |}.

(** [ai_config.model], for use where a parameter named [model] is in scope. *)
Definition configured_model (ai_config : AiConfig) : string := model ai_config.

(** The model name used for token counting. *)
Definition counting_model (ai_config : AiConfig) : string :=
  if String.eqb (Py.lower (provider ai_config)) "edith" then "llama3.1-8b"
  else model ai_config.

Definition nonempty {A} (xs : list A) : bool :=
  match xs with [] => false | _ => true end.

(** The block that ends every flow: chat log, usage log, point debit.
    Reading the user document raises when there is none. *)
Definition persist {R} (email sessionId : string) (reGenerate : bool) (title query : string)
    (full_response : string) (usage : token_usage) (outputTime : float)
    (chatType : Z) (files : list string) (model : string) (points : float)
    : Flow R unit :=
  let record :=
    {| cl_email := email; cl_sessionId := sessionId; cl_reGenerate := reGenerate;
       cl_title := title; cl_prompt := query; cl_response := full_response;
       cl_inputToken := prompt_tokens usage; cl_outputToken := completion_tokens usage;
       cl_outputTime := outputTime; cl_chatType := chatType; cl_fileUrls := files;
       cl_model := model; cl_points := points; cl_count := 1 |} in
  call (EvSaveChatLog record) (save_chat_log record) ;;
  do doc <- lift_opt "'NoneType' object has no attribute 'get'" user_doc;
  let usage_record :=
    {| ul_userId := default Py.None_ (doc !! "_id");
       ul_modelId := model;
       ul_planId := default (Py.Str "680f11c0d44970f933ae5e54") (doc !! "currentplan");
       ul_input := prompt_tokens usage; ul_output := completion_tokens usage;
       ul_total := total_tokens usage; ul_pointsUsage := points |} in
  call (EvSaveUsageLog usage_record) (save_usage_log usage_record) ;;
  call (EvSaveUserPoints points) (save_user_points points).

(** The retrieval step and the two texts it produces for chat:
    [(system_template, context)]. *)
Definition chat_context {R} (vector_store : bool) (query system_prompt : string)
    : Flow R (string * string) :=
  if vector_store then
    do docs <- call (EvRetrieve query) (retriever_ainvoke query);
    let context := py_join (nl ++ nl)%string (map context_part docs) in
    pure (rag_system_template context, context)
  else pure (plain_system_template system_prompt, "").

(** [self._get_vector_store(text_files) if text_files else None]; the
    result says whether a store was returned. *)
Definition vector_store_if_any {R} (text_files : list string) : Flow R bool :=
  match text_files with
  | [] => pure false
  | _ => call (EvVectorStore text_files) (vector_store_for text_files)
  end.

(** The loop over the streamed chunks: every non-empty chunk is appended to
    the response and yielded. *)
Fixpoint yield_chunks {R} (chunks : list string) (full_response : string)
    : Flow R string :=
  match chunks with
  | [] => pure full_response
  | chunk :: rest =>
      if Py.str_truthy chunk then
        emit (EvYield (Text chunk)) ;;
        yield_chunks rest (full_response ++ chunk)%string
      else yield_chunks rest full_response
  end.

(** Streaming from the model; a failure is re-raised as an HTTP 500. *)
Definition stream_response {R} (llm : llm_client) (p : payload) (what : string)
    : Flow R string :=
  let '(chunks, failure) := llm_astream llm p in
  emit (EvInvoke llm p) ;;
  do full_response <- yield_chunks chunks "";
  match failure with
  | None => pure full_response
  | Some e => raise (Exception ("500: " ++ what ++ exn_text e)%string)
  end.

(** Metering after a stream: the points marker, or [[POINTS]0] when the
    computation raises. *)
Definition meter_stream {R} (messages : list message) (full_response : string)
    (ai_config : AiConfig) : Flow R (token_usage * float) :=
  try_except
    (let usage := track_actual_token_usage messages full_response (model ai_config) in
     let points := get_points (prompt_tokens usage) (completion_tokens usage) ai_config in
     emit (EvYield (PointsMarker points)) ;;
     pure (usage, points))
    (fun _ =>
       emit (EvYield (Text (nl ++ nl ++ "[POINTS]0")%string)) ;;
       pure (zero_usage, 0%float)).

(** The estimate and the quota check; [true] when the user may proceed. *)
Definition estimate_and_check {R} (estimated : token_usage) (ai_config : AiConfig)
    : Flow R (float * bool) :=
  let estimated_points :=
    get_points (prompt_tokens estimated) (completion_tokens estimated) ai_config in
  do ok <- call (EvCheckQuota estimated_points)
             (check_user_available_to_chat estimated_points ai_config);
  pure (estimated_points, ok).

(** The user message for the current question, multimodal when the model
    supports images and image files were sent. *)
Definition question_message {R} (multimodal : bool) (query : string)
    (image_files : list string) (provider : string) : Flow R message :=
  if multimodal then create_multimodal_message query image_files provider
  else pure (role_content "user" (Py.Str query)).

(** *** Streamed chat *)

Definition generate_stream_response (query : string) (files : list string)
    (chat_history : list IRouterChatLog) (model : string) (email sessionId : string)
    (reGenerate : bool) (chatType : Z) (learningPrompt : string) : list event :=
  let body : Flow unit unit :=
    call (EvInitialize email) (initialize email) ;;
    emit (EvGetAiConfig model) ;;
    match get_ai_config model with
    | None => emit (EvYield (Text "Error: Invalid AI configuration")) ;; return_ tt
    | Some ai_config =>
        let llm := _get_llm ai_config true in
        do outcome <-
          (if nonempty files then
             let '(image_files, text_files) := identify_files files in
             do vector_store <- vector_store_if_any text_files;
             let '(messages, system_prompt) :=
               get_chat_messages get_system_prompt chat_history (provider ai_config) in
             let multimodal := (imageSupport ai_config && nonempty image_files)%bool in
             do question <- question_message multimodal query image_files (provider ai_config);
             let messages := messages ++ [question] in
             do texts <- chat_context vector_store query system_prompt;
             let '(system_template, context) := texts in
             do current_question_msg <-
               question_message multimodal query image_files (provider ai_config);
             do estimated_tokens <-
               lift_opt "Error estimating total tokens"
                 (estimate_total_tokens messages system_template
                    (counting_model ai_config) context);
             do checked <- estimate_and_check estimated_tokens ai_config;
             let '(estimated_points, ok) := checked in
             if negb ok then
               emit (EvYield (ErrorMarker (quota_error estimated_points))) ;; return_ tt
             else if multimodal then
               let chat_history_str := chat_history_text chat_history in
               let system_content :=
                 if vector_store then rag_system_content context chat_history_str
                 else plain_system_content system_prompt chat_history_str in
               do direct_messages <-
                 lift_opt "KeyError"
                   (build_direct_messages (provider ai_config) system_content
                      messages current_question_msg);
               do full_response <-
                 stream_response llm (Direct direct_messages)
                   "Error during multimodal streaming: ";
               do metered <- meter_stream direct_messages full_response ai_config;
               pure (full_response, metered)
             else
               do prompt <-
                 lift_opt "KeyError"
                   (build_rag_prompt system_template messages current_question_msg);
               do full_response <-
                 stream_response llm
                   (Chain (Some (chat_history_text chat_history)) prompt)
                   "Error during response streaming: ";
               do metered <- meter_stream messages full_response ai_config;
               pure (full_response, metered)
           else
             let '(messages, system_prompt) :=
               get_chat_messages get_system_prompt chat_history (provider ai_config) in
             try_except
               (do formatted_messages <-
                  lift_opt "KeyError"
                    (build_formatted_messages (provider ai_config) system_prompt
                       messages query);
                do prompt <- lift_opt "KeyError" (build_formatted_prompt formatted_messages);
                do full_response <-
                  stream_response llm (Chain None prompt)
                    "Error during response streaming: ";
                do metered <- meter_stream formatted_messages full_response ai_config;
                pure (full_response, metered))
               (fun e =>
                  emit (EvYield (ErrorMarker (internal_error e))) ;; raise e));
        let '(full_response, (usage, points)) := outcome in
        let outputTime := elapsed_seconds in
        emit (EvYield (OutputTimeMarker outputTime)) ;;
        persist email sessionId reGenerate (first_paragraph full_response) query
          full_response usage outputTime chatType files model points
    end in
  fst (try_except body
         (fun e => emit (EvYield (ErrorMarker (internal_error e))))).

(** *** Non-streamed flows

    A non-streamed flow returns one string, given here as its pieces in
    order.  [finish] is the top-level handler: the value returned, or the
    internal-error payload when an exception reaches the top. *)

Definition finish (body : Flow (list output) (list output))
    : list event * list output :=
  match body with
  | (t, Normal r) => (t, r)
  | (t, Returned r) => (t, r)
  | (t, Raised e) => (t, [ErrorMarker (internal_error e)])
  end.

(** [f"{full_response}\n\n[POINTS]{points}\n\n[OUTPUT_TIME]{outputTime}"]. *)
Definition compose_response (full_response : string) (points outputTime : float)
    : list output :=
  [Text full_response; PointsMarker points; OutputTimeMarker outputTime].

Definition generate_text_response (query : string) (files : list string)
    (chat_history : list IRouterChatLog) (model : string) (email sessionId : string)
    (reGenerate : bool) (chatType : Z) : list event * list output :=
  finish
    (call (EvInitialize email) (initialize email) ;;
     emit (EvGetAiConfig model) ;;
     match get_ai_config model with
     | None => return_ [Text "Error: Invalid AI configuration"]
     | Some ai_config =>
         let llm := _get_llm ai_config false in
         do outcome <-
           (if nonempty files then
              let '(image_files, text_files) := identify_files files in
              do vector_store <- vector_store_if_any text_files;
              let '(messages, system_prompt) :=
                get_chat_messages get_system_prompt chat_history (provider ai_config) in
              let multimodal := (imageSupport ai_config && nonempty image_files)%bool in
              do question <- question_message multimodal query image_files (provider ai_config);
              let messages := messages ++ [question] in
              do texts <- chat_context vector_store query system_prompt;
              let '(system_template, context) := texts in
              do current_question_msg <-
                question_message multimodal query image_files (provider ai_config);
              do estimated_tokens <-
                lift_opt "Error estimating total tokens"
                  (estimate_total_tokens messages system_template
                     (counting_model ai_config) context);
              do checked <- estimate_and_check estimated_tokens ai_config;
              let '(estimated_points, ok) := checked in
              if negb ok then return_ [ErrorMarker (quota_error estimated_points)]
              else if multimodal then
                let chat_history_str := chat_history_text chat_history in
                let system_content :=
                  if vector_store then rag_system_content context chat_history_str
                  else plain_system_content system_prompt chat_history_str in
                do direct_messages <-
                  lift_opt "KeyError"
                    (build_direct_messages (provider ai_config) system_content
                       messages current_question_msg);
                do full_response <-
                  call (EvInvoke llm (Direct direct_messages))
                    (llm_ainvoke llm (Direct direct_messages));
                pure (full_response,
                      track_actual_token_usage direct_messages full_response
                        (configured_model ai_config))
              else
                do prompt <-
                  lift_opt "KeyError"
                    (build_rag_prompt system_template messages current_question_msg);
                let chain := Chain (Some (chat_history_text chat_history)) prompt in
                do full_response <- call (EvInvoke llm chain) (llm_ainvoke llm chain);
                pure (full_response,
                      track_actual_token_usage messages full_response
                        (counting_model ai_config))
            else
              let '(messages, system_prompt) :=
                get_chat_messages get_system_prompt chat_history (provider ai_config) in
              let messages := messages ++ [role_content "user" (Py.Str query)] in
              let system_template := plain_system_template system_prompt in
              do estimated_tokens <-
                lift_opt "Error estimating total tokens"
                  (estimate_total_tokens messages system_template
                     (counting_model ai_config) "");
              do checked <- estimate_and_check estimated_tokens ai_config;
              let '(estimated_points, ok) := checked in
              if negb ok then return_ [ErrorMarker (quota_error estimated_points)]
              else
                do prompt <-
                  lift_opt "KeyError" (build_plain_prompt system_template messages query);
                let chain := Chain (Some (chat_history_text chat_history)) prompt in
                do full_response <- call (EvInvoke llm chain) (llm_ainvoke llm chain);
                pure (full_response,
                      track_actual_token_usage messages full_response
                        (counting_model ai_config)));
         let '(full_response, usage) := outcome in
         let outputTime := elapsed_seconds in
         let points := get_points (prompt_tokens usage) (completion_tokens usage) ai_config in
         let response := compose_response full_response points outputTime in
         persist email sessionId reGenerate (first_paragraph full_response) query
           full_response usage outputTime chatType files model points ;;
         pure response
     end).

(** The query sent to the image or speech endpoint: the plain query, or
    the query with the retrieved context in front. *)
Definition enhanced_query_for {R} (instruction : string) (vector_store : bool)
    (query : string) : Flow R string :=
  if vector_store then
    do docs <- call (EvRetrieve query) (retriever_ainvoke query);
    let context := py_join nl (map page_content docs) in
    pure ("Context from files:" ++ nl ++ context ++ nl ++ nl ++ instruction ++ query)%string
  else pure query.

(** The part of the image and audio flows that handles files: the current
    question is appended to the messages (built, then not used) and the
    enhanced query is computed. *)
Definition media_query {R} (instruction : string) (ai_config : AiConfig)
    (query : string) (files : list string) : Flow R string :=
  if nonempty files then
    let '(image_files, text_files) := identify_files files in
    do vector_store <- vector_store_if_any text_files;
    let multimodal := (imageSupport ai_config && nonempty image_files)%bool in
    do _question <- question_message multimodal query image_files (provider ai_config);
    enhanced_query_for instruction vector_store query
  else pure query.

Definition generate_image_response (query : string) (files : list string)
    (chat_history : list IRouterChatLog) (model : string) (email sessionId : string)
    (reGenerate : bool) (chatType : Z) : list event * list output :=
  finish
    (call (EvInitialize email) (initialize email) ;;
     emit (EvGetAiConfig model) ;;
     match get_ai_config model with
     | None => return_ [Text "Error: Invalid AI configuration"]
     | Some ai_config =>
         do enhanced_query <-
           media_query
             "Generate image based on this context and the following description: "
             ai_config query files;
         let estimated_tokens := estimate_image_tokens enhanced_query in
         do checked <- estimate_and_check estimated_tokens ai_config;
         let '(estimated_points, ok) := checked in
         if negb ok then return_ [ErrorMarker (quota_error estimated_points)]
         else
           do response <-
             call (EvImagesGenerate enhanced_query) (images_generate enhanced_query);
           let object_key := ("images/image_" ++ timestamp ++ ".png")%string in
           do full_response <-
             try_except
               (do _content <-
                  call (EvHttpGet (image_url response)) (requests_get (image_url response));
                call (EvUpload AWS_BUCKET_NAME object_key "image/png")
                  (upload_file AWS_BUCKET_NAME object_key "image/png") ;;
                pure (AWS_CDN_URL ++ "/" ++ object_key)%string)
               (fun _ => pure (image_url response));
           let usage := default estimated_tokens (image_usage response) in
           let points := get_points (prompt_tokens usage) (completion_tokens usage) ai_config in
           let outputTime := elapsed_seconds in
           let result := compose_response full_response points outputTime in
           persist email sessionId reGenerate "Image Generation" query
             full_response usage outputTime chatType files model points ;;
           pure result
     end).

Definition generate_audio_response (query : string) (files : list string)
    (chat_history : list IRouterChatLog) (model : string) (email sessionId : string)
    (reGenerate : bool) (chatType : Z) : list event * list output :=
  finish
    (call (EvInitialize email) (initialize email) ;;
     emit (EvGetAiConfig model) ;;
     match get_ai_config model with
     | None => return_ [Text "Error: Invalid AI configuration"]
     | Some ai_config =>
         do enhanced_query <-
           media_query
             "Generate audio based on this context and the following text: "
             ai_config query files;
         let estimated_tokens := estimate_audio_tokens enhanced_query in
         do checked <- estimate_and_check estimated_tokens ai_config;
         let '(estimated_points, ok) := checked in
         if negb ok then return_ [ErrorMarker (quota_error estimated_points)]
         else
           do _audio <-
             call (EvSpeechCreate enhanced_query) (speech_create enhanced_query);
           let object_key := ("audio/audio_" ++ timestamp ++ ".mp3")%string in
           call (EvUpload AWS_BUCKET_NAME object_key "audio/mpeg")
             (upload_file AWS_BUCKET_NAME object_key "audio/mpeg") ;;
           let full_response := (AWS_CDN_URL ++ "/" ++ object_key)%string in
           let usage := estimate_audio_tokens enhanced_query in
           let points := get_points (prompt_tokens usage) (completion_tokens usage) ai_config in
           let outputTime := elapsed_seconds in
           let result := compose_response full_response points outputTime in
           persist email sessionId reGenerate "Audio Generation" query
             full_response usage outputTime chatType files model points ;;
           pure result
     end).

End Service.

(** ** Concrete collaborators used in examples *)

(** A tokenizer that produces one token per character and knows no model
    by name, so every lookup falls back to its [cl100k_base]. *)
Definition char_encoding : Encoding :=
  {| encode := fun s => Some (map N_of_ascii (list_ascii_of_string s)) |}.

Definition char_tiktoken : Tiktoken :=
  {| encoding_for_model := fun _ => None; cl100k_base := char_encoding |}.

(** A tokenizer whose encoding rejects every text. *)
Definition failing_tiktoken : Tiktoken :=
  {| encoding_for_model := fun _ => None;
     cl100k_base := {| encode := fun _ => None |} |}.

Definition demo_config (provider : string) : AiConfig :=
  {| provider := provider; model := "demo-model";
     inputCost := 0.01%float; outputCost := 0.03%float; multiplier := 1%float;
     imageSupport := true |}.

(** A world in which every collaborator answers, the model called
    [model] is configured for [provider], the point service answers the
    quota question with [allowed], and the chat model replies "Hi there". *)
Definition demo_world (provider : string) (allowed : bool) : World :=
  {| py_repr := fun _ => "<repr>";
     b64encode := fun s => s;
     elapsed_seconds := 1.5%float;
     timestamp := "20240101_000000";
     AWS_CDN_URL := "https://cdn.example";
     AWS_BUCKET_NAME := "bucket";
     requests_get := fun _ => Ok "bytes";
     upload_file := fun _ _ _ => Ok tt;
     identify_files := fun files => ([], files);
     vector_store_for := fun _ => Ok true;
     retriever_ainvoke := fun _ => Ok [{| page_content := "chunk"; doc_source := Some "chunk_0" |}];
     initialize := fun _ => Ok tt;
     check_user_available_to_chat := fun _ _ => Ok allowed;
     user_doc := Some (<["availablePoints" := Py.Int 10]> (<["pointsUsed" := Py.Int 90]> ∅));
     save_user_points := fun _ => Ok tt;
     get_ai_config := fun _ => Some (demo_config provider);
     get_system_prompt := "You are Edith.";
     save_chat_log := fun _ => Ok tt;
     save_usage_log := fun _ => Ok tt;
     llm_astream := fun _ _ => (["Hi"; " there"], None);
     llm_ainvoke := fun _ _ => Ok "Hi there";
     images_generate := fun _ => Ok {| image_url := "https://img.example/1.png"; image_usage := None |};
     speech_create := fun _ => Ok "mp3" |}.

(** The payloads handed to a chat model in a trace. *)
Definition sent_payloads (t : list event) : list payload :=
  flat_map (fun ev => match ev with EvInvoke _ p => [p] | _ => [] end) t.

(** The outputs yielded in a trace. *)
Definition yielded (t : list event) : list output :=
  flat_map (fun ev => match ev with EvYield o => [o] | _ => [] end) t.

Definition has_system_entry (p : payload) : bool :=
  existsb (fun r => match r with Some r => String.eqb r "system" | None => false end)
    (payload_roles p).

Definition is_quota_error (o : output) : bool :=
  match o with
  | ErrorMarker e => status e =? 429
  | _ => false
  end.

(** * Specification-side definitions *)

(** ** The message assembler, declaratively *)

Definition user_message (text : string) : message := role_content "user" (Py.Str text).
Definition assistant_message (text : string) : message :=
  role_content "assistant" (Py.Str text).
Definition system_message (text : string) : message := role_content "system" (Py.Str text).

(** A turn with a non-empty prompt or a non-empty response. *)
Definition nonempty_turn (chat : IRouterChatLog) : bool :=
  (Py.str_truthy (prompt chat) || Py.str_truthy (response chat))%bool.

(** The messages one turn stands for: its prompt as a user message when
    non-empty, then its response as an assistant message when non-empty. *)
Definition turn_messages (chat : IRouterChatLog) : list message :=
  (if Py.str_truthy (prompt chat) then [user_message (prompt chat)] else [])
  ++ (if Py.str_truthy (response chat) then [assistant_message (response chat)] else []).

(** The history the DeepSeek rule keeps: nothing unless the first non-empty
    turn has a prompt; otherwise that turn, then the remaining turns. *)
Definition deepseek_history (chat_history : list IRouterChatLog) : list message :=
  match List.filter nonempty_turn chat_history with
  | [] => []
  | first_chat :: rest =>
      if Py.str_truthy (prompt first_chat)
      then user_message (prompt first_chat)
           :: (if Py.str_truthy (response first_chat)
               then [assistant_message (response first_chat)] else [])
           ++ flat_map turn_messages rest
      else []
  end.

(** ** The content-presence predicate, declaratively *)

(** A part with a text entry whose trimmed text is non-empty. *)
Definition part_has_text (part : Py.value) : Prop :=
  exists d s, part = Py.Dict d /\ d !! "text" = Some (Py.Str s) /\ Py.strip s <> "".

(** A part tagged as an image. *)
Definition part_is_image (part : Py.value) : Prop :=
  exists d t, part = Py.Dict d /\ d !! "type" = Some (Py.Str t)
              /\ (t = "image_url" \/ t = "image").

(** A part whose text entry, when it has one, is a string. *)
Definition text_is_string (part : Py.value) : Prop :=
  forall d v, part = Py.Dict d -> d !! "text" = Some v -> exists s, v = Py.Str s.

(** ** The token estimate, declaratively *)

Definition sumZ (xs : list Z) : Z := foldr Z.add 0 xs.

(** The number of tokens of a text (0 where the encoding rejects it, in
    which case the estimator has no result at all). *)
Definition tokens_of (encoding : Encoding) (s : string) : Z :=
  match encode encoding s with
  | Some tokens => Z.of_nat (length tokens)
  | None => 0
  end.

Definition string_tokens (encoding : Encoding) (v : Py.value) : Z :=
  match v with
  | Py.Str s => tokens_of encoding s
  | _ => 0
  end.

(** An [image_url] part asks for low detail. *)
Definition detail_is_low (d : gmap string Py.value) : bool :=
  match d !! "image_url" with
  | Some (Py.Dict image_url) =>
      match image_url !! "detail" with
      | Some detail => value_is detail "low"
      | None => false
      end
  | _ => false
  end.

(** Tokens of one content part: the encoded text of a text part, 85 for an
    image part of low detail and 170 for any other image part. *)
Definition part_tokens (encoding : Encoding) (part : Py.value) : Z :=
  match part with
  | Py.Dict d =>
      if field_is d "type" "text"
      then string_tokens encoding (default (Py.Str "") (d !! "text"))
      else if field_is d "type" "image_url" then (if detail_is_low d then 85 else 170)
      else if field_is d "type" "image" then 170
      else 0
  | _ => 0
  end.

(** Tokens of the content of a message: a string, a list of parts, or a
    single object with a text entry. *)
Definition content_tokens (encoding : Encoding) (content : option Py.value) : Z :=
  match content with
  | Some (Py.Str s) => tokens_of encoding s
  | Some (Py.List parts) => sumZ (map (part_tokens encoding) parts)
  | Some (Py.Dict d) =>
      match d !! "text" with
      | Some text => string_tokens encoding text
      | None => 0
      end
  | _ => 0
  end.

(** Tokens of the string-valued fields other than the content (the role,
    the name, ...). *)
Definition other_fields_tokens (encoding : Encoding) (m : message) : Z :=
  sumZ (map (fun kv : string * Py.value =>
               if String.eqb kv.1 "content" then 0 else string_tokens encoding kv.2)
          (map_to_list m)).

(** 1 when the message has a [name] field. *)
Definition name_discount (m : message) : Z :=
  match m !! "name" with
  | Some _ => 1
  | None => 0
  end.

(** The per-message count as the specification words it: the overhead of
    4, minus 1 for a name, plus the text and image parts of the content. *)
Definition claimed_message_tokens (encoding : Encoding) (m : message) : Z :=
  4 - name_discount m + content_tokens encoding (m !! "content").

Definition claimed_prompt_tokens (encoding : Encoding) (messages : list message)
    (system_template context : string) : Z :=
  sumZ (map (claimed_message_tokens encoding) messages) + 2
  + tokens_of encoding system_template + tokens_of encoding context.

(** The per-message count of the code: the same, plus the string-valued
    fields other than the content. *)
Definition message_tokens (encoding : Encoding) (m : message) : Z :=
  4 - name_discount m + content_tokens encoding (m !! "content")
  + other_fields_tokens encoding m.

Definition prompt_tokens_formula (encoding : Encoding) (messages : list message)
    (system_template context : string) : Z :=
  sumZ (map (message_tokens encoding) messages) + 2
  + tokens_of encoding system_template + tokens_of encoding context.

(** What one item of a message adds to the count. *)
Definition item_tokens (encoding : Encoding) (kv : string * Py.value) : Z :=
  (if String.eqb kv.1 "content" then content_tokens encoding (Some kv.2)
   else string_tokens encoding kv.2)
  - (if String.eqb kv.1 "name" then 1 else 0).

(** The invariant of a token usage: the total is the sum of the two parts
    and no field is negative. *)
Definition usage_invariant (u : token_usage) : Prop :=
  total_tokens u = prompt_tokens u + completion_tokens u
  /\ 0 <= prompt_tokens u /\ 0 <= completion_tokens u /\ 0 <= total_tokens u.

(** The integers [lo, lo + 1, ..., lo + n - 1]. *)
Definition int_range (lo : Z) (n : nat) : list Z := map (fun i => lo + Z.of_nat i) (seq 0 n).

(** A tokenizer that produces one token per white-space separated word. *)
Definition word_encoding : Encoding :=
  {| encode := fun s => Some (map (fun w => N.of_nat (String.length w)) (String.words s)) |}.

Definition word_tiktoken : Tiktoken :=
  {| encoding_for_model := fun _ => None; cl100k_base := word_encoding |}.

(** A content part the estimator can count without raising: a text part
    whose text, when present, is a string, and an [image_url] part whose
    [image_url] entry, when present, is an object. *)
Definition countable_part (part : Py.value) : bool :=
  match part with
  | Py.Dict d =>
      if field_is d "type" "text" then
        match d !! "text" with
        | Some (Py.Str _) | None => true
        | Some _ => false
        end
      else if field_is d "type" "image_url" then
        match d !! "image_url" with
        | Some (Py.Dict _) | None => true
        | Some _ => false
        end
      else true
  | _ => true
  end.

(** A message the estimator can count without raising. *)
Definition countable_message (m : message) : bool :=
  match m !! "content" with
  | Some (Py.List parts) => forallb countable_part parts
  | Some (Py.Dict d) =>
      match d !! "text" with
      | Some (Py.Str _) | None => true
      | Some _ => false
      end
  | _ => true
  end.

(** The pre-call estimate as the specification words it: the prompt count
    without the fields other than the content, and a response estimate of
    one and a half times the prompt count capped at 2000. *)
Definition estimate_as_claimed `{tk : Tiktoken} (messages : list message)
    (system_template model context : string) : Prop :=
  exists u, estimate_total_tokens messages system_template model context = Some u
            /\ prompt_tokens u
               = claimed_prompt_tokens (_get_encoding model) messages system_template context
            /\ completion_tokens u = Z.min (3 * prompt_tokens u / 2) 2000.

(** ** System content for Anthropic, declaratively *)

(** A message that is not a system message. *)
Definition no_system_role (m : message) : Prop := message_role m <> Some "system".

(** The content of the first message whose role is [user]. *)
Fixpoint first_user_content (messages : list message) : option Py.value :=
  match messages with
  | [] => None
  | m :: rest =>
      match message_role m with
      | Some r => if String.eqb r "user" then m !! "content" else first_user_content rest
      | None => first_user_content rest
      end
  end.

(** The system content sits in front of a content: as a prefix, followed
    by a blank line, of a string, or as the first text part of a list. *)
Definition carries_system (system_content : string) (v : Py.value) : Prop :=
  (exists s, v = Py.Str (system_content ++ nl ++ nl ++ s)%string)
  \/ (exists l, v = Py.List (text_part system_content :: l)).

(** A history message: a user or assistant message with a string content. *)
Definition history_message (m : message) : Prop :=
  exists r s, m = role_content r (Py.Str s) /\ (r = "user" \/ r = "assistant").

(** A content as the question of the current turn has it: a string, or a
    list of parts. *)
Definition question_content (content : Py.value) : Prop :=
  (exists s, content = Py.Str s) \/ (exists l, content = Py.List l).

(** No payload handed to a chat model in the trace has a system entry. *)
Definition no_system_entry_sent (t : list event) : Prop :=
  Forall (fun p => has_system_entry p = false) (sent_payloads t).

(** ** The quota gate, declaratively *)

(** Effects the quota gate protects: calls to a model provider and the two
    persisted records. *)
Definition is_gated_effect (ev : event) : bool :=
  (is_provider_call ev || is_persist ev)%bool.

(** Events that may happen before the quota check. *)
Definition quiet_event (ev : event) : bool :=
  negb (is_gated_effect ev || is_quota_check ev).

Definition unchecked_event (ev : event) : bool := negb (is_quota_check ev).

(** Every event of the flow satisfies [P]. *)
Definition only {R A} (P : event -> bool) (m : Flow R A) : Prop :=
  Forall (fun ev => P ev = true) m.1.

(** The point service said yes. *)
Definition allowed (answer : res bool) : bool :=
  match answer with
  | Ok true => true
  | _ => false
  end.

(** [guarded ok passed t]: in the trace [t], every provider call and every
    persisted record comes after a quota check that the point service
    answered with yes ([passed] says whether one already happened). *)
Fixpoint guarded (ok : float -> bool) (passed : bool) (t : list event) : bool :=
  match t with
  | [] => true
  | EvCheckQuota p :: t' => guarded ok (passed || ok p) t'
  | ev :: t' => ((negb (is_gated_effect ev) || passed) && guarded ok passed t')%bool
  end.

(** The shape of a flow with a quota gate: either it ends early (by an
    exception or a return) having done nothing the gate protects; or it
    checks once, after a quiet prefix, and then goes on without a second
    check when the answer is yes, ends with the events and the returned
    value of a denial when the answer is no, and ends with the exception
    when the check raises. *)
Definition gate_shape {R A} (answer : float -> res bool)
    (denied_events : float -> list event) (denied_result : float -> R)
    (m : Flow R A) : Prop :=
  (Forall (fun ev => quiet_event ev = true) m.1 /\ forall a, m.2 <> Normal a)
  \/ exists pre p,
       Forall (fun ev => quiet_event ev = true) pre
       /\ match answer p with
          | Ok true =>
              exists rest, m.1 = pre ++ EvCheckQuota p :: rest
                           /\ Forall (fun ev => unchecked_event ev = true) rest
          | Ok false => m = (pre ++ EvCheckQuota p :: denied_events p,
                             Returned (denied_result p))
          | Err e => m = (pre ++ [EvCheckQuota p], Raised e)
          end.

(** The answer of the point service for the model called [model]. *)
Definition quota_answer `{world : World} (model : string) (p : float) : res bool :=
  match get_ai_config model with
  | Some ai_config => check_user_available_to_chat p ai_config
  | None => Ok false
  end.

(** What the non-streamed flows promise about the gate: provider calls and
    persisted records only after a check answered with yes; and when a check
    was answered with no, the result is the quota error and the trace has
    neither a provider call nor a persisted record. *)
Definition gate_respected `{world : World} (model : string) (run : list event * list output) : Prop :=
  guarded (fun p => allowed (quota_answer model p)) false run.1 = true
  /\ forall p, EvCheckQuota p ∈ run.1 -> quota_answer model p = Ok false ->
               run.2 = [ErrorMarker (quota_error p)]
               /\ existsb is_gated_effect run.1 = false.

(** The same for a streamed flow: on a denial the trace ends with the check
    followed by the quota error being yielded. *)
Definition stream_gate_respected `{world : World} (model : string) (t : list event) : Prop :=
  guarded (fun p => allowed (quota_answer model p)) false t = true
  /\ forall p, EvCheckQuota p ∈ t -> quota_answer model p = Ok false ->
               (exists pre, t = pre ++ [EvCheckQuota p; EvYield (ErrorMarker (quota_error p))])
               /\ existsb is_gated_effect t = false.

(** A message with a role and a string content, as [get_chat_messages]
    builds them. *)
Definition plain_message (m : message) : Prop :=
  exists r s, m = role_content r (Py.Str s).

(** ** Helpers of the service that the flows do not call *)

(** [_has_multimodal_content] (the second definition of that name, which
    is the one the class keeps): some message has a list content holding an
    image part. *)
Definition _has_multimodal_content (messages : list message) : bool :=
  existsb
    (fun msg =>
       match msg !! "content" with
       | Some (Py.List l) =>
           existsb (fun item => match item with
                                | Py.Dict d => type_is_image d
                                | _ => false
                                end) l
       | _ => false
       end)
    messages.

(** [mode in ["multimodal_only", "multimodal_rag"] and bool(image_files)]. *)
Definition _should_use_direct_llm (mode : string) (image_files : list string) : bool :=
  ((String.eqb mode "multimodal_only" || String.eqb mode "multimodal_rag")
   && match image_files with [] => false | _ => true end)%bool.

(** [messages[-1]]; [None] stands for the [IndexError] on an empty list. *)
Definition last_message (messages : list message) : option message := last messages.

(** [_create_chat_messages_for_llm]; [None] stands for an exception
    ([IndexError] on an empty message list, [KeyError] on a missing key). *)
Definition _create_chat_messages_for_llm (messages : list message)
    (system_prompt current_question context chat_history_str provider : string)
    : option (list message) :=
  let formatted_messages : list message := [] in
  let system_content := system_prompt in
  let system_content :=
    if Py.str_truthy context
    then (system_content ++ nl ++ nl ++ "Context:" ++ nl ++ context)%string
    else system_content in
  let system_content :=
    if Py.str_truthy chat_history_str
    then (system_content ++ nl ++ nl ++ "Previous conversation:" ++ nl ++ chat_history_str)%string
    else system_content in
  let formatted_messages :=
    if (negb (String.eqb (Py.lower provider) "anthropic") && Py.str_truthy system_content)%bool
    then formatted_messages ++ [role_content "system" (Py.Str system_content)]
    else formatted_messages in
  history ← copy_history messages;
  let formatted_messages := formatted_messages ++ history in
  last_msg ← last_message messages;
  last_content ← last_msg !! "content";
  match last_content with
  | Py.List l => Some (formatted_messages ++ [role_content "user" (Py.List l)])
  | _ =>
      content ←
        (if (String.eqb (Py.lower provider) "anthropic" && Py.str_truthy system_content)%bool
         then
           has_user ← py_any (fun msg => role ← msg !! "role"; Some (value_is role "user"))
                       formatted_messages;
           Some (if has_user : bool then current_question
                 else (system_content ++ nl ++ nl ++ current_question)%string)
         else Some current_question);
      Some (formatted_messages ++ [role_content "user" (Py.Str content)])
  end.

Section Modes.
Context `{world : World}.

(** [_determine_processing_mode]: the mode and the image and text files to
    process; [ai_config] may be [None].  The branch that drops the images
    logs [ai_config.provider], which raises [AttributeError] when there is
    no configuration: [None] stands for that exception. *)
Definition _determine_processing_mode (files : list string) (ai_config : option AiConfig)
    : option (string * list string * list string) :=
  match files with
  | [] => Some ("text_only", [], [])
  | _ =>
      let '(image_files, text_files) := identify_files files in
      let has_images := match image_files with [] => false | _ => true end in
      let has_text_files := match text_files with [] => false | _ => true end in
      let supports_images :=
        match ai_config with
        | Some c => imageSupport c
        | None => false
        end in
      if (has_images && has_text_files)%bool then
        if supports_images then Some ("multimodal_rag", image_files, text_files)
        else
          _provider ← provider <$> ai_config;
          Some ("rag_only", [], text_files)
      else if (has_images && supports_images)%bool then
        Some ("multimodal_only", image_files, [])
      else if has_text_files then Some ("rag_only", [], text_files)
      else Some ("text_only", [], [])
  end.

End Modes.

(** ** Predicates on traces used for the persisted records *)

(** The three writes that end a flow. *)
Definition is_save (ev : event) : bool :=
  match ev with
  | EvSaveChatLog _ | EvSaveUsageLog _ | EvSaveUserPoints _ => true
  | _ => false
  end.

Definition no_save (ev : event) : bool := negb (is_save ev).

(** [save_order stage t]: in [t] the chat log is saved first, the usage log
    second and the points are debited third, each at most once ([stage]
    counts the writes already done). *)
Fixpoint save_order (stage : nat) (t : list event) : bool :=
  match t with
  | [] => true
  | EvSaveChatLog _ :: t' => (Nat.eqb stage 0 && save_order 1 t')%bool
  | EvSaveUsageLog _ :: t' => (Nat.eqb stage 1 && save_order 2 t')%bool
  | EvSaveUserPoints _ :: t' => (Nat.eqb stage 2 && save_order 3 t')%bool
  | _ :: t' => save_order stage t'
  end.

(** What the event [ev] says about billing agrees with the usage [usage]
    and the points [points]: a chat log or a usage log carries them, a debit
    is of [points], and a points marker that is yielded shows [points]. *)
Definition records (usage : token_usage) (points : float) (ev : event) : Prop :=
  match ev with
  | EvSaveChatLog r =>
      cl_inputToken r = prompt_tokens usage /\ cl_outputToken r = completion_tokens usage
      /\ cl_points r = points
  | EvSaveUsageLog r =>
      ul_input r = prompt_tokens usage /\ ul_output r = completion_tokens usage
      /\ ul_total r = total_tokens usage /\ ul_pointsUsage r = points
  | EvSaveUserPoints p => p = points
  | EvYield (PointsMarker p) => p = points
  | _ => True
  end.

(** A yield of the points marker. *)
Definition is_points_yield (ev : event) : bool :=
  match ev with
  | EvYield (PointsMarker _) => true
  | _ => false
  end.

(** An event that neither writes a record nor reports points. *)
Definition silent (ev : event) : bool := (no_save ev && negb (is_points_yield ev))%bool.

(** Every event of the flow satisfies [P], and when the flow ends by a
    [return], the value returned satisfies [Q]. *)
Definition within {R A} (P : event -> bool) (Q : R -> Prop) (m : Flow R A) : Prop :=
  only P m /\ forall r, m.2 = Returned r -> Q r.

(** A run is billed as [usage]: every record written carries that usage and
    the points [get_points] gives for it, and the points reported, in the
    stream or in the output, are those points. *)
Definition billed_as (ai_config : AiConfig) (usage : token_usage)
    (run : list event * list output) : Prop :=
  let points := get_points (prompt_tokens usage) (completion_tokens usage) ai_config in
  Forall (records usage points) run.1
  /\ forall p, PointsMarker p ∈ run.2 -> p = points.

(** The output of a non-streamed flow, by the way its body ended. *)
Definition result_of (e : ending (list output) (list output)) : list output :=
  match e with
  | Normal r => r
  | Returned r => r
  | Raised e => [ErrorMarker (internal_error e)]
  end.

(** A flow is billed as some usage that satisfies [I]; [out] gives the
    output by the way the flow ended. *)
Definition billing {R A} (ai_config : AiConfig) (I : token_usage -> Prop)
    (out : ending R A -> list output) (m : Flow R A) : Prop :=
  exists usage, I usage /\ billed_as ai_config usage (m.1, out m.2).

(** The part of the streamed flow that ends with the meter: when it ends
    normally, the points it passes on are those of the usage it passes on
    and the points marker it yielded shows them; when it ends early, it has
    yielded no points marker. *)
Definition metered {R} (ai_config : AiConfig) (I : token_usage -> Prop)
    (m : Flow R (string * (token_usage * float))) : Prop :=
  match m.2 with
  | Normal (_, (usage, points)) =>
      points = get_points (prompt_tokens usage) (completion_tokens usage) ai_config
      /\ I usage /\ Forall (records usage points) m.1
  | _ => only silent m
  end.

(** The world of [demo_world "openai" true] in which the point service
    answers the initialisation with [init] and the database answers every
    model lookup with [ai_config]. *)
Definition broken_world (init : res unit) (ai_config : option AiConfig) : World :=
  {| py_repr := fun _ => "<repr>";
     b64encode := fun s => s;
     elapsed_seconds := 1.5%float;
     timestamp := "20240101_000000";
     AWS_CDN_URL := "https://cdn.example";
     AWS_BUCKET_NAME := "bucket";
     requests_get := fun _ => Ok "bytes";
     upload_file := fun _ _ _ => Ok tt;
     identify_files := fun files => ([], files);
     vector_store_for := fun _ => Ok true;
     retriever_ainvoke := fun _ => Ok [{| page_content := "chunk"; doc_source := Some "chunk_0" |}];
     initialize := fun _ => init;
     check_user_available_to_chat := fun _ _ => Ok true;
     user_doc := Some (<["availablePoints" := Py.Int 10]> (<["pointsUsed" := Py.Int 90]> ∅));
     save_user_points := fun _ => Ok tt;
     get_ai_config := fun _ => ai_config;
     get_system_prompt := "You are Edith.";
     save_chat_log := fun _ => Ok tt;
     save_usage_log := fun _ => Ok tt;
     llm_astream := fun _ _ => (["Hi"; " there"], None);
     llm_ainvoke := fun _ _ => Ok "Hi there";
     images_generate := fun _ => Ok {| image_url := "https://img.example/1.png"; image_usage := None |};
     speech_create := fun _ => Ok "mp3" |}.

(** The text of the chunks yielded in a trace, in order. *)
Definition yielded_text (t : list event) : list string :=
  flat_map (fun ev => match ev with EvYield (Text s) => [s] | _ => [] end) t.

(** A content part that stands for an image, as [format_image_content]
    builds them. *)
Definition image_part (v : Py.value) : Prop :=
  (exists url detail, v = url_part url detail)
  \/ (exists media_type data, v = base64_part media_type data).

(** The text [create_multimodal_message] sends: the default prompt when
    images are attached and the trimmed text has fewer than 5 characters. *)
Definition effective_text (text_content : string) (image_files : list string) : string :=
  match image_files with
  | [] => text_content
  | _ =>
      if (negb (Py.str_truthy text_content)
          || String.eqb (Py.strip text_content) ""
          || (Py.len (Py.strip text_content) <? 5))%bool
      then default_image_prompt else text_content
  end.

(** A message whose content is a string with something else than white
    space in it. *)
Definition has_text (m : message) : bool :=
  match m !! "content" with
  | Some (Py.Str s) => Py.str_truthy (Py.strip s)
  | _ => false
  end.

(** What [format_image_content] produces for one file when the provider
    needs no download: a URL part, with the detail hint for OpenAI. *)
Definition url_part_for `{world : World} (provider image_url : string) : Py.value :=
  url_part (full_url image_url)
    (if String.eqb (Py.lower provider) "openai" then Some "high" else None).

(** What it produces for Anthropic: the encoded bytes when the download
    succeeds, nothing when it fails. *)
Definition anthropic_parts `{world : World} (image_url : string) : list Py.value :=
  match requests_get (full_url image_url) with
  | Ok content => [base64_part (media_type_of image_url) (b64encode content)]
  | Err _ => []
  end.

(** The concatenation of a list of strings. *)
Definition concat_strings (xs : list string) : string := fold_right String.append "" xs.

(** * Properties *)

(** ** Billing *)

(** C1: for every configuration and every pair of token counts,
    [get_points] returns exactly
    (inputToken * inputCost + outputToken * outputCost) * multiplier / 0.001,
    with the operations of binary64 floating point in that order. *)
Theorem get_points_formula (ai_config : AiConfig) (inputToken outputToken : Z) :
  get_points inputToken outputToken ai_config
  = billing_formula inputToken outputToken
      (inputCost ai_config) (outputCost ai_config) (multiplier ai_config).
Proof. destruct ai_config as [p m ic oc mu img]. reflexivity. Qed.

(** The scenario of the specification: 1000 prompt tokens and 500
    completion tokens at rates 0.01 and 0.03 cost 25000 points. *)
Example get_points_scenario :
  get_points 1000 500 (demo_config "openai") = 25000%float.
Proof. vm_compute. reflexivity. Qed.

(** The scaling constant matters: dividing by 0.001 and multiplying by 1000
    differ in floating point. *)
Example get_points_scale_is_a_division :
  get_points 35 0 (demo_config "openai") = 350%float
  /\ ((Py.float_of_int 35 * 0.01 + Py.float_of_int 0 * 0.03) * 1 * 1000)%float
     = 350.00000000000006%float.
Proof. split; vm_compute; reflexivity. Qed.

(** ** Image and audio estimates *)

(** C7: [estimate_image_tokens] returns [len(text) // 4] prompt tokens, no
    completion tokens and a total equal to the prompt tokens, and
    [estimate_audio_tokens] satisfies the same postcondition. *)
Theorem estimate_media_tokens_postcondition (text : string) :
  (prompt_tokens (estimate_image_tokens text) = Py.len text / 4
   /\ completion_tokens (estimate_image_tokens text) = 0
   /\ total_tokens (estimate_image_tokens text)
      = prompt_tokens (estimate_image_tokens text))
  /\ (prompt_tokens (estimate_audio_tokens text) = Py.len text / 4
      /\ completion_tokens (estimate_audio_tokens text) = 0
      /\ total_tokens (estimate_audio_tokens text)
         = prompt_tokens (estimate_audio_tokens text)).
Proof. unfold estimate_image_tokens, estimate_audio_tokens; simpl. tauto. Qed.

(** The quotient is the floor of a quarter of the length. *)
Lemma estimate_image_tokens_bounds (text : string) :
  4 * prompt_tokens (estimate_image_tokens text) <= Py.len text
  < 4 * prompt_tokens (estimate_image_tokens text) + 4.
Proof.
  unfold estimate_image_tokens; simpl.
  pose proof (Z.div_mod (Py.len text) 4 ltac:(lia)) as Hdm.
  pose proof (Z.mod_pos_bound (Py.len text) 4 ltac:(lia)) as Hb.
  lia.
Qed.

Example estimate_image_tokens_11 :
  estimate_image_tokens "a red house" =
  {| prompt_tokens := 2; completion_tokens := 0; total_tokens := 2 |}.
Proof. reflexivity. Qed.

(** C10: the image and the audio estimate are the same function: on every
    input they return the same token usage. *)
Theorem estimate_image_audio_agree (text : string) :
  estimate_image_tokens text = estimate_audio_tokens text.
Proof. unfold estimate_image_tokens, estimate_audio_tokens. reflexivity. Qed.

(** ** Provider selector *)

Lemma eqb_false_of_not_elem (p s : string) (vendors : list string) :
  p ∉ vendors -> s ∈ vendors -> String.eqb p s = false.
Proof.
  intros Hp Hs. apply String.eqb_neq. intros ->. contradiction.
Qed.

(** C8: a provider string that, lower-cased, is none of the enumerated
    vendors selects the OpenAI client with the configured model, a cap of
    2000 tokens and the given streaming flag. *)
Theorem get_llm_unknown_provider_is_openai (ai_config : AiConfig) (isStream : bool) :
  Py.lower (provider ai_config) ∉ enumerated_vendors ->
  _get_llm ai_config isStream =
  {| llm_class := ChatOpenAI; llm_temperature := false; llm_streaming := isStream;
     llm_model := model ai_config; llm_max_tokens := 2000;
     llm_api_key := Some OPENAI_API_KEY; llm_stream_usage := isStream;
     llm_base_url := None |}.
Proof.
  intros Hp. unfold _get_llm.
  assert (Hv : forall s, s ∈ enumerated_vendors ->
                         String.eqb (Py.lower (provider ai_config)) s = false)
    by (intros s Hs; eapply eqb_false_of_not_elem; eauto).
  rewrite !Hv by (unfold enumerated_vendors; set_solver).
  reflexivity.
Qed.

Lemma get_llm_unknown_provider_is_openai_witness :
  (Py.lower (provider (demo_config "Acme-AI")) ∉ enumerated_vendors)
  /\ _get_llm (demo_config "Acme-AI") true =
     {| llm_class := ChatOpenAI; llm_temperature := false; llm_streaming := true;
        llm_model := "demo-model"; llm_max_tokens := 2000;
        llm_api_key := Some OPENAI_API_KEY; llm_stream_usage := true;
        llm_base_url := None |}.
Proof.
  assert (H : Py.lower (provider (demo_config "Acme-AI")) ∉ enumerated_vendors).
  { apply (bool_decide_unpack _). vm_compute. exact I. }
  split; [exact H | exact (get_llm_unknown_provider_is_openai (demo_config "Acme-AI") true H)].
Defined.

(** The selection is case-insensitive on the enumerated names, and the
    plain name "openai" takes the default branch. *)
Example get_llm_case_insensitive :
  llm_class (_get_llm (demo_config "AnThRoPiC") true) = ChatAnthropic
  /\ llm_class (_get_llm (demo_config "openai") false) = ChatOpenAI
  /\ llm_base_url (_get_llm (demo_config "OpenRouter") false)
     = Some (Literal "https://openrouter.ai/api/v1").
Proof. repeat split; reflexivity. Qed.

(** ** Message assembler: history *)

Section History.

Lemma fold_append_turn (rest : list IRouterChatLog) (messages : list message) :
  fold_left append_turn rest messages = messages ++ flat_map turn_messages rest.
Proof.
  revert messages. induction rest as [|chat rest IH]; intros messages; simpl.
  - by rewrite app_nil_r.
  - rewrite IH. unfold append_turn, turn_messages, user_message, assistant_message.
    destruct (Py.str_truthy (prompt chat)), (Py.str_truthy (response chat));
      simpl; rewrite <- ?app_assoc; simpl; try reflexivity.
Qed.

Lemma lower_edith : Py.lower "edith" = "edith".
Proof. reflexivity. Qed.

(** A provider that lower-cases to something else than "edith" is not
    "edith" itself. *)
Lemma not_edith (provider other : string) :
  Py.lower provider = other -> other <> "edith" -> String.eqb provider "edith" = false.
Proof.
  intros Hl Hne. apply String.eqb_neq. intros ->. rewrite lower_edith in Hl. congruence.
Qed.

(** Empty turns contribute no message, so filtering them out first does not
    change what the plain flattening produces. *)
Lemma flat_map_nonempty_turns (chat_history : list IRouterChatLog) :
  flat_map turn_messages (List.filter nonempty_turn chat_history)
  = flat_map turn_messages chat_history.
Proof.
  induction chat_history as [|chat rest IH]; simpl; [reflexivity|].
  destruct (nonempty_turn chat) eqn:Hn; simpl; rewrite IH; [reflexivity|].
  unfold nonempty_turn in Hn. apply orb_false_elim in Hn as [Hp Hr].
  assert (Hempty : turn_messages chat = [])
    by (unfold turn_messages; rewrite Hp, Hr; reflexivity).
  rewrite Hempty. reflexivity.
Qed.

End History.

(** The DeepSeek branch, computed. *)
Lemma get_chat_messages_deepseek_branch (db_system_prompt provider : string)
    (chat_history : list IRouterChatLog) :
  Py.lower provider = "deepseek" ->
  get_chat_messages db_system_prompt chat_history provider
  = (system_message "" :: deepseek_history chat_history, "").
Proof.
  intros Hp. unfold get_chat_messages, deepseek_history.
  rewrite (not_edith provider "deepseek" Hp) by discriminate.
  rewrite Hp. simpl.
  change (fun chat => (Py.str_truthy (prompt chat) || Py.str_truthy (response chat))%bool)
    with nonempty_turn.
  destruct (List.filter nonempty_turn chat_history) as [|first_chat rest]; [reflexivity|].
  destruct (Py.str_truthy (prompt first_chat)); simpl; [|reflexivity].
  rewrite fold_append_turn.
  destruct (Py.str_truthy (response first_chat)); reflexivity.
Qed.

(** C5: for provider deepseek, [get_chat_messages] keeps the turns with a
    non-empty prompt or response; when none remains, or the first remaining
    turn has no prompt, it returns the system message alone; otherwise it
    emits the first turn's prompt as a user message, its response (if any) as
    an assistant message, and then the remaining turns in order. *)
Theorem get_chat_messages_deepseek (db_system_prompt provider : string)
    (chat_history : list IRouterChatLog) :
  Py.lower provider = "deepseek" ->
  let kept := List.filter nonempty_turn chat_history in
  get_chat_messages db_system_prompt chat_history provider
  = (system_message ""
       :: match kept with
          | [] => []
          | first_chat :: rest =>
              if Py.str_truthy (prompt first_chat)
              then user_message (prompt first_chat)
                   :: (if Py.str_truthy (response first_chat)
                       then [assistant_message (response first_chat)] else [])
                   ++ flat_map turn_messages rest
              else []
          end,
     "").
Proof.
  intros Hp kept. rewrite (get_chat_messages_deepseek_branch _ _ _ Hp).
  reflexivity.
Qed.

Lemma get_chat_messages_deepseek_witness :
  Py.lower "DeepSeek" = "deepseek"
  /\ get_chat_messages "ignored"
       [ {| prompt := ""; response := "" |};
         {| prompt := "hi"; response := "hello" |};
         {| prompt := ""; response := "again" |} ] "DeepSeek"
     = ([system_message ""; user_message "hi"; assistant_message "hello";
         assistant_message "again"], "").
Proof.
  split; [reflexivity|].
  exact (get_chat_messages_deepseek "ignored" "DeepSeek" _ eq_refl).
Defined.

(** The degrade rule at work: a history whose first non-empty turn has only
    a response is dropped as a whole. *)
Example get_chat_messages_deepseek_discards :
  get_chat_messages "ignored"
    [ {| prompt := ""; response := "orphan answer" |};
      {| prompt := "hi"; response := "hello" |} ] "deepseek"
  = ([system_message ""], "").
Proof. reflexivity. Qed.

(** When the first non-empty turn has a prompt, DeepSeek gets what every
    other provider with a system message gets. *)
Lemma get_chat_messages_deepseek_well_formed (db_system_prompt : string)
    (chat_history : list IRouterChatLog) (first_chat : IRouterChatLog)
    (rest : list IRouterChatLog) :
  List.filter nonempty_turn chat_history = first_chat :: rest ->
  Py.str_truthy (prompt first_chat) = true ->
  get_chat_messages db_system_prompt chat_history "deepseek"
  = get_chat_messages db_system_prompt chat_history "openai".
Proof.
  intros Hf Hp.
  rewrite (get_chat_messages_deepseek_branch _ "deepseek") by reflexivity.
  unfold get_chat_messages at 1. simpl. rewrite fold_append_turn. simpl.
  rewrite <- flat_map_nonempty_turns.
  unfold deepseek_history. rewrite Hf, Hp. simpl.
  unfold turn_messages at 2. rewrite Hp. simpl.
  reflexivity.
Qed.
(** ** Message assembler: the content-presence predicate *)

Section HasContent.

Lemma str_truthy_eqb (s : string) : Py.str_truthy s = negb (String.eqb s "").
Proof. destruct s; reflexivity. Qed.

Lemma str_truthy_true (s : string) : Py.str_truthy s = true <-> s <> "".
Proof. destruct s; simpl; split; congruence. Qed.

Lemma lstrip_empty (s : string) :
  Py.lstrip s = "" <-> forallb Py.isspace (list_ascii_of_string s) = true.
Proof.
  induction s as [|a s IH]; simpl; [tauto|].
  destruct (Py.isspace a); simpl; [exact IH|]. split; discriminate.
Qed.

(** What [lstrip] leaves starts with a character that is not white space. *)
Lemma lstrip_head (s : string) (a : ascii) (t : string) :
  Py.lstrip s = String a t -> Py.isspace a = false.
Proof.
  induction s as [|b s IH]; simpl; [discriminate|].
  destruct (Py.isspace b) eqn:Hb; [exact IH|]. intros [= <- <-]. exact Hb.
Qed.

Lemma rev_app_chars (s acc : string) :
  list_ascii_of_string (String.rev_app s acc)
  = rev (list_ascii_of_string s) ++ list_ascii_of_string acc.
Proof.
  revert acc. induction s as [|a s IH]; intros acc; simpl; [reflexivity|].
  rewrite IH. simpl. by rewrite <- app_assoc.
Qed.

Lemma rev_chars (s : string) :
  list_ascii_of_string (String.rev s) = rev (list_ascii_of_string s).
Proof. unfold String.rev. rewrite rev_app_chars. simpl. by rewrite app_nil_r. Qed.

Lemma chars_empty (s : string) : list_ascii_of_string s = [] <-> s = "".
Proof. destruct s; simpl; split; congruence. Qed.

Lemma rstrip_empty (s : string) :
  Py.rstrip s = "" <-> forallb Py.isspace (list_ascii_of_string s) = true.
Proof.
  unfold Py.rstrip. rewrite <- chars_empty, rev_chars.
  rewrite <- (rev_involutive []). simpl.
  split.
  - intros H. apply (f_equal (@rev ascii)) in H. rewrite rev_involutive in H. simpl in H.
    apply chars_empty, lstrip_empty in H. rewrite rev_chars in H.
    rewrite forallb_forall in *. intros x Hx. apply H, in_rev. by rewrite rev_involutive.
  - intros H.
    assert (Hs : Py.lstrip (String.rev s) = "").
    { apply lstrip_empty. rewrite rev_chars. rewrite forallb_forall in *.
      intros x Hx. apply H. by apply in_rev. }
    by rewrite Hs.
Qed.

(** The trimmed string is empty exactly when the string is made of white
    space only. *)
Lemma strip_empty (s : string) :
  Py.strip s = "" <-> forallb Py.isspace (list_ascii_of_string s) = true.
Proof.
  unfold Py.strip. rewrite rstrip_empty. split.
  - intros H. destruct (Py.lstrip s) as [|a t] eqn:Hl; [by apply lstrip_empty|].
    simpl in H. by rewrite (lstrip_head _ _ _ Hl) in H.
  - intros H. apply lstrip_empty in H. by rewrite H.
Qed.

Lemma text_field_present_spec (d : gmap string Py.value) :
  (forall v, d !! "text" = Some v -> exists s, v = Py.Str s) ->
  exists b, text_field_present d = Some b
            /\ (b = true <-> exists s, d !! "text" = Some (Py.Str s) /\ Py.strip s <> "").
Proof.
  intros Hwf. unfold text_field_present.
  destruct (d !! "text") as [v|] eqn:Hv.
  - destruct (Hwf v eq_refl) as [s ->]. eexists; split; [reflexivity|].
    rewrite str_truthy_true. split.
    + intros H. by exists s.
    + by intros (s' & [= <-] & H).
  - exists false. split; [reflexivity|]. split; [discriminate|]. by intros (s & ? & _).
Qed.

Lemma type_is_image_spec (d : gmap string Py.value) :
  type_is_image d = true
  <-> exists t, d !! "type" = Some (Py.Str t) /\ (t = "image_url" \/ t = "image").
Proof.
  unfold type_is_image. destruct (d !! "type") as [[t| | | |]|]; simpl;
    try (split; [discriminate | by intros (t' & ? & _)]).
  rewrite orb_true_iff, !String.eqb_eq. split.
  - intros H. by exists t.
  - by intros (t' & [= <-] & H).
Qed.

Lemma item_has_content_spec (part : Py.value) :
  text_is_string part ->
  exists b, item_has_content part = Some b
            /\ (b = true <-> part_has_text part \/ part_is_image part).
Proof.
  intros Hwf. unfold item_has_content, part_has_text, part_is_image.
  destruct part as [s|l|d|z|];
    try (exists false; split; [reflexivity|]; split; [discriminate|];
         by intros [(d & ? & ? & _)|(d & ? & ? & _)]).
  destruct (text_field_present_spec d) as (b & -> & Hb); [intros v Hv; by apply (Hwf d v)|].
  destruct b.
  - exists true. split; [reflexivity|]. split; [|done]. intros _. left.
    destruct (proj1 Hb eq_refl) as (s & Hs & Hne). by exists d, s.
  - eexists; split; [reflexivity|]. rewrite type_is_image_spec. split.
    + intros (t & Ht & Hor). right. by exists d, t.
    + intros [(d' & s & [= <-] & Hs & Hne)|(d' & t & [= <-] & Ht & Hor)].
      * assert (false = true) by (apply Hb; by exists s). discriminate.
      * by exists t.
Qed.

Lemma py_any_item_has_content (l : list Py.value) :
  Forall text_is_string l ->
  exists b, py_any item_has_content l = Some b
            /\ (b = true <-> Exists (fun part => part_has_text part \/ part_is_image part) l).
Proof.
  induction 1 as [|part l Hpart _ IH]; simpl.
  - exists false. split; [reflexivity|]. split; [discriminate|]. by intros ?%Exists_nil.
  - destruct (item_has_content_spec part Hpart) as (b & -> & Hb). destruct b.
    + exists true. split; [reflexivity|]. split; [|done]. intros _.
      apply Exists_cons_hd. by apply Hb.
    + destruct IH as (b' & -> & Hb'). exists b'. split; [reflexivity|].
      rewrite Exists_cons, <- Hb', <- Hb. intuition discriminate.
Qed.

End HasContent.

(** C9: [_has_content] is true for a string content exactly when the
    trimmed string is non-empty, and for a list content exactly when some
    part has non-empty trimmed text or is an image part; an empty string
    gives false and a list holding one [image_url] part gives true. *)
Theorem has_content_characterisation (m : message) (s : string) (l : list Py.value)
    (image_fields : gmap string Py.value) :
  Forall text_is_string l ->
  image_fields !! "text" = None ->
  _has_content (<["content" := Py.Str s]> m) = Some (negb (String.eqb (Py.strip s) ""))
  /\ (exists b, _has_content (<["content" := Py.List l]> m) = Some b
                /\ (b = true
                    <-> Exists (fun part => part_has_text part \/ part_is_image part) l))
  /\ _has_content (<["content" := Py.Str ""]> m) = Some false
  /\ _has_content
       (<["content" := Py.List [Py.Dict (<["type" := Py.Str "image_url"]> image_fields)]]> m)
     = Some true.
Proof.
  intros Hl Himg. unfold _has_content. rewrite !lookup_insert_eq.
  split; [|split; [|split]].
  - destruct s as [|a s]; [reflexivity|]. cbn [Py.truthy Py.str_truthy negb].
    by rewrite str_truthy_eqb.
  - destruct l as [|part l'].
    + exists false. split; [reflexivity|]. split; [discriminate|]. by intros ?%Exists_nil.
    + cbn [Py.truthy negb]. by apply py_any_item_has_content.
  - reflexivity.
  - cbn [Py.truthy negb py_any item_has_content].
    unfold text_field_present. rewrite lookup_insert_ne by discriminate.
    rewrite Himg. unfold type_is_image. by rewrite lookup_insert_eq.
Qed.

Lemma has_content_characterisation_witness :
  Forall text_is_string [text_part "  "; text_part " hi "]
  /\ (∅ : gmap string Py.value) !! "text" = None
  /\ _has_content (<["content" := Py.Str " a "]> (user_message "x")) = Some true
  /\ _has_content (<["content" := Py.List [text_part "  "; text_part " hi "]]> ∅) = Some true.
Proof.
  assert (Hwf : Forall text_is_string [text_part "  "; text_part " hi "]).
  { repeat constructor; intros d v [= <-]; vm_compute; intros [= <-]; eauto. }
  pose proof (has_content_characterisation (user_message "x") " a "
                [text_part "  "; text_part " hi "] ∅ Hwf eq_refl) as (Hs & _ & _ & _).
  split; [exact Hwf|]. split; [reflexivity|]. split; [exact Hs|].
  vm_compute. reflexivity.
Defined.

(** The four shapes side by side. *)
Example has_content_examples :
  _has_content (user_message "") = Some false
  /\ _has_content (user_message "   ") = Some false
  /\ _has_content (role_content "user" (Py.List [url_part "https://x/y.png" None]))
     = Some true
  /\ _has_content (role_content "user" (Py.List [text_part " "])) = Some false
  /\ _has_content (role_content "user" (Py.List [text_part " "; Py.Dict (<["text" := Py.None_]> ∅)]))
     = None.
Proof. repeat split; vm_compute; reflexivity. Qed.

(** ** Token estimator *)

Section EstimatorProps.
Context `{tk : Tiktoken}.
Implicit Types (encoding : Encoding) (m : message) (n : Z).

Lemma sumZ_app (xs ys : list Z) : sumZ (xs ++ ys) = sumZ xs + sumZ ys.
Proof. induction xs as [|x xs IH]; simpl; [reflexivity|]. rewrite IH. lia. Qed.

Lemma sumZ_cons (x : Z) (xs : list Z) : sumZ (x :: xs) = x + sumZ xs.
Proof. reflexivity. Qed.

Lemma sumZ_perm (xs ys : list Z) : xs ≡ₚ ys -> sumZ xs = sumZ ys.
Proof. induction 1; simpl; lia. Qed.

Lemma sumZ_nonneg (xs : list Z) : Forall (fun x => 0 <= x) xs -> 0 <= sumZ xs.
Proof. induction 1; simpl; lia. Qed.

Lemma tokens_of_nonneg encoding (s : string) : 0 <= tokens_of encoding s.
Proof. unfold tokens_of. destruct (encode encoding s); lia. Qed.

Lemma string_tokens_nonneg encoding (v : Py.value) : 0 <= string_tokens encoding v.
Proof. destruct v; simpl; try lia. apply tokens_of_nonneg. Qed.

Lemma encoded_len_Some encoding (v : Py.value) (n : Z) :
  encoded_len encoding v = Some n -> n = string_tokens encoding v.
Proof.
  destruct v as [s| | | |]; simpl; try discriminate. unfold tokens_of.
  destruct (encode encoding s); [|discriminate]. by intros [= <-].
Qed.

(** *** The loops compute sums *)

Lemma content_item_step_Some encoding n (part : Py.value) (n' : Z) :
  content_item_step encoding n part = Some n' -> n' = n + part_tokens encoding part.
Proof.
  unfold content_item_step, part_tokens, detail_is_low.
  destruct part as [s|l|d|z|]; try (intros [= <-]; lia).
  destruct (field_is d "type" "text").
  { destruct (encoded_len encoding (default (Py.Str "") (d !! "text"))) as [k|] eqn:Hk;
      simpl; [|discriminate].
    apply encoded_len_Some in Hk. intros [= <-]. lia. }
  destruct (field_is d "type" "image_url").
  { destruct (d !! "image_url") as [[s|l|iu|z|]|]; simpl; try discriminate.
    - destruct (iu !! "detail") as [detail|]; simpl.
      + destruct (value_is detail "low"); by intros [= <-].
      + by intros [= <-].
    - rewrite lookup_empty. simpl. by intros [= <-]. }
  destruct (field_is d "type" "image"); intros [= <-]; lia.
Qed.

Lemma content_items_loop encoding (parts : list Py.value) n (n' : Z) :
  for_each (content_item_step encoding) parts n = Some n' ->
  n' = n + sumZ (map (part_tokens encoding) parts).
Proof.
  revert n. induction parts as [|part parts IH]; intros n; simpl.
  - intros [= <-]. lia.
  - destruct (content_item_step encoding n part) as [k|] eqn:Hk; [|discriminate].
    apply content_item_step_Some in Hk. intros H%IH. lia.
Qed.

Lemma item_value_step_Some encoding n (key : string) (value : Py.value) (n' : Z) :
  item_value_step encoding n key value = Some n' ->
  n' = n + (if String.eqb key "content" then content_tokens encoding (Some value)
            else string_tokens encoding value).
Proof.
  unfold item_value_step. destruct (String.eqb key "content").
  - destruct value as [s|l|d|z|]; simpl; try (intros [= <-]; lia).
    + unfold tokens_of. destruct (encode encoding s); simpl; [|discriminate].
      by intros [= <-].
    + apply content_items_loop.
    + destruct (d !! "text") as [text|]; [|intros [= <-]; lia].
      destruct (encoded_len encoding text) as [k|] eqn:Hk; simpl; [|discriminate].
      apply encoded_len_Some in Hk. intros [= <-]. lia.
  - destruct value as [s|l|d|z|]; simpl; try (intros [= <-]; lia).
    unfold tokens_of. destruct (encode encoding s); simpl; [|discriminate].
    by intros [= <-].
Qed.

Lemma item_step_Some encoding n (kv : string * Py.value) (n' : Z) :
  item_step encoding n kv = Some n' -> n' = n + item_tokens encoding kv.
Proof.
  destruct kv as [key value]. unfold item_step, item_tokens. cbn [fst snd].
  destruct (item_value_step encoding n key value) as [k|] eqn:Hk; [|discriminate].
  apply item_value_step_Some in Hk. cbn [mbind option_bind]. intros [= <-].
  destruct (String.eqb key "name"); lia.
Qed.

Lemma items_loop encoding (items : list (string * Py.value)) n (n' : Z) :
  for_each (item_step encoding) items n = Some n' ->
  n' = n + sumZ (map (item_tokens encoding) items).
Proof.
  revert n. induction items as [|kv items IH]; intros n; simpl.
  - intros [= <-]. lia.
  - destruct (item_step encoding n kv) as [k|] eqn:Hk; [|discriminate].
    apply item_step_Some in Hk. intros H%IH. lia.
Qed.

(** *** Sums over the items of a dict *)

(** Summing, over the items of a dict, a quantity that is zero off one key
    gives the quantity at that key. *)
Lemma sum_at_key (g : Py.value -> Z) (key : string) m :
  sumZ (map (fun kv : string * Py.value => if String.eqb kv.1 key then g kv.2 else 0)
          (map_to_list m))
  = match m !! key with Some v => g v | None => 0 end.
Proof.
  induction m as [|i x m Hi IH] using map_ind.
  - by rewrite map_to_list_empty, lookup_empty.
  - rewrite (sumZ_perm _ _ (Permutation_map _ (map_to_list_insert m i x Hi))).
    rewrite map_cons, sumZ_cons, IH. cbn [fst snd]. destruct (String.eqb i key) eqn:E.
    + apply String.eqb_eq in E as ->. rewrite lookup_insert_eq, Hi. lia.
    + apply String.eqb_neq in E. by rewrite lookup_insert_ne.
Qed.

Lemma sumZ_map_add {A} (f g : A -> Z) (xs : list A) :
  sumZ (map (fun x => f x + g x) xs) = sumZ (map f xs) + sumZ (map g xs).
Proof. induction xs as [|x xs IH]; simpl; lia. Qed.

Lemma sumZ_map_ext {A} (f g : A -> Z) (xs : list A) :
  (forall x, f x = g x) -> sumZ (map f xs) = sumZ (map g xs).
Proof. intros H. induction xs as [|x xs IH]; simpl; [reflexivity|]. rewrite H, IH. lia. Qed.

(** The items of a message add up to its content, its other string
    fields, and the discount for a name. *)
Lemma items_sum encoding m :
  sumZ (map (item_tokens encoding) (map_to_list m))
  = content_tokens encoding (m !! "content") + other_fields_tokens encoding m
    - name_discount m.
Proof.
  unfold other_fields_tokens, name_discount.
  pose proof (sum_at_key (fun v => content_tokens encoding (Some v)) "content" m) as Hc.
  pose proof (sum_at_key (fun _ => -1) "name" m) as Hn.
  assert (Hcontent : content_tokens encoding (m !! "content")
                     = match m !! "content" with
                       | Some v => content_tokens encoding (Some v) | None => 0 end)
    by (destruct (m !! "content"); reflexivity).
  rewrite Hcontent, <- Hc.
  assert (Hname : - match m !! "name" with Some _ => 1 | None => 0 end
                  = match m !! "name" with Some _ => -1 | None => 0 end)
    by (destruct (m !! "name"); reflexivity).
  transitivity
    (sumZ (map (fun kv : string * Py.value =>
                  (if String.eqb kv.1 "content"
                   then content_tokens encoding (Some kv.2) else 0)
                  + ((if String.eqb kv.1 "content" then 0 else string_tokens encoding kv.2)
                     + (if String.eqb kv.1 "name" then -1 else 0)))
             (map_to_list m))).
  - apply sumZ_map_ext. intros [k v]. unfold item_tokens. simpl.
    destruct (String.eqb k "content"), (String.eqb k "name"); lia.
  - rewrite !sumZ_map_add, Hn. lia.
Qed.

Lemma message_step_Some encoding n m (n' : Z) :
  message_step encoding n m = Some n' -> n' = n + message_tokens encoding m.
Proof.
  unfold message_step, message_tokens. intros H%items_loop.
  rewrite items_sum in H. lia.
Qed.

Lemma messages_loop encoding (messages : list message) n (n' : Z) :
  for_each (message_step encoding) messages n = Some n' ->
  n' = n + sumZ (map (message_tokens encoding) messages).
Proof.
  revert n. induction messages as [|m messages IH]; intros n; simpl.
  - intros [= <-]. lia.
  - destruct (message_step encoding n m) as [k|] eqn:Hk; [|discriminate].
    apply message_step_Some in Hk. intros H%IH. lia.
Qed.

Lemma estimate_tokens_Some (messages : list message) (model : string) (n : Z) :
  estimate_tokens messages model = Some n ->
  n = sumZ (map (message_tokens (_get_encoding model)) messages) + 2.
Proof.
  unfold estimate_tokens.
  destruct (for_each (message_step (_get_encoding model)) messages 0) as [k|] eqn:Hk;
    simpl; [|discriminate].
  apply messages_loop in Hk. intros [= <-]. lia.
Qed.

(** *** Bounds *)

Lemma part_tokens_nonneg encoding (part : Py.value) : 0 <= part_tokens encoding part.
Proof.
  unfold part_tokens. destruct part as [s|l|d|z|]; try lia.
  destruct (field_is d "type" "text"); [apply string_tokens_nonneg|].
  destruct (field_is d "type" "image_url"); [destruct (detail_is_low d); lia|].
  destruct (field_is d "type" "image"); lia.
Qed.

Lemma content_tokens_nonneg encoding (content : option Py.value) :
  0 <= content_tokens encoding content.
Proof.
  destruct content as [[s|l|d|z|]|]; simpl; try lia.
  - apply tokens_of_nonneg.
  - apply sumZ_nonneg, Forall_map, Forall_forall. intros part _.
    apply part_tokens_nonneg.
  - destruct (d !! "text"); [apply string_tokens_nonneg|lia].
Qed.

Lemma other_fields_tokens_nonneg encoding m : 0 <= other_fields_tokens encoding m.
Proof.
  apply sumZ_nonneg, Forall_map, Forall_forall. intros [k v] _. simpl.
  destruct (String.eqb k "content"); [lia|apply string_tokens_nonneg].
Qed.

(** Every message counts for at least 3 tokens: the overhead of 4 and at
    most one discount, a dict having at most one [name] key. *)
Lemma message_tokens_lower_bound encoding m : 3 <= message_tokens encoding m.
Proof.
  unfold message_tokens, name_discount.
  pose proof (content_tokens_nonneg encoding (m !! "content")).
  pose proof (other_fields_tokens_nonneg encoding m).
  destruct (m !! "name"); lia.
Qed.

Lemma estimate_tokens_lower_bound (messages : list message) (model : string) (n : Z) :
  estimate_tokens messages model = Some n -> 2 + 3 * Z.of_nat (length messages) <= n.
Proof.
  intros ->%estimate_tokens_Some.
  induction messages as [|m messages IH]; simpl; [lia|].
  pose proof (message_tokens_lower_bound (_get_encoding model) m). lia.
Qed.

Lemma estimate_response_tokens_bounds (p : Z) :
  0 <= p -> 0 <= estimate_response_tokens p <= 2000.
Proof.
  intros Hp. unfold estimate_response_tokens.
  pose proof (Z.quot_pos (p * 3) 2 ltac:(lia) ltac:(lia)). lia.
Qed.

(** On token counts the truncated product is the floor of one and a half
    times the count. *)
Lemma estimate_response_tokens_floor (p : Z) :
  0 <= p -> estimate_response_tokens p = Z.min (3 * p / 2) 2000.
Proof.
  intros Hp. unfold estimate_response_tokens.
  rewrite Z.quot_div_nonneg by lia. by rewrite (Z.mul_comm p 3).
Qed.

(** *** Results of the two entry points *)

Lemma estimate_total_tokens_Some (messages : list message) (system_template model context : string)
    (u : token_usage) :
  estimate_total_tokens messages system_template model context = Some u ->
  prompt_tokens u
  = prompt_tokens_formula (_get_encoding model) messages system_template context
  /\ completion_tokens u = estimate_response_tokens (prompt_tokens u)
  /\ total_tokens u = prompt_tokens u + completion_tokens u.
Proof.
  unfold estimate_total_tokens, prompt_tokens_formula.
  destruct (estimate_tokens messages model) as [nm|] eqn:Hm; simpl; [|discriminate].
  destruct (encode (_get_encoding model) system_template) as [ts|] eqn:Ht; simpl;
    [|discriminate].
  destruct (encode (_get_encoding model) context) as [cs|] eqn:Hc; simpl; [|discriminate].
  intros [= <-]. simpl. apply estimate_tokens_Some in Hm.
  unfold tokens_of. rewrite Ht, Hc. repeat split. lia.
Qed.

Lemma track_actual_token_usage_cases (messages : list message) (response model : string) :
  track_actual_token_usage messages response model = zero_usage
  \/ exists p, estimate_tokens messages model = Some p
               /\ track_actual_token_usage messages response model
                  = {| prompt_tokens := p;
                       completion_tokens := tokens_of (_get_encoding model) response;
                       total_tokens := p + tokens_of (_get_encoding model) response |}.
Proof.
  unfold track_actual_token_usage.
  destruct (estimate_tokens messages model) as [p|]; simpl; [|by left].
  unfold tokens_of.
  destruct (encode (_get_encoding model) response) as [ts|]; simpl; [|by left].
  right. by exists p.
Qed.

End EstimatorProps.

Section EstimatorTotality.
Context `{tk : Tiktoken}.
Implicit Types (encoding : Encoding) (m : message) (n : Z).

(** A loop whose body never raises on the elements it meets runs to its
    end. *)
Lemma for_each_returns {S A} (body : S -> A -> option S) (xs : list A) (s : S) :
  Forall (fun x => forall s, is_Some (body s x)) xs -> is_Some (for_each body xs s).
Proof.
  intros H. revert s. induction H as [|x xs Hx _ IH]; intros s; simpl; [by eexists|].
  destruct (Hx s) as [s' ->]. apply IH.
Qed.

Lemma encoded_len_returns encoding (s : string) :
  (forall s, is_Some (encode encoding s)) -> is_Some (encoded_len encoding (Py.Str s)).
Proof. intros H. simpl. destruct (H s) as [ts ->]. by eexists. Qed.

Lemma content_item_step_returns encoding (part : Py.value) n :
  (forall s, is_Some (encode encoding s)) ->
  countable_part part = true -> is_Some (content_item_step encoding n part).
Proof.
  intros Henc. unfold countable_part, content_item_step.
  destruct part as [s|l|d|z|]; try (intros _; by eexists).
  destruct (field_is d "type" "text").
  { destruct (d !! "text") as [[s| | | |]|]; try discriminate; intros _; simpl.
    - destruct (Henc s) as [ts ->]. by eexists.
    - destruct (Henc "") as [ts ->]. by eexists. }
  destruct (field_is d "type" "image_url").
  { destruct (d !! "image_url") as [[s|l|iu|z|]|]; try discriminate; intros _; simpl.
    - destruct (default (Py.Str "auto") (iu !! "detail")) as [t| | | |]; simpl;
        try by eexists.
      destruct (String.eqb t "low"); by eexists.
    - rewrite lookup_empty. simpl. by eexists. }
  intros _. destruct (field_is d "type" "image"); by eexists.
Qed.

Lemma item_step_returns encoding m (kv : string * Py.value) n :
  (forall s, is_Some (encode encoding s)) ->
  countable_message m = true -> kv ∈ map_to_list m ->
  is_Some (item_step encoding n kv).
Proof.
  intros Henc Hm Hkv. destruct kv as [key value].
  apply elem_of_map_to_list in Hkv.
  assert (Hv : is_Some (item_value_step encoding n key value)).
  { unfold item_value_step. destruct (String.eqb key "content") eqn:E.
    - apply String.eqb_eq in E as ->. unfold countable_message in Hm. rewrite Hkv in Hm.
      destruct value as [s|l|d|z|]; try by eexists.
      + simpl. destruct (Henc s) as [ts ->]. by eexists.
      + apply for_each_returns. rewrite forallb_forall in Hm.
        apply Forall_forall. intros part Hpart s.
        apply content_item_step_returns; [done|]. apply Hm. by apply list_elem_of_In.
      + destruct (d !! "text") as [[s| | | |]|]; try discriminate; [|by eexists].
        simpl. destruct (Henc s) as [ts ->]. by eexists.
    - destruct value as [s|l|d|z|]; try by eexists.
      simpl. destruct (Henc s) as [ts ->]. by eexists. }
  unfold item_step. destruct Hv as [k ->]. by eexists.
Qed.

Lemma estimate_tokens_returns (messages : list message) (model : string) :
  (forall s, is_Some (encode (_get_encoding model) s)) ->
  forallb countable_message messages = true ->
  is_Some (estimate_tokens messages model).
Proof.
  intros Henc Hms. unfold estimate_tokens.
  assert (Hloop : is_Some (for_each (message_step (_get_encoding model)) messages 0)).
  { apply for_each_returns. rewrite forallb_forall in Hms. apply Forall_forall.
    intros m Hm n. unfold message_step. apply for_each_returns, Forall_forall.
    intros kv Hkv s. eapply item_step_returns; eauto. apply Hms. by apply list_elem_of_In. }
  destruct Hloop as [k ->]. by eexists.
Qed.

(** With an encoding that accepts every text, the estimate of countable
    messages exists. *)
Lemma estimate_total_tokens_returns (messages : list message)
    (system_template model context : string) :
  (forall s, is_Some (encode (_get_encoding model) s)) ->
  forallb countable_message messages = true ->
  is_Some (estimate_total_tokens messages system_template model context).
Proof.
  intros Henc Hms. unfold estimate_total_tokens.
  destruct (estimate_tokens_returns messages model Henc Hms) as [k ->].
  simpl. destruct (Henc system_template) as [ts ->]. destruct (Henc context) as [cs ->].
  by eexists.
Qed.

(** The messages built from a history are countable. *)
Lemma role_content_str_countable (role text : string) :
  countable_message (role_content role (Py.Str text)) = true.
Proof. reflexivity. Qed.

End EstimatorTotality.

(** The integer form of the response estimate agrees with the binary64
    computation on every prompt count up to 4000 (beyond 1333 both give the
    cap). *)
Lemma estimate_response_tokens_float_agrees :
  forallb
    (fun p => match estimate_response_tokens_float p with
              | Some n => n =? estimate_response_tokens p
              | None => false
              end)
    (int_range 0 4001) = true.
Proof. vm_compute. reflexivity. Qed.

Lemma prompt_tokens_formula_lower_bound (encoding : Encoding) (messages : list message)
    (system_template context : string) :
  2 + 3 * Z.of_nat (length messages)
  <= prompt_tokens_formula encoding messages system_template context.
Proof.
  unfold prompt_tokens_formula.
  pose proof (tokens_of_nonneg encoding system_template).
  pose proof (tokens_of_nonneg encoding context).
  assert (3 * Z.of_nat (length messages) <= sumZ (map (message_tokens encoding) messages)).
  { induction messages as [|m messages IH]; [simpl; lia|].
    rewrite map_cons, sumZ_cons. pose proof (message_tokens_lower_bound encoding m).
    simpl length. lia. }
  lia.
Qed.

(** C3: the usage returned by [estimate_total_tokens] and the usage
    returned by [track_actual_token_usage], the all-zero usage of its
    recovery branch included, have a total equal to prompt plus completion
    and no negative field. *)
Theorem token_usage_invariant `{tk : Tiktoken} (messages : list message)
    (system_template model context response : string) :
  (forall u, estimate_total_tokens messages system_template model context = Some u ->
             usage_invariant u)
  /\ usage_invariant (track_actual_token_usage messages response model).
Proof.
  split.
  - intros u Hu. pose proof Hu as (Hp & Hc & Ht)%estimate_total_tokens_Some.
    assert (Hpos : 0 <= prompt_tokens u).
    { rewrite Hp. pose proof (prompt_tokens_formula_lower_bound (_get_encoding model)
                                messages system_template context). lia. }
    pose proof (estimate_response_tokens_bounds _ Hpos).
    unfold usage_invariant. lia.
  - destruct (track_actual_token_usage_cases messages response model) as [->|(p & Hp & ->)].
    + unfold usage_invariant; simpl; lia.
    + apply estimate_tokens_lower_bound in Hp.
      pose proof (tokens_of_nonneg (_get_encoding model) response).
      unfold usage_invariant; simpl; lia.
Qed.

Lemma token_usage_invariant_witness :
  estimate_total_tokens (tk := word_tiktoken)
    [user_message "Hello there"; role_content "user" (Py.List [text_part "what is this"; url_part "https://x/y.png" (Some "low")])]
    "Be brief." "gpt-4o" ""
  = Some {| prompt_tokens := 104; completion_tokens := 156; total_tokens := 260 |}
  /\ usage_invariant {| prompt_tokens := 104; completion_tokens := 156; total_tokens := 260 |}.
Proof.
  assert (H : estimate_total_tokens (tk := word_tiktoken)
    [user_message "Hello there"; role_content "user" (Py.List [text_part "what is this"; url_part "https://x/y.png" (Some "low")])]
    "Be brief." "gpt-4o" ""
    = Some {| prompt_tokens := 104; completion_tokens := 156; total_tokens := 260 |})
    by (vm_compute; reflexivity).
  split; [exact H|].
  exact (proj1 (token_usage_invariant (tk := word_tiktoken) _ _ _ _ "") _ H).
Defined.

(** The recovery branch of the meter: when the encoding rejects the text,
    the usage is all zero. *)
Example track_actual_token_usage_recovers :
  track_actual_token_usage (tk := failing_tiktoken) [user_message "Hello"] "Hi" "gpt-4o"
  = zero_usage.
Proof. reflexivity. Qed.

Example track_actual_token_usage_counts :
  track_actual_token_usage (tk := word_tiktoken)
    [system_message ""; user_message "Hello there"] "General Kenobi" "gpt-4o"
  = {| prompt_tokens := 14; completion_tokens := 2; total_tokens := 16 |}.
Proof. vm_compute. reflexivity. Qed.
(** C6 (as amended): when the pre-call estimate returns, its prompt count
    is the sum over the messages of 4, minus 1 for a [name] field, plus the
    encoded text and the 85 or 170 of each image part of the content, plus
    the encoded length of every other string-valued field (the role, the
    name), plus 2 priming tokens and the encoded lengths of the system
    template and of the context; the completion count is the integer part
    of one and a half times the prompt count, capped at 2000. *)
Theorem estimate_total_tokens_formula `{tk : Tiktoken} (messages : list message)
    (system_template model context : string) (u : token_usage) :
  estimate_total_tokens messages system_template model context = Some u ->
  prompt_tokens u
  = prompt_tokens_formula (_get_encoding model) messages system_template context
  /\ completion_tokens u = Z.min (3 * prompt_tokens u / 2) 2000.
Proof.
  intros Hu. pose proof Hu as (Hp & Hc & _)%estimate_total_tokens_Some.
  split; [exact Hp|]. rewrite Hc. apply estimate_response_tokens_floor.
  rewrite Hp.
  pose proof (prompt_tokens_formula_lower_bound (_get_encoding model)
                messages system_template context). lia.
Qed.

Lemma estimate_total_tokens_formula_witness :
  let messages := [system_message ""; user_message "Hello"] in
  let u := {| prompt_tokens := 13; completion_tokens := 19; total_tokens := 32 |} in
  estimate_total_tokens (tk := word_tiktoken) messages "" "gpt-4o" "" = Some u
  /\ prompt_tokens u
     = prompt_tokens_formula (_get_encoding (tk := word_tiktoken) "gpt-4o") messages "" ""
  /\ completion_tokens u = Z.min (3 * prompt_tokens u / 2) 2000.
Proof.
  intros messages u.
  assert (H : estimate_total_tokens (tk := word_tiktoken) messages "" "gpt-4o" "" = Some u)
    by (vm_compute; reflexivity).
  exact (conj H (estimate_total_tokens_formula (tk := word_tiktoken) messages "" "gpt-4o" "" u H)).
Defined.

(** C6 as stated fails, because the role is counted: with one token per
    word, the single message
    [{"role": "user", "content": "Hello"}] is estimated at 8 prompt tokens
    (4 + 1 for the role + 1 for the text + 2), where the count without the
    role is 7. *)
Lemma estimate_total_tokens_counts_the_role :
  ~ estimate_as_claimed (tk := word_tiktoken) [user_message "Hello"] "" "gpt-4o" "".
Proof.
  intros (u & Hu & Hp & _).
  assert (H : estimate_total_tokens (tk := word_tiktoken) [user_message "Hello"] "" "gpt-4o" ""
              = Some {| prompt_tokens := 8; completion_tokens := 12; total_tokens := 20 |})
    by (vm_compute; reflexivity).
  rewrite H in Hu. injection Hu as <-.
  vm_compute in Hp. discriminate Hp.
Qed.

(** The difference between the two counts is exactly the other string
    fields, whatever the tokenizer. *)
Lemma claimed_prompt_tokens_gap (encoding : Encoding) (messages : list message)
    (system_template context : string) :
  prompt_tokens_formula encoding messages system_template context
  = claimed_prompt_tokens encoding messages system_template context
    + sumZ (map (other_fields_tokens encoding) messages).
Proof.
  unfold prompt_tokens_formula, claimed_prompt_tokens.
  assert (H : sumZ (map (message_tokens encoding) messages)
              = sumZ (map (claimed_message_tokens encoding) messages)
                + sumZ (map (other_fields_tokens encoding) messages)).
  { induction messages as [|m messages IH]; [reflexivity|].
    rewrite !map_cons, !sumZ_cons, IH. unfold message_tokens, claimed_message_tokens. lia. }
  lia.
Qed.

(** An odd prompt count shows the truncation: 13 prompt tokens give 19
    completion tokens. *)
Example estimate_response_tokens_truncates :
  estimate_response_tokens 13 = 19 /\ estimate_response_tokens_float 13 = Some 19
  /\ estimate_response_tokens 1334 = 2000 /\ estimate_response_tokens 1333 = 1999.
Proof. repeat split; vm_compute; reflexivity. Qed.

(** ** Message assembler: system content for Anthropic *)

Section Anthropic.

Lemma message_role_role_content (r : string) (c : Py.value) :
  message_role (role_content r c) = Some r.
Proof. unfold message_role, role_content. by rewrite lookup_insert_eq. Qed.

Lemma content_role_content (r : string) (c : Py.value) :
  role_content r c !! "content" = Some c.
Proof.
  unfold role_content. rewrite lookup_insert_ne by discriminate. by rewrite lookup_insert_eq.
Qed.

Lemma role_role_content (r : string) (c : Py.value) :
  role_content r c !! "role" = Some (Py.Str r).
Proof. unfold role_content. by rewrite lookup_insert_eq. Qed.

(** Assigning the content of such a message gives the message with the new
    content. *)
Lemma insert_content_role_content (r : string) (c c' : Py.value) :
  <["content" := c']> (role_content r c) = role_content r c'.
Proof.
  unfold role_content. rewrite insert_insert_ne by discriminate.
  by rewrite insert_insert_eq.
Qed.

Lemma history_message_no_system (m : message) : history_message m -> no_system_role m.
Proof.
  intros (r & s & -> & Hr). unfold no_system_role. rewrite message_role_role_content.
  intros [= ->]. destruct Hr; discriminate.
Qed.

Lemma turn_messages_history (chat : IRouterChatLog) :
  Forall history_message (turn_messages chat).
Proof.
  unfold turn_messages, user_message, assistant_message.
  destruct (Py.str_truthy (prompt chat)), (Py.str_truthy (response chat)); simpl;
    repeat constructor; eexists _, _; eauto.
Qed.

Lemma flat_map_turn_messages_history (chat_history : list IRouterChatLog) :
  Forall history_message (flat_map turn_messages chat_history).
Proof.
  induction chat_history as [|chat rest IH]; simpl; [constructor|].
  apply Forall_app. split; [apply turn_messages_history | exact IH].
Qed.

(** For Anthropic the assembled history is the flattened turns: no system
    message in front, and an empty system prompt. *)
Lemma get_chat_messages_anthropic (db_system_prompt provider : string)
    (chat_history : list IRouterChatLog) :
  Py.lower provider = "anthropic" ->
  get_chat_messages db_system_prompt chat_history provider
  = (flat_map turn_messages chat_history, "").
Proof.
  intros Hp. unfold get_chat_messages.
  rewrite (not_edith provider "anthropic" Hp) by discriminate.
  rewrite Hp. simpl. by rewrite fold_append_turn.
Qed.

Lemma has_content_history_message (m : message) :
  history_message m -> exists b, _has_content m = Some b.
Proof.
  intros (r & s & -> & _). unfold _has_content. rewrite content_role_content.
  destruct (negb (Py.truthy (Py.Str s))); eauto.
Qed.

(** Copying a history keeps a sub-list of it, each kept message unchanged. *)
Lemma copy_loop_history (messages acc : list message) :
  Forall history_message messages -> Forall history_message acc ->
  exists kept,
    for_each
      (fun acc msg =>
         b ← _has_content msg;
         if b : bool then
           role ← msg !! "role";
           content ← msg !! "content";
           Some (acc ++ [<["role" := role]> (<["content" := content]> ∅)])
         else Some acc)
      messages acc = Some kept
    /\ Forall history_message kept.
Proof.
  intros Hms. revert acc. induction Hms as [|m messages Hm _ IH]; intros acc Hacc; simpl.
  - eauto.
  - destruct (has_content_history_message m Hm) as [b ->]. simpl.
    destruct Hm as (r & s & -> & Hr). destruct b.
    + rewrite role_role_content, content_role_content. simpl.
      apply IH. apply Forall_app. split; [exact Hacc|].
      repeat constructor. by exists r, s.
    + by apply IH.
Qed.

Lemma copy_history_history (messages : list message) (last : message) :
  Forall history_message messages ->
  exists kept, copy_history (messages ++ [last]) = Some kept /\ Forall history_message kept.
Proof.
  intros Hms. unfold copy_history, Py.but_last. rewrite removelast_last.
  by apply copy_loop_history.
Qed.

Lemma Forall_removelast {A} (P : A -> Prop) (xs : list A) :
  Forall P xs -> Forall P (removelast xs).
Proof.
  induction 1 as [|x xs Hx Hxs IH]; simpl; [constructor|].
  destruct xs; [constructor|]. by constructor.
Qed.

(** Folding the system content into the first user message of a history
    followed by the question. *)
Lemma prepend_to_first_user_question (system_content : string)
    (history : list message) (content : Py.value) :
  Forall history_message history -> question_content content ->
  exists direct,
    prepend_to_first_user system_content (history ++ [role_content "user" content])
    = Some direct
    /\ Forall no_system_role direct
    /\ exists v, first_user_content direct = Some v /\ carries_system system_content v.
Proof.
  intros Hh Hc. induction Hh as [|m history Hm Hh IH]; simpl.
  - rewrite role_role_content, content_role_content. simpl.
    destruct Hc as [[s ->]|[l ->]]; rewrite insert_content_role_content;
      (eexists; split; [reflexivity|]; split;
       [repeat constructor; unfold no_system_role; by rewrite message_role_role_content|]);
      simpl; rewrite message_role_role_content; simpl; rewrite content_role_content;
      eexists; (split; [reflexivity|]).
    + left. by exists s.
    + right. by exists l.
  - destruct Hm as (r & s & -> & [-> | ->]).
    + rewrite role_role_content, content_role_content. simpl.
      rewrite insert_content_role_content.
      eexists; split; [reflexivity|]. split.
      * constructor; [unfold no_system_role; by rewrite message_role_role_content|].
        apply Forall_app. split.
        -- eapply Forall_impl; [exact Hh | apply history_message_no_system].
        -- repeat constructor. unfold no_system_role. by rewrite message_role_role_content.
      * simpl. rewrite message_role_role_content. simpl. rewrite content_role_content.
        eexists; split; [reflexivity|]. left. by exists s.
    + rewrite role_role_content. simpl.
      destruct IH as (direct & -> & Hns & v & Hv & Hcar). simpl.
      eexists; split; [reflexivity|]. split.
      * constructor; [unfold no_system_role; by rewrite message_role_role_content|exact Hns].
      * simpl. rewrite message_role_role_content. simpl. by exists v.
Qed.

End Anthropic.

(** C4 (as amended): for provider anthropic, the list returned by
    [get_chat_messages], the list built for direct invocation on the
    multimodal path and the list built on the streamed path without files
    contain no entry with role system; on the multimodal path the system
    content sits in the content of the first user message, in front of a
    string content or as the first text part of a list content. *)
Theorem anthropic_lists_have_no_system_entry (provider db_system_prompt system_content : string)
    (query : string) (chat_history : list IRouterChatLog) (question : message)
    (content : Py.value) :
  Py.lower provider = "anthropic" ->
  question_content content ->
  let assembled := get_chat_messages db_system_prompt chat_history provider in
  Forall no_system_role assembled.1
  /\ (exists direct,
        build_direct_messages provider system_content (assembled.1 ++ [question])
          (role_content "user" content) = Some direct
        /\ Forall no_system_role direct
        /\ exists v, first_user_content direct = Some v /\ carries_system system_content v)
  /\ (exists formatted,
        build_formatted_messages provider assembled.2 assembled.1 query = Some formatted
        /\ Forall no_system_role formatted).
Proof.
  intros Hp Hc assembled. subst assembled.
  rewrite (get_chat_messages_anthropic _ _ _ Hp). cbn [fst snd].
  pose proof (flat_map_turn_messages_history chat_history) as Hh.
  split; [|split].
  - eapply Forall_impl; [exact Hh | apply history_message_no_system].
  - unfold build_direct_messages. rewrite Hp, String.eqb_refl. cbn [negb app].
    destruct (copy_history_history _ question Hh) as (kept & -> & Hkept).
    cbn [mbind option_bind app].
    assert (Hne : match kept ++ [role_content "user" content] with
                  | [] => false | _ => true end = true)
      by (destruct kept; reflexivity).
    rewrite Hne. cbn [andb]. by apply prepend_to_first_user_question.
  - unfold build_formatted_messages. rewrite Hp, String.eqb_refl. cbn [negb app].
    unfold copy_history, Py.but_last.
    destruct (copy_loop_history (removelast (flat_map turn_messages chat_history)) [])
      as (kept & -> & Hkept); [by apply Forall_removelast | constructor |].
    cbn [mbind option_bind app]. eexists; split; [reflexivity|].
    apply Forall_app. split.
    + eapply Forall_impl; [exact Hkept | apply history_message_no_system].
    + repeat constructor. unfold no_system_role. by rewrite message_role_role_content.
Qed.
Lemma anthropic_lists_have_no_system_entry_witness :
  let history := [ {| prompt := "hi"; response := "hello" |} ] in
  let content := Py.List [text_part "what is this"; base64_part "image/png" "AAAA"] in
  Py.lower "Anthropic" = "anthropic"
  /\ question_content content
  /\ Forall no_system_role (get_chat_messages "" history "Anthropic").1
  /\ build_direct_messages "Anthropic" "SYSTEM"
       ((get_chat_messages "" history "Anthropic").1 ++ [user_message "what is this"])
       (role_content "user" content)
     = Some [ user_message ("SYSTEM" ++ nl ++ nl ++ "hi"); assistant_message "hello";
              role_content "user" content ].
Proof.
  intros history content.
  assert (H1 : Py.lower "Anthropic" = "anthropic") by reflexivity.
  assert (H2 : question_content content) by (right; eexists; reflexivity).
  pose proof (anthropic_lists_have_no_system_entry "Anthropic" "" "SYSTEM" "q" history
                (user_message "what is this") content H1 H2) as (Hns & _ & _).
  split; [exact H1|]. split; [exact H2|]. split; [exact Hns|].
  vm_compute. reflexivity.
Defined.

(** C4 as stated fails, because the chains start with a system template
    whatever the provider: the non-streamed flow without files, run for an
    Anthropic model, hands the model a prompt whose first entry has role
    system. *)
Lemma anthropic_chain_starts_with_system_template :
  ~ no_system_entry_sent
      (generate_text_response (tk := word_tiktoken) (world := demo_world "anthropic" true)
         "Hello" [] [] "claude" "a@b" "s1" false 0).1.
Proof.
  unfold no_system_entry_sent.
  assert (E : sent_payloads
                (generate_text_response (tk := word_tiktoken)
                   (world := demo_world "anthropic" true)
                   "Hello" [] [] "claude" "a@b" "s1" false 0).1
              = [Chain (Some "")
                   [SystemMessagePromptTemplate (plain_system_template "");
                    HumanMessagePromptTemplate "Hello"]])
    by (vm_compute; reflexivity).
  rewrite E. intros H. apply Forall_cons in H as [H _].
  vm_compute in H. discriminate H.
Qed.

(** The same holds for the streamed flow with a text file and no image. *)
Example anthropic_rag_chain_starts_with_system_template :
  map has_system_entry
    (sent_payloads
       (generate_stream_response (tk := word_tiktoken) (world := demo_world "anthropic" true)
          "Hello" ["notes.txt"] [] "claude" "a@b" "s1" false 0 ""))
  = [true].
Proof. vm_compute. reflexivity. Qed.

(** The streamed flow without files sends Anthropic no system entry. *)
Example anthropic_stream_without_files_has_no_system_entry :
  map payload_roles
    (sent_payloads
       (generate_stream_response (tk := word_tiktoken) (world := demo_world "anthropic" true)
          "Hello" [] [ {| prompt := "hi"; response := "hello" |} ] "claude" "a@b" "s1"
          false 0 ""))
  = [[Some "user"; Some "user"]].
Proof. vm_compute. reflexivity. Qed.

(** ** The flows: traces and the quota gate *)

Section FlowLaws.
Context {R A B : Type}.
Implicit Types (P : event -> bool).

Lemma events_bind (m : Flow R A) (k : A -> Flow R B) :
  (bind m k).1 = m.1 ++ match m.2 with Normal a => (k a).1 | _ => [] end.
Proof.
  destruct m as [t [a|e|r]]; simpl; [|by rewrite app_nil_r..].
  by destruct (k a).
Qed.

Lemma events_try_except (m : Flow R A) (handler : exn -> Flow R A) :
  (try_except m handler).1 = m.1 ++ match m.2 with Raised e => (handler e).1 | _ => [] end.
Proof.
  destruct m as [t [a|e|r]]; simpl; [by rewrite app_nil_r| |by rewrite app_nil_r].
  by destruct (handler e).
Qed.

Lemma only_bind P (m : Flow R A) (k : A -> Flow R B) :
  only P m -> (forall a, only P (k a)) -> only P (bind m k).
Proof.
  unfold only. intros Hm Hk. rewrite events_bind. apply Forall_app. split; [exact Hm|].
  destruct m.2; [apply Hk|constructor..].
Qed.

Lemma only_try_except P (m : Flow R A) (handler : exn -> Flow R A) :
  only P m -> (forall e, only P (handler e)) -> only P (try_except m handler).
Proof.
  unfold only. intros Hm Hh. rewrite events_try_except. apply Forall_app.
  split; [exact Hm|]. destruct m.2; [constructor|apply Hh|constructor].
Qed.

Lemma only_pure P (a : A) : only P (pure a : Flow R A).
Proof. constructor. Qed.

Lemma only_raise P (e : exn) : only P (raise e : Flow R A).
Proof. constructor. Qed.

Lemma only_return P (r : R) : only P (return_ r : Flow R A).
Proof. constructor. Qed.

Lemma only_emit P (ev : event) : P ev = true -> only P (emit ev : Flow R unit).
Proof. intros H. by repeat constructor. Qed.

Lemma only_call P (ev : event) (r : res A) : P ev = true -> only P (call ev r : Flow R A).
Proof. intros H. destruct r; by repeat constructor. Qed.

Lemma only_lift_opt P (what : string) (o : option A) : only P (lift_opt what o : Flow R A).
Proof. destruct o; constructor. Qed.

End FlowLaws.

(** One step of a proof that all events of a flow satisfy a predicate:
    split a bind or a handler, close a leaf, or take a branch apart. *)
Ltac only_step :=
  match goal with
  | |- only _ (bind _ _) => apply only_bind; [|intros]
  | |- only _ (try_except _ _) => apply only_try_except; [|intros]
  | |- only _ (pure _) => apply only_pure
  | |- only _ (raise _) => apply only_raise
  | |- only _ (return_ _) => apply only_return
  | |- only _ (emit _) => apply only_emit; reflexivity
  | |- only _ (call _ _) => apply only_call; reflexivity
  | |- only _ (lift_opt _ _) => apply only_lift_opt
  | |- only _ (if ?b then _ else _) => destruct b
  | |- only _ (let '(_, _) := ?x in _) => destruct x
  | |- only _ (match ?x with _ => _ end) => destruct x
  end.

Ltac only_steps := repeat only_step.

Section ServiceTraces.
Context `{tk : Tiktoken} `{world : World}.
Context {R : Type}.

(** *** Steps with no provider call, no persisted record and no check *)

Lemma format_images_quiet (provider : string) (image_files : list string)
    (formatted_content : list Py.value) :
  only quiet_event (format_images_from (R := R) provider image_files formatted_content).
Proof.
  revert formatted_content. induction image_files as [|image_url rest IH];
    intros formatted_content; cbn [format_images_from]; [apply only_pure|].
  apply only_bind; [|intros; apply IH].
  unfold format_one_image. only_steps.
Qed.

Lemma create_multimodal_message_quiet (text_content : string) (image_files : list string)
    (provider : string) :
  only quiet_event (create_multimodal_message (R := R) text_content image_files provider).
Proof.
  unfold create_multimodal_message. destruct image_files; [apply only_pure|].
  only_step; [|apply only_pure].
  apply only_bind; [apply format_images_quiet|intros; apply only_pure].
Qed.

Lemma question_message_quiet (multimodal : bool) (query : string)
    (image_files : list string) (provider : string) :
  only quiet_event (question_message (R := R) multimodal query image_files provider).
Proof.
  unfold question_message. destruct multimodal;
    [apply create_multimodal_message_quiet|apply only_pure].
Qed.

Lemma vector_store_if_any_quiet (text_files : list string) :
  only quiet_event (vector_store_if_any (R := R) text_files).
Proof. unfold vector_store_if_any. only_steps. Qed.

Lemma chat_context_quiet (vector_store : bool) (query system_prompt : string) :
  only quiet_event (chat_context (R := R) vector_store query system_prompt).
Proof. unfold chat_context. only_steps. Qed.

Lemma enhanced_query_for_quiet (instruction : string) (vector_store : bool) (query : string) :
  only quiet_event (enhanced_query_for (R := R) instruction vector_store query).
Proof. unfold enhanced_query_for. only_steps. Qed.

Lemma media_query_quiet (instruction : string) (ai_config : AiConfig) (query : string)
    (files : list string) :
  only quiet_event (media_query (R := R) instruction ai_config query files).
Proof.
  unfold media_query. destruct (nonempty files); [|apply only_pure].
  destruct (identify_files files) as [image_files text_files].
  apply only_bind; [apply vector_store_if_any_quiet|intros].
  apply only_bind; [apply question_message_quiet|intros].
  apply enhanced_query_for_quiet.
Qed.

(** *** Steps without a quota check *)

Lemma yield_chunks_unchecked (chunks : list string) (full_response : string) :
  only unchecked_event (yield_chunks (R := R) chunks full_response).
Proof.
  revert full_response. induction chunks as [|chunk rest IH]; intros full_response;
    cbn [yield_chunks]; [apply only_pure|].
  destruct (Py.str_truthy chunk); [|apply IH].
  apply only_bind; [apply only_emit; reflexivity|intros; apply IH].
Qed.

Lemma stream_response_unchecked (llm : llm_client) (p : payload) (what : string) :
  only unchecked_event (stream_response (R := R) llm p what).
Proof.
  unfold stream_response. destruct (llm_astream llm p) as [chunks failure].
  apply only_bind; [apply only_emit; reflexivity|intros].
  apply only_bind; [apply yield_chunks_unchecked|intros]. only_steps.
Qed.

Lemma meter_stream_unchecked (messages : list message) (full_response : string)
    (ai_config : AiConfig) :
  only unchecked_event (meter_stream (R := R) messages full_response ai_config).
Proof. unfold meter_stream. only_steps. Qed.

Lemma persist_unchecked (email sessionId : string) (reGenerate : bool) (title query : string)
    (full_response : string) (usage : token_usage) (outputTime : float) (chatType : Z)
    (files : list string) (model : string) (points : float) :
  only unchecked_event
    (persist (R := R) email sessionId reGenerate title query full_response usage outputTime
       chatType files model points).
Proof. unfold persist. only_steps. Qed.

End ServiceTraces.
(** *** The gate *)

Section Gate.
Context {R : Type}.
Implicit Types (answer : float -> res bool) (denied_events : float -> list event)
  (denied_result : float -> R) (ok : float -> bool).

Lemma guarded_passed ok (t : list event) : guarded ok true t = true.
Proof.
  induction t as [|ev t IH]; [reflexivity|].
  destruct ev; simpl; rewrite ?orb_true_r, ?IH; reflexivity.
Qed.

Lemma guarded_quiet_prefix ok (passed : bool) (pre t : list event) :
  Forall (fun ev => quiet_event ev = true) pre ->
  guarded ok passed (pre ++ t) = guarded ok passed t.
Proof.
  induction 1 as [|ev pre Hev _ IH]; [reflexivity|].
  destruct ev; simpl in *; try discriminate; exact IH.
Qed.

Lemma guarded_quiet ok (passed : bool) (t : list event) :
  Forall (fun ev => quiet_event ev = true) t -> guarded ok passed t = true.
Proof. intros H. rewrite <- (app_nil_r t). by rewrite guarded_quiet_prefix. Qed.

Lemma guarded_app_quiet ok (passed : bool) (t extra : list event) :
  guarded ok passed t = true -> Forall (fun ev => quiet_event ev = true) extra ->
  guarded ok passed (t ++ extra) = true.
Proof.
  revert passed. induction t as [|ev t IH]; intros passed Ht Hextra.
  - by apply guarded_quiet.
  - destruct ev; simpl in *; try (apply andb_true_iff in Ht as [-> Ht]);
      simpl; by apply IH.
Qed.

Lemma quiet_no_check (t : list event) (p : float) :
  Forall (fun ev => quiet_event ev = true) t -> EvCheckQuota p ∉ t.
Proof. intros H Hin. rewrite Forall_forall in H. by specialize (H _ Hin). Qed.

Lemma unchecked_no_check (t : list event) (p : float) :
  Forall (fun ev => unchecked_event ev = true) t -> EvCheckQuota p ∉ t.
Proof. intros H Hin. rewrite Forall_forall in H. by specialize (H _ Hin). Qed.

Lemma quiet_no_gated_effect (t : list event) :
  Forall (fun ev => quiet_event ev = true) t -> existsb is_gated_effect t = false.
Proof.
  induction 1 as [|ev t Hev _ IH]; [reflexivity|]. simpl. rewrite IH.
  unfold quiet_event in Hev. destruct (is_gated_effect ev); [discriminate|reflexivity].
Qed.

Lemma quiet_unchecked (t : list event) :
  Forall (fun ev => quiet_event ev = true) t ->
  Forall (fun ev => unchecked_event ev = true) t.
Proof.
  intros H. eapply Forall_impl; [exact H|]. intros ev. unfold quiet_event, unchecked_event.
  destruct (is_quota_check ev); [by rewrite orb_true_r|reflexivity].
Qed.

(** Quiet steps in front of a gated flow. *)
Lemma gate_shape_bind_quiet {A B} answer denied_events denied_result
    (m : Flow R A) (k : A -> Flow R B) :
  only quiet_event m ->
  (forall a, gate_shape answer denied_events denied_result (k a)) ->
  gate_shape answer denied_events denied_result (bind m k).
Proof.
  unfold only. destruct m as [t [a|e|r]]; cbn [fst snd]; intros Ht Hk.
  - specialize (Hk a). unfold bind. destruct (k a) as [t' e'].
    destruct Hk as [[Hq Hn]|(pre & p & Hpre & Hcase)]; cbn [fst snd] in *.
    + left. split; [by apply Forall_app|exact Hn].
    + right. exists (t ++ pre), p. split; [by apply Forall_app|].
      destruct (answer p) as [[|]|err].
      * destruct Hcase as (rest & -> & Hrest). exists rest. by rewrite <- app_assoc.
      * injection Hcase as -> ->. by rewrite <- app_assoc.
      * injection Hcase as -> ->. by rewrite <- app_assoc.
  - left. split; [exact Ht|discriminate].
  - left. split; [exact Ht|discriminate].
Qed.

(** Steps without a check after a gated flow. *)
Lemma gate_shape_bind_after {A B} answer denied_events denied_result
    (m : Flow R A) (k : A -> Flow R B) :
  gate_shape answer denied_events denied_result m ->
  (forall a, only unchecked_event (k a)) ->
  gate_shape answer denied_events denied_result (bind m k).
Proof.
  intros [[Hq Hn]|(pre & p & Hpre & Hcase)] Hk.
  - left. destruct m as [t [a|e|r]]; cbn [fst snd] in *;
      [by destruct (Hn a)|split; [exact Hq|discriminate]..].
  - right. exists pre, p. split; [exact Hpre|].
    destruct (answer p) as [[|]|err].
    + destruct Hcase as (rest & Hm & Hrest). rewrite events_bind, Hm.
      eexists. rewrite <- app_assoc. split; [reflexivity|].
      apply Forall_app. split; [exact Hrest|]. destruct m.2; [apply Hk|constructor..].
    + rewrite Hcase. reflexivity.
    + rewrite Hcase. reflexivity.
Qed.

End Gate.

Section GateCheck.
Context `{world : World} {R B : Type}.

(** The check itself, followed by its two continuations. *)
Lemma gate_shape_check (estimated : token_usage) (ai_config : AiConfig)
    (k : float * bool -> Flow R B)
    (denied_events : float -> list event) (denied_result : float -> R) :
  let p := get_points (prompt_tokens estimated) (completion_tokens estimated) ai_config in
  k (p, false) = (denied_events p, Returned (denied_result p)) ->
  only unchecked_event (k (p, true)) ->
  gate_shape (fun p => check_user_available_to_chat p ai_config)
    denied_events denied_result (bind (estimate_and_check estimated ai_config) k).
Proof.
  intros p Hdenied Hpass. right. exists [], p. split; [constructor|].
  unfold estimate_and_check. fold p.
  destruct (check_user_available_to_chat p ai_config) as [[|]|e]; cbn [call bind pure app].
  - destruct (k (p, true)) as [t' e'] eqn:E. exists t'. split; [reflexivity|exact Hpass].
  - rewrite Hdenied. reflexivity.
  - reflexivity.
Qed.

End GateCheck.
Section GateConsequences.
Context {R A : Type}.

(** A gated flow keeps provider calls and persisted records behind a
    check answered with yes. *)
Lemma gate_shape_guarded (answer : float -> res bool) (denied_events : float -> list event)
    (denied_result : float -> R) (m : Flow R A) :
  gate_shape answer denied_events denied_result m ->
  (forall p, Forall (fun ev => quiet_event ev = true) (denied_events p)) ->
  guarded (fun p => allowed (answer p)) false m.1 = true.
Proof.
  intros [[Hq _]|(pre & p & Hpre & Hcase)] Hd; [by apply guarded_quiet|].
  destruct (answer p) as [[|]|e] eqn:E.
  - destruct Hcase as (rest & -> & _). rewrite guarded_quiet_prefix by done.
    simpl. rewrite E. simpl. apply guarded_passed.
  - rewrite Hcase. cbn [fst]. rewrite guarded_quiet_prefix by done.
    simpl. by apply guarded_quiet.
  - rewrite Hcase. cbn [fst]. rewrite guarded_quiet_prefix by done. reflexivity.
Qed.

(** When the check is answered with no, the flow ends at once as a denial. *)
Lemma gate_shape_denied (answer : float -> res bool) (denied_events : float -> list event)
    (denied_result : float -> R) (m : Flow R A) (p : float) :
  gate_shape answer denied_events denied_result m ->
  (forall p, Forall (fun ev => quiet_event ev = true) (denied_events p)) ->
  EvCheckQuota p ∈ m.1 -> answer p = Ok false ->
  exists pre, Forall (fun ev => quiet_event ev = true) pre
              /\ m = (pre ++ EvCheckQuota p :: denied_events p, Returned (denied_result p)).
Proof.
  intros [[Hq _]|(pre & p0 & Hpre & Hcase)] Hd Hin Hno.
  { by destruct (quiet_no_check _ p Hq). }
  assert (Hsplit : forall rest, EvCheckQuota p ∈ pre ++ EvCheckQuota p0 :: rest ->
                                p = p0 \/ EvCheckQuota p ∈ rest).
  { intros rest [Hp|Hp]%elem_of_app; [by destruct (quiet_no_check _ p Hpre)|].
    apply elem_of_cons in Hp as [[= ->]|Hp]; auto. }
  destruct (answer p0) as [[|]|e] eqn:E.
  - destruct Hcase as (rest & Hm & Hrest). rewrite Hm in Hin.
    destruct (Hsplit _ Hin) as [->|Hr]; [congruence|].
    by destruct (unchecked_no_check _ p Hrest).
  - rewrite Hcase in Hin. cbn [fst] in Hin.
    destruct (Hsplit _ Hin) as [->|Hr]; [by exists pre|].
    by destruct (quiet_no_check _ p (Hd p0)).
  - rewrite Hcase in Hin. cbn [fst] in Hin.
    destruct (Hsplit _ Hin) as [->|Hr]; [congruence|]. by apply elem_of_nil in Hr.
Qed.

End GateConsequences.

Section GatedFlows.
Context `{tk : Tiktoken} `{world : World}.

Lemma finish_gate_respected (model : string) (body : Flow (list output) (list output)) :
  gate_shape (quota_answer model) (fun _ => []) (fun p => [ErrorMarker (quota_error p)]) body ->
  gate_respected model (finish body).
Proof.
  intros Hshape.
  assert (Ht : (finish body).1 = body.1) by (destruct body as [t [a|e|r]]; reflexivity).
  split.
  - rewrite Ht. eapply gate_shape_guarded; [exact Hshape|]. intros; constructor.
  - intros p Hin Hno. rewrite Ht in *.
    destruct (gate_shape_denied _ _ _ _ p Hshape) as (pre & Hpre & ->);
      [intros; constructor|exact Hin|exact Hno|].
    cbn [finish fst snd]. split; [reflexivity|].
    rewrite existsb_app. rewrite (quiet_no_gated_effect _ Hpre). reflexivity.
Qed.

Lemma generate_text_response_gated (query : string) (files : list string)
    (chat_history : list IRouterChatLog) (model : string) (email sessionId : string)
    (reGenerate : bool) (chatType : Z) :
  gate_respected model
    (generate_text_response query files chat_history model email sessionId reGenerate chatType).
Proof.
  unfold generate_text_response. apply finish_gate_respected.
  apply gate_shape_bind_quiet; [only_steps|intros _].
  apply gate_shape_bind_quiet; [only_steps|intros _].
  unfold quota_answer. destruct (get_ai_config model) as [ai_config|];
    [|left; split; [constructor|discriminate]].
  apply gate_shape_bind_after.
  - destruct (nonempty files).
    + destruct (identify_files files) as [image_files text_files].
      apply gate_shape_bind_quiet; [apply vector_store_if_any_quiet|intros vector_store].
      destruct (get_chat_messages get_system_prompt chat_history (provider ai_config))
        as [messages system_prompt].
      apply gate_shape_bind_quiet; [apply question_message_quiet|intros question].
      apply gate_shape_bind_quiet; [apply chat_context_quiet|intros [system_template context]].
      apply gate_shape_bind_quiet; [apply question_message_quiet|intros current_question_msg].
      apply gate_shape_bind_quiet; [apply only_lift_opt|intros estimated_tokens].
      apply gate_shape_check; [reflexivity|]. cbv beta iota. only_steps.
    + destruct (get_chat_messages get_system_prompt chat_history (provider ai_config))
        as [messages system_prompt].
      apply gate_shape_bind_quiet; [apply only_lift_opt|intros estimated_tokens].
      apply gate_shape_check; [reflexivity|]. cbv beta iota. only_steps.
  - intros [full_response usage].
    apply only_bind; [apply persist_unchecked|intros; apply only_pure].
Qed.

Lemma generate_image_response_gated (query : string) (files : list string)
    (chat_history : list IRouterChatLog) (model : string) (email sessionId : string)
    (reGenerate : bool) (chatType : Z) :
  gate_respected model
    (generate_image_response query files chat_history model email sessionId reGenerate chatType).
Proof.
  unfold generate_image_response. apply finish_gate_respected.
  apply gate_shape_bind_quiet; [only_steps|intros _].
  apply gate_shape_bind_quiet; [only_steps|intros _].
  unfold quota_answer. destruct (get_ai_config model) as [ai_config|];
    [|left; split; [constructor|discriminate]].
  apply gate_shape_bind_quiet; [apply media_query_quiet|intros enhanced_query].
  apply gate_shape_check; [reflexivity|]. cbv beta iota.
  apply only_bind; [only_steps|intros response].
  apply only_bind; [only_steps|intros full_response].
  apply only_bind; [apply persist_unchecked|intros; apply only_pure].
Qed.

Lemma generate_audio_response_gated (query : string) (files : list string)
    (chat_history : list IRouterChatLog) (model : string) (email sessionId : string)
    (reGenerate : bool) (chatType : Z) :
  gate_respected model
    (generate_audio_response query files chat_history model email sessionId reGenerate chatType).
Proof.
  unfold generate_audio_response. apply finish_gate_respected.
  apply gate_shape_bind_quiet; [only_steps|intros _].
  apply gate_shape_bind_quiet; [only_steps|intros _].
  unfold quota_answer. destruct (get_ai_config model) as [ai_config|];
    [|left; split; [constructor|discriminate]].
  apply gate_shape_bind_quiet; [apply media_query_quiet|intros enhanced_query].
  apply gate_shape_check; [reflexivity|]. cbv beta iota.
  apply only_bind; [only_steps|intros audio].
  apply only_bind; [only_steps|intros _].
  apply only_bind; [apply persist_unchecked|intros; apply only_pure].
Qed.

(** The streamed flow with files has the same gate; a denial is streamed as
    the quota error right after the check. *)
Lemma generate_stream_response_with_files_gated (query : string) (files : list string)
    (chat_history : list IRouterChatLog) (model : string) (email sessionId : string)
    (reGenerate : bool) (chatType : Z) (learningPrompt : string) :
  files <> [] ->
  stream_gate_respected model
    (generate_stream_response query files chat_history model email sessionId reGenerate
       chatType learningPrompt).
Proof.
  intros Hfiles. unfold generate_stream_response.
  assert (Hne : nonempty files = true) by (destruct files; [done|reflexivity]).
  rewrite Hne.
  match goal with
  | |- stream_gate_respected _ (try_except ?b ?h).1 => set (body := b); set (handler := h)
  end.
  assert (Hshape : gate_shape (quota_answer model)
                     (fun p => [EvYield (ErrorMarker (quota_error p))]) (fun _ => tt) body).
  { subst body.
    apply gate_shape_bind_quiet; [only_steps|intros _].
    apply gate_shape_bind_quiet; [only_steps|intros _].
    unfold quota_answer. destruct (get_ai_config model) as [ai_config|].
    2:{ left. split; [by repeat constructor|discriminate]. }
    apply gate_shape_bind_after.
    - destruct (identify_files files) as [image_files text_files].
      apply gate_shape_bind_quiet; [apply vector_store_if_any_quiet|intros vector_store].
      destruct (get_chat_messages get_system_prompt chat_history (provider ai_config))
        as [messages system_prompt].
      apply gate_shape_bind_quiet; [apply question_message_quiet|intros question].
      apply gate_shape_bind_quiet; [apply chat_context_quiet|intros [system_template context]].
      apply gate_shape_bind_quiet; [apply question_message_quiet|intros current_question_msg].
      apply gate_shape_bind_quiet; [apply only_lift_opt|intros estimated_tokens].
      apply gate_shape_check; [reflexivity|]. cbv beta iota.
      destruct (imageSupport ai_config && nonempty image_files)%bool.
      + apply only_bind; [apply only_lift_opt|intros].
        apply only_bind; [apply stream_response_unchecked|intros].
        apply only_bind; [apply meter_stream_unchecked|intros; apply only_pure].
      + apply only_bind; [apply only_lift_opt|intros].
        apply only_bind; [apply stream_response_unchecked|intros].
        apply only_bind; [apply meter_stream_unchecked|intros; apply only_pure].
    - intros [full_response [usage points]].
      apply only_bind; [apply only_emit; reflexivity|intros].
      apply persist_unchecked. }
  assert (Hquiet : forall p, Forall (fun ev => quiet_event ev = true)
                               [EvYield (ErrorMarker (quota_error p))])
    by (intros; by repeat constructor).
  split.
  - rewrite events_try_except. apply guarded_app_quiet.
    + by eapply gate_shape_guarded.
    + destruct body.2; [constructor|by repeat constructor|constructor].
  - intros p Hin Hno.
    assert (Hin' : EvCheckQuota p ∈ body.1).
    { rewrite events_try_except in Hin. apply elem_of_app in Hin as [Hin|Hin]; [done|].
      destruct body.2; try by apply elem_of_nil in Hin.
      apply list_elem_of_singleton in Hin. discriminate. }
    destruct (gate_shape_denied _ _ _ _ p Hshape Hquiet Hin' Hno) as (pre & Hpre & Hbody).
    rewrite events_try_except, Hbody. cbn [fst snd]. rewrite app_nil_r.
    split; [by exists pre|].
    rewrite existsb_app. by rewrite (quiet_no_gated_effect _ Hpre).
Qed.

(** Without files the streamed flow never asks the point service. *)
Lemma generate_stream_response_without_files_never_checks (query : string)
    (chat_history : list IRouterChatLog) (model : string) (email sessionId : string)
    (reGenerate : bool) (chatType : Z) (learningPrompt : string) :
  Forall (fun ev => unchecked_event ev = true)
    (generate_stream_response query [] chat_history model email sessionId reGenerate
       chatType learningPrompt).
Proof.
  unfold generate_stream_response. cbn [nonempty].
  apply only_try_except; [|intros; apply only_emit; reflexivity].
  apply only_bind; [only_steps|intros _].
  apply only_bind; [only_steps|intros _].
  destruct (get_ai_config model) as [ai_config|]; [|only_steps].
  apply only_bind.
  - destruct (get_chat_messages get_system_prompt chat_history (provider ai_config))
      as [messages system_prompt].
    apply only_try_except; [|intros; only_steps].
    apply only_bind; [apply only_lift_opt|intros].
    apply only_bind; [apply only_lift_opt|intros].
    apply only_bind; [apply stream_response_unchecked|intros].
    apply only_bind; [apply meter_stream_unchecked|intros; apply only_pure].
  - intros [full_response [usage points]].
    apply only_bind; [apply only_emit; reflexivity|intros].
    apply persist_unchecked.
Qed.

End GatedFlows.
(** *** The streamed flow without files reaches the provider *)

Section Membership.
Context {R A B : Type}.

Lemma elem_of_bind_l (ev : event) (m : Flow R A) (k : A -> Flow R B) :
  ev ∈ m.1 -> ev ∈ (bind m k).1.
Proof. rewrite events_bind. intros H. apply elem_of_app. by left. Qed.

Lemma elem_of_bind_r (ev : event) (m : Flow R A) (k : A -> Flow R B) (a : A) :
  m.2 = Normal a -> ev ∈ (k a).1 -> ev ∈ (bind m k).1.
Proof. rewrite events_bind. intros -> H. apply elem_of_app. by right. Qed.

Lemma elem_of_try_except (ev : event) (m : Flow R A) (handler : exn -> Flow R A) :
  ev ∈ m.1 -> ev ∈ (try_except m handler).1.
Proof. rewrite events_try_except. intros H. apply elem_of_app. by left. Qed.

End Membership.

Section Reach.
Context `{tk : Tiktoken} `{world : World}.

Lemma turn_messages_plain (chat : IRouterChatLog) : Forall plain_message (turn_messages chat).
Proof.
  unfold turn_messages, user_message, assistant_message.
  destruct (Py.str_truthy (prompt chat)), (Py.str_truthy (response chat)); simpl;
    repeat constructor; eexists _, _; reflexivity.
Qed.

Lemma flat_map_turn_messages_plain (chat_history : list IRouterChatLog) :
  Forall plain_message (flat_map turn_messages chat_history).
Proof.
  induction chat_history as [|chat rest IH]; simpl; [constructor|].
  apply Forall_app. split; [apply turn_messages_plain | exact IH].
Qed.

(** Whatever the provider, the assembled history is made of plain messages. *)
Lemma get_chat_messages_plain (db_system_prompt provider : string)
    (chat_history : list IRouterChatLog) :
  Forall plain_message (get_chat_messages db_system_prompt chat_history provider).1.
Proof.
  unfold get_chat_messages.
  set (system_prompt := if String.eqb provider "edith" then db_system_prompt else "").
  set (messages := if negb (String.eqb (Py.lower provider) "anthropic")
                   then [] ++ [role_content "system" (Py.Str system_prompt)] else []).
  assert (Hm : Forall plain_message messages).
  { subst messages. destruct (negb _); repeat constructor. eexists _, _; reflexivity. }
  assert (Hone : forall r s, plain_message (role_content r (Py.Str s)))
    by (intros; eexists _, _; reflexivity).
  destruct (String.eqb (Py.lower provider) "deepseek").
  - destruct (List.filter _ chat_history) as [|first_chat rest]; [exact Hm|].
    destruct (negb (Py.str_truthy (prompt first_chat))); [exact Hm|].
    cbn [fst]. rewrite fold_append_turn. apply Forall_app. split.
    + destruct (Py.str_truthy (response first_chat));
        repeat (apply Forall_app; split); auto; repeat constructor; auto.
    + apply flat_map_turn_messages_plain.
  - cbn [fst]. rewrite fold_append_turn. apply Forall_app. split; [exact Hm|].
    apply flat_map_turn_messages_plain.
Qed.

Lemma has_content_plain_message (m : message) :
  plain_message m -> exists b, _has_content m = Some b.
Proof.
  intros (r & s & ->). unfold _has_content. rewrite content_role_content.
  destruct (negb (Py.truthy (Py.Str s))); eauto.
Qed.

(** Copying plain messages never raises and keeps plain messages. *)
Lemma copy_loop_plain (messages acc : list message) :
  Forall plain_message messages -> Forall plain_message acc ->
  exists kept,
    for_each
      (fun acc msg =>
         b ← _has_content msg;
         if b : bool then
           role ← msg !! "role";
           content ← msg !! "content";
           Some (acc ++ [<["role" := role]> (<["content" := content]> ∅)])
         else Some acc)
      messages acc = Some kept
    /\ Forall plain_message kept.
Proof.
  intros Hms. revert acc. induction Hms as [|m messages Hm _ IH]; intros acc Hacc; simpl.
  - eauto.
  - destruct (has_content_plain_message m Hm) as [b ->]. simpl.
    destruct Hm as (r & s & ->). destruct b.
    + rewrite role_role_content, content_role_content. simpl.
      apply IH. apply Forall_app. split; [exact Hacc|].
      repeat constructor. by exists r, s.
    + by apply IH.
Qed.

Lemma build_formatted_messages_plain (provider system_prompt query : string)
    (messages : list message) :
  Forall plain_message messages ->
  exists formatted,
    build_formatted_messages provider system_prompt messages query = Some formatted
    /\ Forall plain_message formatted.
Proof.
  intros Hms. unfold build_formatted_messages, copy_history, Py.but_last.
  destruct (copy_loop_plain (removelast messages) [])
    as (kept & -> & Hkept); [by apply Forall_removelast|constructor|].
  cbn [mbind option_bind]. eexists; split; [reflexivity|].
  assert (Hone : forall r s, plain_message (role_content r (Py.Str s)))
    by (intros; eexists _, _; reflexivity).
  apply Forall_app. split; [apply Forall_app; split|].
  - destruct (negb _); repeat constructor; auto.
  - exact Hkept.
  - repeat constructor; auto.
Qed.

Lemma build_formatted_prompt_loop (formatted acc : list template_message)
    (messages : list message) :
  Forall plain_message messages ->
  exists prompt,
    for_each
      (fun acc msg =>
         role ← msg !! "role";
         content ← msg !! "content";
         match content with
         | Py.Str template =>
             if value_is role "system" then Some (acc ++ [SystemMessagePromptTemplate template])
             else if value_is role "user" then Some (acc ++ [HumanMessagePromptTemplate template])
             else Some (acc ++ [AIMessagePromptTemplate template])
         | _ => None
         end)
      messages acc = Some prompt.
Proof.
  intros Hms. revert acc. induction Hms as [|m messages Hm _ IH]; intros acc; simpl; [eauto|].
  destruct Hm as (r & s & ->). rewrite role_role_content, content_role_content. simpl.
  destruct (String.eqb r "system"); [apply IH|]. destruct (String.eqb r "user"); apply IH.
Qed.

Lemma build_formatted_prompt_plain (messages : list message) :
  Forall plain_message messages -> exists prompt, build_formatted_prompt messages = Some prompt.
Proof. intros H. unfold build_formatted_prompt. by apply (build_formatted_prompt_loop []). Qed.

(** Once the user is initialised and the model is configured, the streamed
    flow without files invokes the provider, whatever the point service
    would answer. *)
Lemma generate_stream_response_without_files_invokes (query : string)
    (chat_history : list IRouterChatLog) (model : string) (email sessionId : string)
    (reGenerate : bool) (chatType : Z) (learningPrompt : string) (ai_config : AiConfig) :
  initialize email = Ok tt ->
  get_ai_config model = Some ai_config ->
  exists p,
    EvInvoke (_get_llm ai_config true) p
    ∈ generate_stream_response query [] chat_history model email sessionId reGenerate
        chatType learningPrompt.
Proof.
  intros Hinit Hconfig. unfold generate_stream_response. cbn [nonempty].
  rewrite Hinit, Hconfig.
  pose proof (get_chat_messages_plain get_system_prompt (provider ai_config) chat_history)
    as Hplain.
  destruct (get_chat_messages get_system_prompt chat_history (provider ai_config))
    as [messages system_prompt]. cbn [fst] in Hplain.
  destruct (build_formatted_messages_plain (provider ai_config) system_prompt query
              messages Hplain) as (formatted & Hf & Hfp).
  destruct (build_formatted_prompt_plain formatted Hfp) as [prompt Hprompt].
  exists (Chain None prompt).
  apply elem_of_try_except.
  eapply elem_of_bind_r; [reflexivity|].
  eapply elem_of_bind_r; [reflexivity|].
  apply elem_of_bind_l, elem_of_try_except.
  rewrite Hf. eapply elem_of_bind_r; [reflexivity|].
  rewrite Hprompt. eapply elem_of_bind_r; [reflexivity|].
  apply elem_of_bind_l. unfold stream_response.
  destruct (llm_astream (_get_llm ai_config true) (Chain None prompt)) as [chunks failure].
  apply elem_of_bind_l. apply list_elem_of_singleton. reflexivity.
Qed.

(** The question of the current turn is a user message with a string or a
    list content, and building it never raises. *)
Lemma format_images_from_returns {R} (provider : string) (image_files : list string)
    (formatted_content : list Py.value) :
  exists images, (format_images_from (R := R) provider image_files formatted_content).2
                 = Normal images.
Proof.
  revert formatted_content. induction image_files as [|image_url rest IH];
    intros formatted_content; cbn [format_images_from]; [by eexists|].
  assert (Hone : exists next, (format_one_image (R := R) provider formatted_content image_url).2
                              = Normal next).
  { unfold format_one_image.
    destruct (String.eqb (Py.lower provider) "openai"); [by eexists|].
    destruct (String.eqb (Py.lower provider) "anthropic");
      [destruct (requests_get (full_url image_url)); by eexists|].
    destruct (String.eqb (Py.lower provider) "google");
      [destruct (requests_get (full_url image_url)); by eexists|].
    by eexists. }
  destruct Hone as [next Hnext]. destruct (IH next) as [images Himages].
  exists images. unfold bind.
  destruct (format_one_image provider formatted_content image_url) as [t e].
  cbn [snd] in Hnext. subst e.
  destruct (format_images_from provider rest next) as [t' e']. exact Himages.
Qed.

Lemma question_message_shape {R} (multimodal : bool) (query : string)
    (image_files : list string) (provider : string) :
  exists content,
    (question_message (R := R) multimodal query image_files provider).2
    = Normal (role_content "user" content)
    /\ question_content content.
Proof.
  unfold question_message.
  assert (Hstr : forall s, question_content (Py.Str s)) by (intros; left; by eexists).
  destruct multimodal; [|by eexists].
  unfold create_multimodal_message. destruct image_files as [|image rest]; [by eexists|].
  match goal with |- context [if ?c then default_image_prompt else query] =>
    set (text_content := if c then default_image_prompt else query) end.
  destruct (_ || _ || _ || _)%bool; [|by eexists].
  unfold format_image_content.
  destruct (format_images_from_returns (R := R) provider (image :: rest) [])
    as [images Himages].
  exists (Py.List (text_part text_content :: images)). split; [|right; by eexists].
  unfold bind. destruct (format_images_from provider (image :: rest) []) as [t e].
  cbn [snd] in Himages. subst e. reflexivity.
Qed.

End Reach.

(** C2 (fails on the streamed flow without files): with a point service
    that answers every quota question with no, the streamed flow called
    without files never asks it, invokes the chat model, streams the answer
    with its markers and persists a chat log and a usage log; no 429 payload
    is produced. *)
Theorem stream_without_files_skips_quota_check :
  let t := generate_stream_response (tk := word_tiktoken) (world := demo_world "openai" false)
             "Hello" [] [] "gpt-4o" "a@b" "s1" false 0 "" in
  (forall p, quota_answer (world := demo_world "openai" false) "gpt-4o" p = Ok false)
  /\ existsb is_quota_check t = false
  /\ existsb is_provider_call t = true
  /\ existsb is_persist t = true
  /\ existsb is_quota_error (yielded t) = false
  /\ guarded (fun p => allowed (quota_answer (world := demo_world "openai" false) "gpt-4o" p))
       false t = false.
Proof.
  intros t. split; [reflexivity|].
  repeat split; vm_compute; reflexivity.
Qed.

(** What the flow yields on that input. *)
Example stream_without_files_yields :
  exists points,
    yielded
      (generate_stream_response (tk := word_tiktoken) (world := demo_world "openai" false)
         "Hello" [] [] "gpt-4o" "a@b" "s1" false 0 "")
    = [Text "Hi"; Text " there"; PointsMarker points; OutputTimeMarker 1.5%float].
Proof. eexists. vm_compute. reflexivity. Qed.

(** The same request through the non-streamed flow is stopped at the gate:
    one check, the 429 payload, no provider call and nothing persisted. *)
Example text_without_files_is_denied :
  exists p,
    generate_text_response (tk := word_tiktoken) (world := demo_world "openai" false)
      "Hello" [] [] "gpt-4o" "a@b" "s1" false 0
    = ([EvInitialize "a@b"; EvGetAiConfig "gpt-4o"; EvCheckQuota p],
       [ErrorMarker {| status := 429; error_message := "Insufficient points available";
                       details := QuotaDetails p (Py.Int 10) (Py.Int 90) |}]).
Proof. eexists. vm_compute. reflexivity. Qed.

(** The streamed flow with a file is stopped as well. *)
Example stream_with_files_is_denied :
  exists p,
    generate_stream_response (tk := word_tiktoken) (world := demo_world "openai" false)
      "Hello" ["notes.txt"] [] "gpt-4o" "a@b" "s1" false 0 ""
    = [EvInitialize "a@b"; EvGetAiConfig "gpt-4o"; EvVectorStore ["notes.txt"];
       EvRetrieve "Hello"; EvCheckQuota p;
       EvYield (ErrorMarker {| status := 429;
                               error_message := "Insufficient points available";
                               details := QuotaDetails p (Py.Int 10) (Py.Int 90) |})].
Proof. eexists. vm_compute. reflexivity. Qed.

(** Image and audio generation are stopped at the gate too. *)
Example media_flows_are_denied :
  existsb is_gated_effect
    (generate_image_response (world := demo_world "openai" false)
       "a red house" [] [] "dall-e-2" "a@b" "s1" false 0).1 = false
  /\ map is_quota_error
       (generate_image_response (world := demo_world "openai" false)
          "a red house" [] [] "dall-e-2" "a@b" "s1" false 0).2 = [true]
  /\ existsb is_gated_effect
       (generate_audio_response (world := demo_world "openai" false)
          "read this" [] [] "tts" "a@b" "s1" false 0).1 = false
  /\ map is_quota_error
       (generate_audio_response (world := demo_world "openai" false)
          "read this" [] [] "tts" "a@b" "s1" false 0).2 = [true].
Proof. repeat split; vm_compute; reflexivity. Qed.

(** * Further properties of the service *)

(** ** Provider selector *)

(** X1: whatever the configuration, the client is built with a cap of 2000
    tokens and with the given flag for both streaming and usage streaming;
    its model is the configured one, except for the alias edith, which pins
    llama-3.3-70b on the Cerebras client; and the temperature is left out
    exactly for the two OpenAI-compatible clients. *)
Theorem get_llm_settings (ai_config : AiConfig) (isStream : bool) :
  let llm := _get_llm ai_config isStream in
  llm_max_tokens llm = 2000
  /\ llm_streaming llm = isStream
  /\ llm_stream_usage llm = isStream
  /\ llm_model llm
     = (if String.eqb (Py.lower (provider ai_config)) "edith"
        then "llama-3.3-70b" else model ai_config)
  /\ (String.eqb (Py.lower (provider ai_config)) "edith" = true ->
      llm_class llm = ChatCerebras)
  /\ (llm_temperature llm = false <-> llm_class llm = ChatOpenAI).
Proof.
  intros llm. subst llm. unfold _get_llm.
  set (p := Py.lower (provider ai_config)).
  destruct (String.eqb_spec p "anthropic") as [->|_];
    [repeat split; (reflexivity || discriminate)|].
  destruct (String.eqb_spec p "deepseek") as [->|_];
    [repeat split; (reflexivity || discriminate)|].
  destruct (String.eqb_spec p "google") as [->|_];
    [repeat split; (reflexivity || discriminate)|].
  destruct (String.eqb_spec p "xai") as [->|_];
    [repeat split; (reflexivity || discriminate)|].
  destruct (String.eqb_spec p "ollama") as [->|_];
    [repeat split; (reflexivity || discriminate)|].
  destruct (String.eqb_spec p "mistralai") as [->|_];
    [repeat split; (reflexivity || discriminate)|].
  destruct (String.eqb_spec p "cerebras") as [->|_];
    [repeat split; (reflexivity || discriminate)|].
  destruct (String.eqb_spec p "edith") as [->|Hne].
  { repeat split; (reflexivity || discriminate). }
  cbn [orb].
  destruct (String.eqb_spec p "openrouter") as [->|_];
    repeat split; try reflexivity; try discriminate.
Qed.

(** ** Message assembler *)

(** X2: for a provider that is neither anthropic nor deepseek, the
    assembled list is a system message followed by the turns of the history
    in order, each giving a user message for a non-empty prompt and then an
    assistant message for a non-empty response; the system prompt is the
    database prompt for the provider named exactly edith and empty
    otherwise. *)
Theorem get_chat_messages_default (db_system_prompt provider : string)
    (chat_history : list IRouterChatLog) :
  Py.lower provider <> "anthropic" ->
  Py.lower provider <> "deepseek" ->
  let system_prompt := if String.eqb provider "edith" then db_system_prompt else "" in
  get_chat_messages db_system_prompt chat_history provider
  = (system_message system_prompt :: flat_map turn_messages chat_history, system_prompt).
Proof.
  intros Ha Hd system_prompt. unfold get_chat_messages. fold system_prompt.
  apply String.eqb_neq in Ha, Hd. rewrite Ha, Hd. cbn [negb app].
  by rewrite fold_append_turn.
Qed.

Lemma get_chat_messages_default_witness :
  Py.lower "edith" <> "anthropic"
  /\ Py.lower "edith" <> "deepseek"
  /\ get_chat_messages "You are Edith."
       [ {| prompt := "hi"; response := "" |}; {| prompt := ""; response := "late" |} ] "edith"
     = ([system_message "You are Edith."; user_message "hi"; assistant_message "late"],
        "You are Edith.").
Proof.
  assert (Ha : Py.lower "edith" <> "anthropic") by discriminate.
  assert (Hd : Py.lower "edith" <> "deepseek") by discriminate.
  split; [exact Ha|]. split; [exact Hd|].
  exact (get_chat_messages_default "You are Edith." "edith" _ Ha Hd).
Defined.

Section CopyProps.

Lemma has_content_plain (r s : string) :
  _has_content (role_content r (Py.Str s)) = Some (has_text (role_content r (Py.Str s))).
Proof.
  unfold _has_content, has_text. rewrite content_role_content.
  destruct s as [|a s]; reflexivity.
Qed.

(** The copy loop on plain messages is a filter. *)
Lemma copy_loop_filter (messages acc : list message) :
  Forall plain_message messages ->
  for_each
    (fun acc msg =>
       b ← _has_content msg;
       if b : bool then
         role ← msg !! "role";
         content ← msg !! "content";
         Some (acc ++ [<["role" := role]> (<["content" := content]> ∅)])
       else Some acc)
    messages acc
  = Some (acc ++ List.filter has_text messages).
Proof.
  intros Hms. revert acc. induction Hms as [|m messages Hm _ IH]; intros acc; simpl.
  - by rewrite app_nil_r.
  - destruct Hm as (r & s & ->). rewrite has_content_plain.
    destruct (has_text (role_content r (Py.Str s))); simpl.
    + rewrite role_role_content, content_role_content. simpl. rewrite IH.
      by rewrite <- app_assoc.
    + apply IH.
Qed.

(** The copy loop never yields more messages than it was given. *)
Lemma copy_loop_length (messages acc kept : list message) :
  for_each
    (fun acc msg =>
       b ← _has_content msg;
       if b : bool then
         role ← msg !! "role";
         content ← msg !! "content";
         Some (acc ++ [<["role" := role]> (<["content" := content]> ∅)])
       else Some acc)
    messages acc = Some kept ->
  (length kept <= length acc + length messages)%nat.
Proof.
  revert acc. induction messages as [|m messages IH]; intros acc; simpl.
  - intros [= <-]. lia.
  - destruct (_has_content m) as [[|]|]; simpl; [| |discriminate].
    + destruct (m !! "role"); simpl; [|discriminate].
      destruct (m !! "content"); simpl; [|discriminate].
      intros H%IH. rewrite length_app in H. simpl in H. lia.
    + intros H%IH. lia.
Qed.

End CopyProps.

(** X3: on the streamed path without files the last message of the
    assembled history is never sent: the list built from plain messages is
    the system message (none for anthropic), the messages before the last
    one whose content is not blank, and the query as a user message. *)
Theorem build_formatted_messages_drops_last (provider system_prompt query : string)
    (messages : list message) (last : message) :
  Forall plain_message messages ->
  build_formatted_messages provider system_prompt (messages ++ [last]) query
  = Some ((if String.eqb (Py.lower provider) "anthropic" then []
           else [system_message system_prompt])
          ++ List.filter has_text messages ++ [user_message query]).
Proof.
  intros Hms. unfold build_formatted_messages, copy_history, Py.but_last.
  rewrite removelast_last, (copy_loop_filter _ _ Hms). cbn [mbind option_bind app].
  destruct (String.eqb (Py.lower provider) "anthropic"); cbn [negb app];
    by rewrite <- ?app_assoc.
Qed.

Lemma build_formatted_messages_drops_last_witness :
  Forall plain_message [user_message "hi"; assistant_message "  "]
  /\ build_formatted_messages "openai" "" [user_message "hi"; assistant_message "  ";
                                           assistant_message "the latest answer"] "next"
     = Some [system_message ""; user_message "hi"; user_message "next"].
Proof.
  assert (H : Forall plain_message [user_message "hi"; assistant_message "  "])
    by (repeat constructor; eexists _, _; reflexivity).
  split; [exact H|].
  exact (build_formatted_messages_drops_last "openai" "" "next"
           [user_message "hi"; assistant_message "  "]
           (assistant_message "the latest answer") H).
Defined.

(** X4: folding the system content into the first user message changes
    neither the number of messages nor the role of any of them. *)
Theorem prepend_to_first_user_keeps_roles (system_content : string)
    (direct_messages result : list message) :
  prepend_to_first_user system_content direct_messages = Some result ->
  length result = length direct_messages
  /\ map message_role result = map message_role direct_messages.
Proof.
  revert result. induction direct_messages as [|msg rest IH]; intros result; simpl.
  - intros [= <-]. by split.
  - destruct (msg !! "role") as [role|] eqn:Hrole; simpl; [|discriminate].
    assert (Hkeep : forall c, message_role (<["content" := c]> msg) = message_role msg).
    { intros c. unfold message_role. by rewrite lookup_insert_ne. }
    destruct (value_is role "user").
    + destruct (msg !! "content") as [[s|l|d|z|]|]; simpl; try discriminate;
        intros [= <-]; simpl; rewrite ?Hkeep; by split.
    + destruct (prepend_to_first_user system_content rest) as [rest'|]; simpl;
        [|discriminate].
      intros [= <-]. destruct (IH rest' eq_refl) as [Hl Hr]. simpl. by rewrite Hl, Hr.
Qed.

Lemma prepend_to_first_user_keeps_roles_witness :
  prepend_to_first_user "SYS" [assistant_message "a"; user_message "u"; user_message "v"]
  = Some [assistant_message "a"; user_message ("SYS" ++ nl ++ nl ++ "u"); user_message "v"]
  /\ length [assistant_message "a"; user_message ("SYS" ++ nl ++ nl ++ "u"); user_message "v"]
     = length [assistant_message "a"; user_message "u"; user_message "v"].
Proof.
  assert (H : prepend_to_first_user "SYS"
                [assistant_message "a"; user_message "u"; user_message "v"]
              = Some [assistant_message "a"; user_message ("SYS" ++ nl ++ nl ++ "u");
                      user_message "v"]) by (vm_compute; reflexivity).
  split; [exact H|].
  exact (proj1 (prepend_to_first_user_keeps_roles "SYS" _ _ H)).
Defined.
(** ** Token estimator and meter *)

(** X5: whenever the message count returns, it is at least 2 plus 3 per
    message (the priming tokens, and for each message the overhead of 4 less
    at most one discount for a name). *)
Theorem estimate_tokens_at_least `{tk : Tiktoken} (messages : list message)
    (model : string) (n : Z) :
  estimate_tokens messages model = Some n ->
  2 + 3 * Z.of_nat (length messages) <= n.
Proof. apply estimate_tokens_lower_bound. Qed.

Lemma estimate_tokens_at_least_witness :
  estimate_tokens (tk := word_tiktoken)
    [<["name" := Py.Str ""]> (role_content "" (Py.Str ""))] "gpt-4o" = Some 5
  /\ 2 + 3 * Z.of_nat (length [<["name" := Py.Str ""]> (role_content "" (Py.Str ""))]) <= 5.
Proof.
  assert (H : estimate_tokens (tk := word_tiktoken)
                [<["name" := Py.Str ""]> (role_content "" (Py.Str ""))] "gpt-4o" = Some 5)
    by (vm_compute; reflexivity).
  split; [exact H|].
  exact (estimate_tokens_at_least (tk := word_tiktoken) _ _ _ H).
Defined.

(** X6: on token counts the response estimate is monotone, never exceeds
    2000, and reaches 2000 exactly from 1334 prompt tokens on. *)
Theorem estimate_response_tokens_monotone_capped (p q : Z) :
  0 <= p -> p <= q ->
  0 <= estimate_response_tokens p
  /\ estimate_response_tokens p <= estimate_response_tokens q
  /\ estimate_response_tokens q <= 2000
  /\ (estimate_response_tokens p = 2000 <-> 1334 <= p).
Proof.
  intros Hp Hpq.
  rewrite !estimate_response_tokens_floor by lia.
  assert (Hmono : 3 * p / 2 <= 3 * q / 2) by (apply Z.div_le_mono; lia).
  assert (H0 : 0 <= 3 * p / 2) by (apply Z.div_pos; lia).
  repeat split; try lia.
  - intros H. destruct (Z_lt_le_dec p 1334) as [Hlt|]; [|done].
    assert (3 * p / 2 < 2000) by (apply Z.div_lt_upper_bound; lia). lia.
  - intros H. assert (2000 <= 3 * p / 2) by (apply Z.div_le_lower_bound; lia). lia.
Qed.

Lemma estimate_response_tokens_monotone_capped_witness :
  0 <= 1333 /\ 1333 <= 1334
  /\ estimate_response_tokens 1333 <= estimate_response_tokens 1334.
Proof.
  assert (H0 : 0 <= 1333) by lia. assert (H1 : 1333 <= 1334) by lia.
  split; [exact H0|]. split; [exact H1|].
  exact (proj1 (proj2 (estimate_response_tokens_monotone_capped 1333 1334 H0 H1))).
Defined.

(** X7: when the encoding accepts every text and every message is
    countable (text parts carry strings, [image_url] entries are objects),
    the pre-call estimate returns a usage. *)
Theorem estimate_total_tokens_total `{tk : Tiktoken} (messages : list message)
    (system_template model context : string) :
  (forall s, is_Some (encode (_get_encoding model) s)) ->
  forallb countable_message messages = true ->
  exists u, estimate_total_tokens messages system_template model context = Some u.
Proof.
  intros Henc Hms.
  destruct (estimate_total_tokens_returns messages system_template model context Henc Hms)
    as [u Hu]. by exists u.
Qed.

Lemma estimate_total_tokens_total_witness :
  (forall s, is_Some (encode (_get_encoding (tk := word_tiktoken) "gpt-4o") s))
  /\ forallb countable_message
       [role_content "user" (Py.List [text_part "look"; url_part "https://x/y.png" None])] = true
  /\ exists u, estimate_total_tokens (tk := word_tiktoken)
                 [role_content "user" (Py.List [text_part "look"; url_part "https://x/y.png" None])]
                 "s" "gpt-4o" "c" = Some u.
Proof.
  assert (H1 : forall s, is_Some (encode (_get_encoding (tk := word_tiktoken) "gpt-4o") s))
    by (intros s; eexists; reflexivity).
  assert (H2 : forallb countable_message
                 [role_content "user" (Py.List [text_part "look"; url_part "https://x/y.png" None])]
               = true) by (vm_compute; reflexivity).
  split; [exact H1|]. split; [exact H2|].
  exact (estimate_total_tokens_total (tk := word_tiktoken) _ "s" "gpt-4o" "c" H1 H2).
Defined.

(** The estimate raises on a part whose text is not a string. *)
Example estimate_total_tokens_raises :
  estimate_total_tokens (tk := word_tiktoken)
    [role_content "user" (Py.List [Py.Dict (<["type" := Py.Str "text"]> (<["text" := Py.None_]> ∅))])]
    "" "gpt-4o" "" = None.
Proof. vm_compute. reflexivity. Qed.

(** X8: the meter counts the same messages as the estimate: when the
    estimate returns and the encoding accepts the response, the metered
    prompt count is the estimated one less the tokens of the system template
    and of the context, and the completion count is the length of the
    encoded response. *)
Theorem track_agrees_with_estimate `{tk : Tiktoken} (messages : list message)
    (system_template model context response : string) (u : token_usage)
    (tokens : list N) :
  estimate_total_tokens messages system_template model context = Some u ->
  encode (_get_encoding model) response = Some tokens ->
  let metered := track_actual_token_usage messages response model in
  prompt_tokens metered
  = prompt_tokens u - tokens_of (_get_encoding model) system_template
    - tokens_of (_get_encoding model) context
  /\ completion_tokens metered = Z.of_nat (length tokens)
  /\ total_tokens metered = prompt_tokens metered + completion_tokens metered.
Proof.
  intros Hu Hr metered. subst metered.
  pose proof Hu as (Hp & _ & _)%estimate_total_tokens_Some.
  unfold estimate_total_tokens in Hu. unfold track_actual_token_usage.
  destruct (estimate_tokens messages model) as [n|] eqn:Hn; [|discriminate].
  apply estimate_tokens_Some in Hn. cbn [mbind option_bind encoded_len].
  rewrite Hr. simpl. rewrite Hp. unfold prompt_tokens_formula. repeat split; lia.
Qed.

Lemma track_agrees_with_estimate_witness :
  let messages := [system_message ""; user_message "Hello there"] in
  let u := {| prompt_tokens := 19; completion_tokens := 28; total_tokens := 47 |} in
  estimate_total_tokens (tk := word_tiktoken) messages "Be very brief." "gpt-4o" "some context"
  = Some u
  /\ encode (_get_encoding (tk := word_tiktoken) "gpt-4o") "General Kenobi" = Some [7%N; 6%N]
  /\ prompt_tokens (track_actual_token_usage (tk := word_tiktoken) messages "General Kenobi" "gpt-4o")
     = prompt_tokens u
       - tokens_of (_get_encoding (tk := word_tiktoken) "gpt-4o") "Be very brief."
       - tokens_of (_get_encoding (tk := word_tiktoken) "gpt-4o") "some context".
Proof.
  intros messages u.
  assert (H1 : estimate_total_tokens (tk := word_tiktoken) messages "Be very brief." "gpt-4o"
                 "some context" = Some u) by (vm_compute; reflexivity).
  assert (H2 : encode (_get_encoding (tk := word_tiktoken) "gpt-4o") "General Kenobi"
               = Some [7%N; 6%N]) by (vm_compute; reflexivity).
  split; [exact H1|]. split; [exact H2|].
  exact (proj1 (track_agrees_with_estimate (tk := word_tiktoken) messages "Be very brief."
                  "gpt-4o" "some context" "General Kenobi" u _ H1 H2)).
Defined.

(** X9: the meter never raises, and its all-zero usage means exactly that
    counting the messages or encoding the response raised. *)
Theorem track_zero_iff_failure `{tk : Tiktoken} (messages : list message)
    (response model : string) :
  track_actual_token_usage messages response model = zero_usage
  <-> estimate_tokens messages model = None
      \/ encode (_get_encoding model) response = None.
Proof.
  unfold track_actual_token_usage.
  destruct (estimate_tokens messages model) as [n|] eqn:Hn; cbn [mbind option_bind].
  - cbn [encoded_len].
    destruct (encode (_get_encoding model) response) as [ts|]; cbn [mbind option_bind].
    + apply estimate_tokens_lower_bound in Hn. split.
      * intros [= H1 _]. lia.
      * intros [H|H]; discriminate.
    + split; [by right|reflexivity].
  - split; [by left|reflexivity].
Qed.
(** ** Processing modes *)

(** X10: for a non-empty file list and a configured model,
    [_determine_processing_mode] never drops a text file, passes the image
    files on exactly when the model supports images, and names the mode
    after what it passes on; direct invocation is then chosen exactly when
    images are passed on.  Without a configuration it raises exactly when
    the files hold both images and text files. *)
Theorem determine_processing_mode_spec `{world : World} (files : list string)
    (ai_config : AiConfig) :
  files <> [] ->
  let images := if imageSupport ai_config then (identify_files files).1 else [] in
  let texts := (identify_files files).2 in
  let mode :=
    match images, texts with
    | [], [] => "text_only"
    | [], _ :: _ => "rag_only"
    | _ :: _, [] => "multimodal_only"
    | _ :: _, _ :: _ => "multimodal_rag"
    end in
  _determine_processing_mode files (Some ai_config) = Some (mode, images, texts)
  /\ _should_use_direct_llm mode images = nonempty images
  /\ (_determine_processing_mode files None = None
      <-> (identify_files files).1 <> [] /\ (identify_files files).2 <> []).
Proof.
  intros Hfiles images texts mode.
  subst mode images texts. unfold _determine_processing_mode.
  destruct files as [|f files]; [done|].
  destruct (identify_files (f :: files)) as [image_files text_files]. cbn [fst snd].
  destruct (imageSupport ai_config), image_files, text_files;
    (split; [reflexivity|]; split; [reflexivity|]);
    cbn; split; try discriminate; try done; intros [H1 H2]; done.
Qed.

Lemma determine_processing_mode_spec_witness :
  ["a.png"; "b.txt"] <> []
  /\ _determine_processing_mode
       (world := demo_world "openai" true) ["a.png"; "b.txt"] (Some (demo_config "openai"))
     = Some ("rag_only", [], ["a.png"; "b.txt"]).
Proof.
  assert (H : ["a.png"; "b.txt"] <> []) by discriminate.
  split; [exact H|].
  exact (proj1 (determine_processing_mode_spec (world := demo_world "openai" true)
                  ["a.png"; "b.txt"] (demo_config "openai") H)).
Defined.

(** ** The unused assembler [_create_chat_messages_for_llm] *)

Lemma removelast_length {A} (xs : list A) :
  length (removelast xs) = pred (length xs).
Proof.
  rewrite removelast_firstn_len, length_firstn. lia.
Qed.

(** X11: [_create_chat_messages_for_llm] raises on an empty message list;
    when it returns, the list ends with a user message and holds at most one
    entry more than it was given, and for anthropic, which gets no system
    entry, at most as many. *)
Theorem create_chat_messages_for_llm_shape (messages result : list message)
    (system_prompt current_question context chat_history_str provider : string) :
  _create_chat_messages_for_llm messages system_prompt current_question context
    chat_history_str provider = Some result ->
  messages <> []
  /\ (exists front content, result = front ++ [role_content "user" content])
  /\ (length result <= length messages + 1)%nat
  /\ (Py.lower provider = "anthropic" -> (length result <= length messages)%nat).
Proof.
  unfold _create_chat_messages_for_llm.
  set (sc1 := if Py.str_truthy context then _ else system_prompt).
  set (sc := if Py.str_truthy chat_history_str then _ else sc1).
  set (front0 := if (negb _ && _)%bool then _ else ([] : list message)).
  destruct (copy_history messages) as [history|] eqn:Hh; cbn [mbind option_bind];
    [|discriminate].
  destruct (last_message messages) as [last_msg|] eqn:Hlast; cbn [mbind option_bind];
    [|discriminate].
  assert (Hne : messages <> []) by (intros ->; discriminate).
  assert (Hmsgs : (1 <= length messages)%nat) by (destruct messages; [done|simpl; lia]).
  assert (Hlen : (length history <= length messages - 1)%nat).
  { unfold copy_history, Py.but_last in Hh. apply copy_loop_length in Hh.
    simpl in Hh. rewrite removelast_length in Hh. lia. }
  assert (Hfront : (length front0 <= 1)%nat)
    by (subst front0; destruct (negb _ && _)%bool; simpl; lia).
  assert (Hanth : Py.lower provider = "anthropic" -> front0 = []).
  { intros Hp. subst front0. rewrite Hp. reflexivity. }
  destruct (last_msg !! "content") as [last_content|]; cbn [mbind option_bind];
    [|discriminate].
  intros Hres.
  assert (Hshape : exists content, result = (front0 ++ history) ++ [role_content "user" content]).
  { destruct last_content as [s|l|d|z|];
      try (destruct (String.eqb (Py.lower provider) "anthropic" && Py.str_truthy sc)%bool;
           [destruct (py_any _ _) as [b|]; cbn [mbind option_bind] in Hres; [|discriminate]|];
           cbn [mbind option_bind] in Hres; injection Hres as <-; by eexists).
    injection Hres as <-. by eexists. }
  destruct Hshape as [content ->].
  split; [exact Hne|]. split; [by eexists _, _|]. split.
  - rewrite !length_app. simpl. lia.
  - intros Hp. rewrite (Hanth Hp). rewrite !length_app. simpl. lia.
Qed.

Lemma create_chat_messages_for_llm_shape_witness :
  _create_chat_messages_for_llm [user_message "hi"; assistant_message "hello"; user_message "q"]
    "Be brief." "q" "" "" "Anthropic"
  = Some [user_message "hi"; assistant_message "hello"; user_message "q"]
  /\ [user_message "hi"; assistant_message "hello"; user_message "q"] <> [].
Proof.
  assert (H : _create_chat_messages_for_llm
                [user_message "hi"; assistant_message "hello"; user_message "q"]
                "Be brief." "q" "" "" "Anthropic"
              = Some [user_message "hi"; assistant_message "hello"; user_message "q"])
    by (vm_compute; reflexivity).
  split; [exact H|].
  exact (proj1 (create_chat_messages_for_llm_shape _ _ _ _ _ _ _ H)).
Defined.

(** For Anthropic the system content reaches the model only when no user
    message precedes the question; with one in the history it is left out. *)
Example create_chat_messages_for_llm_anthropic :
  _create_chat_messages_for_llm [assistant_message "hello"; user_message "q"]
    "Be brief." "q" "" "" "anthropic"
  = Some [assistant_message "hello"; user_message ("Be brief." ++ nl ++ nl ++ "q")]
  /\ _create_chat_messages_for_llm [] "Be brief." "q" "" "" "anthropic" = None.
Proof. split; vm_compute; reflexivity. Qed.
(** ** Multimodal messages *)

(** X12: a message that [_has_multimodal_content] counts as multimodal is a
    message [_has_content] keeps, provided the text entries of its parts are
    strings. *)
Theorem multimodal_message_has_content (m : message) (parts : list Py.value) :
  m !! "content" = Some (Py.List parts) ->
  Forall text_is_string parts ->
  _has_multimodal_content [m] = true ->
  _has_content m = Some true.
Proof.
  intros Hc Hwf. unfold _has_multimodal_content, _has_content. cbn [existsb].
  rewrite Hc, orb_false_r. intros Himg.
  assert (Hex : Exists (fun part => part_has_text part \/ part_is_image part) parts).
  { apply existsb_exists in Himg as (item & Hin & Hitem).
    apply Exists_exists. exists item. split; [by apply list_elem_of_In|].
    right. destruct item as [s|l|d|z|]; try discriminate.
    apply type_is_image_spec in Hitem as (t & Ht & Hor). by exists d, t. }
  destruct parts as [|part parts]; [by apply Exists_nil in Hex|].
  cbn [Py.truthy negb].
  destruct (py_any_item_has_content _ Hwf) as (b & -> & Hb).
  f_equal. by apply Hb.
Qed.

Lemma multimodal_message_has_content_witness :
  let parts := [text_part "  "; base64_part "image/png" "AAAA"] in
  role_content "user" (Py.List parts) !! "content" = Some (Py.List parts)
  /\ Forall text_is_string parts
  /\ _has_multimodal_content [role_content "user" (Py.List parts)] = true
  /\ _has_content (role_content "user" (Py.List parts)) = Some true.
Proof.
  intros parts.
  assert (H1 : role_content "user" (Py.List parts) !! "content" = Some (Py.List parts))
    by apply content_role_content.
  assert (H2 : Forall text_is_string parts).
  { repeat constructor; intros d v [= <-]; vm_compute; intros [= <-]; eauto. }
  assert (H3 : _has_multimodal_content [role_content "user" (Py.List parts)] = true)
    by (vm_compute; reflexivity).
  split; [exact H1|]. split; [exact H2|]. split; [exact H3|].
  exact (multimodal_message_has_content _ parts H1 H2 H3).
Defined.

Section ImageParts.
Context `{world : World} {R : Type}.

Lemma format_images_no_download (provider : string) (image_files : list string)
    (formatted_content : list Py.value) :
  Py.lower provider <> "anthropic" -> Py.lower provider <> "google" ->
  format_images_from (R := R) provider image_files formatted_content
  = ([], Normal (formatted_content ++ map (url_part_for provider) image_files)).
Proof.
  intros Ha Hg. apply String.eqb_neq in Ha, Hg.
  revert formatted_content. induction image_files as [|image_url rest IH];
    intros formatted_content; cbn [format_images_from map].
  - by rewrite app_nil_r.
  - assert (Hone : format_one_image (R := R) provider formatted_content image_url
                   = pure (formatted_content ++ [url_part_for provider image_url])).
    { unfold format_one_image, url_part_for. rewrite Ha, Hg.
      destruct (String.eqb (Py.lower provider) "openai"); reflexivity. }
    rewrite Hone. unfold pure, bind. rewrite IH. cbn [app]. by rewrite <- app_assoc.
Qed.

Lemma format_images_anthropic (provider : string) (image_files : list string)
    (formatted_content : list Py.value) :
  Py.lower provider = "anthropic" ->
  format_images_from (R := R) provider image_files formatted_content
  = (map (fun image_url => EvHttpGet (full_url image_url)) image_files,
     Normal (formatted_content ++ flat_map anthropic_parts image_files)).
Proof.
  intros Ha. revert formatted_content. induction image_files as [|image_url rest IH];
    intros formatted_content; cbn [format_images_from map flat_map].
  - by rewrite app_nil_r.
  - assert (Hone : format_one_image (R := R) provider formatted_content image_url
                   = ([EvHttpGet (full_url image_url)],
                      Normal (formatted_content ++ anthropic_parts image_url))).
    { unfold format_one_image, anthropic_parts. rewrite Ha.
      change (String.eqb "anthropic" "openai") with false.
      change (String.eqb "anthropic" "anthropic") with true. cbv iota.
      destruct (requests_get (full_url image_url)) as [content|e];
        cbn [call try_except bind pure app]; by rewrite ?app_nil_r. }
    rewrite Hone. unfold bind. rewrite IH. cbn [app]. by rewrite <- app_assoc.
Qed.

End ImageParts.

(** X13: for a provider other than anthropic and google,
    [format_image_content] touches no network and returns one URL part per
    file, in order: the file name itself when it starts with http and the
    name under the CDN base otherwise, with the detail hint [high] for
    openai only. *)
Theorem format_image_content_without_download `{world : World} {R : Type}
    (provider : string) (image_files : list string) :
  Py.lower provider <> "anthropic" -> Py.lower provider <> "google" ->
  format_image_content (R := R) image_files provider
  = ([], Normal (map (url_part_for provider) image_files)).
Proof.
  intros Ha Hg. unfold format_image_content.
  by rewrite (format_images_no_download provider image_files [] Ha Hg).
Qed.

Lemma format_image_content_without_download_witness :
  Py.lower "OpenAI" <> "anthropic" /\ Py.lower "OpenAI" <> "google"
  /\ format_image_content (world := demo_world "openai" true) (R := unit)
       ["https://x/a.png"; "b.jpg"] "OpenAI"
     = ([], Normal [url_part "https://x/a.png" (Some "high");
                    url_part "https://cdn.example/b.jpg" (Some "high")]).
Proof.
  assert (Ha : Py.lower "OpenAI" <> "anthropic") by discriminate.
  assert (Hg : Py.lower "OpenAI" <> "google") by discriminate.
  split; [exact Ha|]. split; [exact Hg|].
  exact (format_image_content_without_download (world := demo_world "openai" true)
           (R := unit) "OpenAI" ["https://x/a.png"; "b.jpg"] Ha Hg).
Defined.

(** X14: for anthropic, [format_image_content] downloads every file once,
    in order, and never raises: a file whose download fails is skipped, the
    others give a base64 part each. *)
Theorem format_image_content_anthropic `{world : World} {R : Type}
    (provider : string) (image_files : list string) :
  Py.lower provider = "anthropic" ->
  format_image_content (R := R) image_files provider
  = (map (fun image_url => EvHttpGet (full_url image_url)) image_files,
     Normal (flat_map anthropic_parts image_files)).
Proof.
  intros Ha. unfold format_image_content.
  by rewrite (format_images_anthropic provider image_files [] Ha).
Qed.

Lemma format_image_content_anthropic_witness :
  Py.lower "Anthropic" = "anthropic"
  /\ format_image_content (world := demo_world "anthropic" true) (R := unit)
       ["a.PNG"] "Anthropic"
     = ([EvHttpGet "https://cdn.example/a.PNG"], Normal [base64_part "image/png" "bytes"]).
Proof.
  assert (Ha : Py.lower "Anthropic" = "anthropic") by reflexivity.
  split; [exact Ha|].
  exact (format_image_content_anthropic (world := demo_world "anthropic" true)
           (R := unit) "Anthropic" ["a.PNG"] Ha).
Defined.
Section MultimodalText.
Context `{world : World} {R : Type}.

Lemma image_part_has_no_text (v : Py.value) :
  image_part v ->
  match v with
  | Py.Dict d => field_is d "type" "text" = false
  | _ => True
  end.
Proof. intros [(url & detail & ->)|(media_type & data & ->)]; reflexivity. Qed.

(** The parts built for the image files are image parts, and building them
    never raises. *)
Lemma format_images_from_parts (provider : string) (image_files : list string)
    (formatted_content : list Py.value) :
  Forall image_part formatted_content ->
  exists t parts,
    format_images_from (R := R) provider image_files formatted_content = (t, Normal parts)
    /\ Forall image_part parts.
Proof.
  revert formatted_content. induction image_files as [|image_url rest IH];
    intros formatted_content Hacc; cbn [format_images_from]; [by eexists _, _|].
  assert (Hone : exists t next,
    format_one_image (R := R) provider formatted_content image_url = (t, Normal next)
    /\ Forall image_part next).
  { assert (Hurl : forall u d, Forall image_part (formatted_content ++ [url_part u d])).
    { intros. apply Forall_app. split; [done|]. apply Forall_singleton. left. by eexists _, _. }
    assert (Hb64 : forall mt d, Forall image_part (formatted_content ++ [base64_part mt d])).
    { intros. apply Forall_app. split; [done|]. apply Forall_singleton. right. by eexists _, _. }
    unfold format_one_image.
    destruct (String.eqb (Py.lower provider) "openai"); [by eexists _, _|].
    destruct (String.eqb (Py.lower provider) "anthropic");
      [destruct (requests_get (full_url image_url)); by eexists _, _|].
    destruct (String.eqb (Py.lower provider) "google");
      [destruct (requests_get (full_url image_url)); by eexists _, _|].
    by eexists _, _. }
  destruct Hone as (t & next & -> & Hnext).
  destruct (IH next Hnext) as (t' & parts & Hrest & Hparts).
  unfold bind. rewrite Hrest. by eexists _, _.
Qed.

Lemma extract_text_of_parts (text : string) (images : list Py.value) :
  Forall image_part images ->
  _extract_text_content (Py.List (text_part text :: images)) = text.
Proof.
  intros Himg. unfold _extract_text_content. cbn [flat_map].
  assert (Hnone : flat_map
            (fun item =>
               match item with
               | Py.Dict d =>
                   if field_is d "type" "text"
                   then [py_str (default (Py.Str "") (d !! "text"))] else []
               | _ => []
               end) images = []).
  { induction Himg as [|v images Hv _ IH]; [reflexivity|]. cbn [flat_map]. rewrite IH.
    apply image_part_has_no_text in Hv. destruct v; try reflexivity. by rewrite Hv. }
  rewrite Hnone. reflexivity.
Qed.

End MultimodalText.

(** X15: [create_multimodal_message] never raises and returns a user
    message from which [_extract_text_content] reads back the text that was
    sent: the given text, or the default prompt when images are attached and
    the trimmed text is shorter than 5 characters. *)
Theorem create_multimodal_message_text `{world : World} {R : Type}
    (text_content : string) (image_files : list string) (provider : string) :
  exists t content,
    create_multimodal_message (R := R) text_content image_files provider
    = (t, Normal (role_content "user" content))
    /\ _extract_text_content content = effective_text text_content image_files.
Proof.
  unfold create_multimodal_message, effective_text.
  destruct image_files as [|image rest]; [by eexists _, _|].
  set (text := if (_ || _ || _)%bool then default_image_prompt else text_content).
  destruct (_ || _ || _ || _)%bool; [|by eexists _, _].
  unfold format_image_content.
  destruct (format_images_from_parts (R := R) provider (image :: rest) [])
    as (t & parts & Hparts & Himg); [constructor|].
  unfold bind. rewrite Hparts. eexists _, _. split; [reflexivity|].
  by apply extract_text_of_parts.
Qed.

(** A short text with an image attached is replaced, a long one is kept,
    and without images nothing is replaced. *)
Example effective_text_examples :
  effective_text " hi " ["a.png"] = default_image_prompt
  /\ effective_text "what is on this picture" ["a.png"] = "what is on this picture"
  /\ effective_text "" [] = "".
Proof. repeat split; reflexivity. Qed.

(** ** Streaming *)

Section Streaming.
Context `{world : World} {R : Type}.

Lemma append_assoc (a b c : string) : ((a ++ b) ++ c)%string = (a ++ (b ++ c))%string.
Proof.
  induction a as [|x a IH]; [reflexivity|].
  change (String x ((a ++ b) ++ c) = String x (a ++ (b ++ c)))%string. by rewrite IH.
Qed.

Lemma append_empty_r (a : string) : (a ++ "")%string = a.
Proof.
  induction a as [|x a IH]; [reflexivity|].
  change (String x (a ++ "") = String x a)%string. by rewrite IH.
Qed.

Lemma yield_chunks_spec (chunks : list string) (full_response : string) :
  yield_chunks (R := R) chunks full_response
  = (map (fun chunk => EvYield (Text chunk)) (List.filter Py.str_truthy chunks),
     Normal (full_response ++ concat_strings chunks)%string).
Proof.
  revert full_response. induction chunks as [|chunk rest IH]; intros full_response;
    cbn [yield_chunks List.filter concat_strings fold_right map].
  - by rewrite append_empty_r.
  - fold (concat_strings rest). destruct (Py.str_truthy chunk) eqn:E.
    + unfold emit, bind. rewrite IH. cbn [app map]. by rewrite append_assoc.
    + rewrite IH. destruct chunk; [reflexivity|discriminate].
Qed.

Lemma concat_strings_nonempty (chunks : list string) :
  concat_strings (List.filter Py.str_truthy chunks) = concat_strings chunks.
Proof.
  induction chunks as [|chunk rest IH]; [reflexivity|]. cbn [List.filter].
  destruct chunk as [|a chunk]; cbn [Py.str_truthy]; [exact IH|].
  unfold concat_strings in *. cbn [fold_right]. by rewrite IH.
Qed.

Lemma yielded_text_chunks (chunks : list string) :
  yielded_text (map (fun chunk => EvYield (Text chunk)) chunks) = chunks.
Proof. induction chunks as [|c rest IH]; [reflexivity|]. simpl. by rewrite IH. Qed.

End Streaming.

(** X16: streaming invokes the model once, yields every non-empty chunk
    once and in order, and returns the concatenation of the chunks, which is
    the concatenation of what it yielded; when the stream breaks, the chunks
    received so far have been yielded and the failure is raised as a 500. *)
Theorem stream_response_spec `{world : World} {R : Type} (llm : llm_client) (p : payload)
    (what : string) :
  let chunks := (llm_astream llm p).1 in
  let run := stream_response (R := R) llm p what in
  run.1 = EvInvoke llm p :: map (fun chunk => EvYield (Text chunk))
                              (List.filter Py.str_truthy chunks)
  /\ run.2 = match (llm_astream llm p).2 with
             | None => Normal (concat_strings chunks)
             | Some e => Raised (Exception ("500: " ++ what ++ exn_text e)%string)
             end
  /\ concat_strings (yielded_text run.1) = concat_strings chunks.
Proof.
  intros chunks run. subst chunks run. unfold stream_response.
  destruct (llm_astream llm p) as [chunks failure]. cbn [fst snd].
  unfold emit, bind at 1 2. rewrite yield_chunks_spec.
  assert (Hyield : concat_strings (yielded_text
            (EvInvoke llm p :: map (fun chunk => EvYield (Text chunk))
                                 (List.filter Py.str_truthy chunks)))
          = concat_strings chunks).
  { cbn [yielded_text flat_map app].
    fold (yielded_text (map (fun chunk => EvYield (Text chunk))
                          (List.filter Py.str_truthy chunks))).
    by rewrite yielded_text_chunks, concat_strings_nonempty. }
  destruct failure as [e|]; unfold bind; cbn [fst snd app raise pure];
    rewrite ?app_nil_r; (split; [reflexivity|]; split; [reflexivity|]); exact Hyield.
Qed.
(** ** The quota gate of the four flows *)

(** X17: the three non-streamed flows keep every provider call and every
    persisted record behind a quota check that the point service answered
    with yes; and when a check was answered with no, the flow returns the
    429 payload, having called no provider and persisted nothing. *)
Theorem non_streamed_flows_respect_the_gate `{tk : Tiktoken} `{world : World}
    (query : string) (files : list string) (chat_history : list IRouterChatLog)
    (model email sessionId : string) (reGenerate : bool) (chatType : Z) :
  gate_respected model
    (generate_text_response query files chat_history model email sessionId reGenerate chatType)
  /\ gate_respected model
       (generate_image_response query files chat_history model email sessionId reGenerate
          chatType)
  /\ gate_respected model
       (generate_audio_response query files chat_history model email sessionId reGenerate
          chatType).
Proof.
  split; [apply generate_text_response_gated|].
  split; [apply generate_image_response_gated|apply generate_audio_response_gated].
Qed.

(** X18: called with files, the streamed flow has the same gate; a denial
    ends the stream with the 429 payload right after the check. *)
Theorem streamed_flow_with_files_respects_the_gate `{tk : Tiktoken} `{world : World}
    (query : string) (files : list string) (chat_history : list IRouterChatLog)
    (model email sessionId : string) (reGenerate : bool) (chatType : Z)
    (learningPrompt : string) :
  files <> [] ->
  stream_gate_respected model
    (generate_stream_response query files chat_history model email sessionId reGenerate
       chatType learningPrompt).
Proof. apply generate_stream_response_with_files_gated. Qed.

Lemma streamed_flow_with_files_respects_the_gate_witness :
  ["notes.txt"] <> ([] : list string)
  /\ stream_gate_respected (world := demo_world "openai" false) "gpt-4o"
       (generate_stream_response (tk := word_tiktoken) (world := demo_world "openai" false)
          "Hello" ["notes.txt"] [] "gpt-4o" "a@b" "s1" false 0 "").
Proof.
  assert (H : ["notes.txt"] <> ([] : list string)) by (intros E; discriminate E).
  split; [exact H|].
  exact (streamed_flow_with_files_respects_the_gate (tk := word_tiktoken)
           (world := demo_world "openai" false)
           "Hello" ["notes.txt"] [] "gpt-4o" "a@b" "s1" false 0 "" H).
Defined.

(** ** Early exits *)

(** X19: when the model has no configuration, each flow stops after the
    lookup: the non-streamed flows return the text "Error: Invalid AI
    configuration", the streamed flow yields it, and nothing else happens:
    no quota check, no provider call, no record. *)
Theorem unknown_model_is_reported `{tk : Tiktoken} `{world : World}
    (query : string) (files : list string) (chat_history : list IRouterChatLog)
    (model email sessionId : string) (reGenerate : bool) (chatType : Z)
    (learningPrompt : string) :
  initialize email = Ok tt ->
  get_ai_config model = None ->
  let stopped := ([EvInitialize email; EvGetAiConfig model],
                  [Text "Error: Invalid AI configuration"]) in
  generate_text_response query files chat_history model email sessionId reGenerate chatType
  = stopped
  /\ generate_image_response query files chat_history model email sessionId reGenerate chatType
     = stopped
  /\ generate_audio_response query files chat_history model email sessionId reGenerate chatType
     = stopped
  /\ generate_stream_response query files chat_history model email sessionId reGenerate
       chatType learningPrompt
     = [EvInitialize email; EvGetAiConfig model;
        EvYield (Text "Error: Invalid AI configuration")].
Proof.
  intros Hinit Hconfig stopped. subst stopped.
  unfold generate_text_response, generate_image_response, generate_audio_response,
    generate_stream_response.
  rewrite Hinit, Hconfig. repeat split; reflexivity.
Qed.

Lemma unknown_model_is_reported_witness :
  let w := broken_world (Ok tt) None in
  initialize (World := w) "a@b" = Ok tt
  /\ get_ai_config (World := w) "no-such-model" = None
  /\ generate_text_response (tk := word_tiktoken) (world := w)
       "Hello" ["notes.txt"] [] "no-such-model" "a@b" "s1" false 0
     = ([EvInitialize "a@b"; EvGetAiConfig "no-such-model"],
        [Text "Error: Invalid AI configuration"]).
Proof.
  intros w.
  assert (H1 : initialize (World := w) "a@b" = Ok tt) by reflexivity.
  assert (H2 : get_ai_config (World := w) "no-such-model" = None) by reflexivity.
  split; [exact H1|]. split; [exact H2|].
  exact (proj1 (unknown_model_is_reported (tk := word_tiktoken) (world := w)
                  "Hello" ["notes.txt"] [] "no-such-model" "a@b" "s1" false 0 "" H1 H2)).
Defined.

(** X20: when the initialisation of the point service raises, nothing
    else is attempted: the non-streamed flows return the 500 payload with
    the text of the exception and the streamed flow yields it. *)
Theorem failed_initialisation_is_reported `{tk : Tiktoken} `{world : World}
    (query : string) (files : list string) (chat_history : list IRouterChatLog)
    (model email sessionId : string) (reGenerate : bool) (chatType : Z)
    (learningPrompt : string) (e : exn) :
  initialize email = Err e ->
  let failed := ([EvInitialize email], [ErrorMarker (internal_error e)]) in
  generate_text_response query files chat_history model email sessionId reGenerate chatType
  = failed
  /\ generate_image_response query files chat_history model email sessionId reGenerate chatType
     = failed
  /\ generate_audio_response query files chat_history model email sessionId reGenerate chatType
     = failed
  /\ generate_stream_response query files chat_history model email sessionId reGenerate
       chatType learningPrompt
     = [EvInitialize email; EvYield (ErrorMarker (internal_error e))].
Proof.
  intros Hinit failed. subst failed.
  unfold generate_text_response, generate_image_response, generate_audio_response,
    generate_stream_response.
  rewrite Hinit. repeat split; reflexivity.
Qed.

Lemma failed_initialisation_is_reported_witness :
  let w := broken_world (Err (Exception "no such user")) (Some (demo_config "openai")) in
  initialize (World := w) "a@b" = Err (Exception "no such user")
  /\ generate_stream_response (tk := word_tiktoken) (world := w)
       "Hello" [] [] "gpt-4o" "a@b" "s1" false 0 ""
     = [EvInitialize "a@b";
        EvYield (ErrorMarker {| status := 500;
                                error_message := "An error occurred while processing your request";
                                details := ExceptionDetails "no such user" |})].
Proof.
  intros w.
  assert (H1 : initialize (World := w) "a@b" = Err (Exception "no such user")) by reflexivity.
  split; [exact H1|].
  exact (proj2 (proj2 (proj2
           (failed_initialisation_is_reported (tk := word_tiktoken) (world := w)
              "Hello" [] [] "gpt-4o" "a@b" "s1" false 0 "" _ H1)))).
Defined.
(** ** What the flows write, and in which order *)

Section WithinLaws.
Context {R A B : Type}.
Implicit Types (P : event -> bool) (Q : R -> Prop).

Lemma only_weaken P (P' : event -> bool) (m : Flow R A) :
  (forall ev, P ev = true -> P' ev = true) -> only P m -> only P' m.
Proof. intros H Hm. unfold only in *. eapply Forall_impl; [exact Hm|]. exact H. Qed.

Lemma within_only P Q (m : Flow R A) : within P Q m -> only P m.
Proof. by intros [H _]. Qed.

Lemma within_bind P Q (m : Flow R A) (k : A -> Flow R B) :
  within P Q m -> (forall a, within P Q (k a)) -> within P Q (bind m k).
Proof.
  intros [Hm Hr] Hk. split.
  - apply only_bind; [exact Hm|]. intros a. apply Hk.
  - intros r. destruct m as [t [a|e|r']]; cbn [bind snd] in *.
    + destruct (Hk a) as [_ Hka]. destruct (k a) as [t' e']. exact (Hka r).
    + intros E. discriminate E.
    + intros [= <-]. by apply Hr.
Qed.

Lemma within_try_except P Q (m : Flow R A) (handler : exn -> Flow R A) :
  within P Q m -> (forall e, within P Q (handler e)) -> within P Q (try_except m handler).
Proof.
  intros [Hm Hr] Hh. split.
  - apply only_try_except; [exact Hm|]. intros e. apply Hh.
  - intros r. destruct m as [t [a|e|r']]; cbn [try_except snd] in *.
    + intros E. discriminate E.
    + destruct (Hh e) as [_ Hhe]. destruct (handler e) as [t' e']. exact (Hhe r).
    + intros [= <-]. by apply Hr.
Qed.

Lemma within_pure P Q (a : A) : within P Q (pure a : Flow R A).
Proof. split; [apply only_pure|intros r E; discriminate E]. Qed.

Lemma within_raise P Q (e : exn) : within P Q (raise e : Flow R A).
Proof. split; [apply only_raise|intros r E; discriminate E]. Qed.

Lemma within_return P Q (r : R) : Q r -> within P Q (return_ r : Flow R A).
Proof. intros H. split; [apply only_return|]. by intros r' [= <-]. Qed.

Lemma within_emit P Q (ev : event) : P ev = true -> within P Q (emit ev : Flow R unit).
Proof. intros H. split; [by apply only_emit|intros r E; discriminate E]. Qed.

Lemma within_call P Q (ev : event) (r : res A) :
  P ev = true -> within P Q (call ev r : Flow R A).
Proof.
  intros H. split; [by apply only_call|]. destruct r; intros r' E; discriminate E.
Qed.

Lemma within_lift_opt P Q (what : string) (o : option A) :
  within P Q (lift_opt what o : Flow R A).
Proof. split; [apply only_lift_opt|]. destruct o; intros r E; discriminate E. Qed.

End WithinLaws.

(** One step of a proof that a flow stays within an event predicate and a
    predicate on what it returns. *)
Ltac within_step :=
  match goal with
  | |- within _ _ (bind _ _) => apply within_bind; [|intros]
  | |- within _ _ (try_except _ _) => apply within_try_except; [|intros]
  | |- within _ _ (pure _) => apply within_pure
  | |- within _ _ (raise _) => apply within_raise
  | |- within _ _ (emit _) => apply within_emit; reflexivity
  | |- within _ _ (call _ _) => apply within_call; reflexivity
  | |- within _ _ (lift_opt _ _) => apply within_lift_opt
  | |- within _ _ (if ?b then _ else _) => destruct b
  | |- within _ _ (let '(_, _) := ?x in _) => destruct x
  | |- within _ _ (match ?x with _ => _ end) => destruct x
  end.

Section SilentSteps.
Context `{tk : Tiktoken} `{world : World}.
Context {R : Type} (Q : R -> Prop).

Lemma silent_no_save (ev : event) : silent ev = true -> no_save ev = true.
Proof. unfold silent. by intros [H _]%andb_true_iff. Qed.

Lemma format_images_from_silent (provider : string) (image_files : list string)
    (formatted_content : list Py.value) :
  within silent Q (format_images_from (R := R) provider image_files formatted_content).
Proof.
  revert formatted_content. induction image_files as [|image_url rest IH];
    intros formatted_content; cbn [format_images_from]; [apply within_pure|].
  apply within_bind; [|intros; apply IH].
  unfold format_one_image. repeat within_step.
Qed.

Lemma question_message_silent (multimodal : bool) (query : string)
    (image_files : list string) (provider : string) :
  within silent Q (question_message (R := R) multimodal query image_files provider).
Proof.
  unfold question_message. destruct multimodal; [|apply within_pure].
  unfold create_multimodal_message. destruct image_files; [apply within_pure|].
  within_step; [|apply within_pure].
  apply within_bind; [apply format_images_from_silent|intros; apply within_pure].
Qed.

Lemma vector_store_if_any_silent (text_files : list string) :
  within silent Q (vector_store_if_any (R := R) text_files).
Proof. unfold vector_store_if_any. repeat within_step. Qed.

Lemma chat_context_silent (vector_store : bool) (query system_prompt : string) :
  within silent Q (chat_context (R := R) vector_store query system_prompt).
Proof. unfold chat_context. repeat within_step. Qed.

Lemma estimate_and_check_silent (estimated : token_usage) (ai_config : AiConfig) :
  within silent Q (estimate_and_check (R := R) estimated ai_config).
Proof. unfold estimate_and_check. repeat within_step. Qed.

Lemma media_query_silent (instruction : string) (ai_config : AiConfig) (query : string)
    (files : list string) :
  within silent Q (media_query (R := R) instruction ai_config query files).
Proof.
  unfold media_query. destruct (nonempty files); [|apply within_pure].
  destruct (identify_files files) as [image_files text_files].
  apply within_bind; [apply vector_store_if_any_silent|intros].
  apply within_bind; [apply question_message_silent|intros].
  unfold enhanced_query_for. repeat within_step.
Qed.

Lemma yield_chunks_silent (chunks : list string) (full_response : string) :
  within silent Q (yield_chunks (R := R) chunks full_response).
Proof.
  revert full_response. induction chunks as [|chunk rest IH]; intros full_response;
    cbn [yield_chunks]; [apply within_pure|].
  destruct (Py.str_truthy chunk); [|apply IH].
  apply within_bind; [apply within_emit; reflexivity|intros; apply IH].
Qed.

Lemma stream_response_silent (llm : llm_client) (p : payload) (what : string) :
  within silent Q (stream_response (R := R) llm p what).
Proof.
  unfold stream_response. destruct (llm_astream llm p) as [chunks failure].
  apply within_bind; [apply within_emit; reflexivity|intros].
  apply within_bind; [apply yield_chunks_silent|intros]. repeat within_step.
Qed.

Lemma meter_stream_eq (messages : list message) (full_response : string)
    (ai_config : AiConfig) :
  let usage := track_actual_token_usage messages full_response (model ai_config) in
  let points := get_points (prompt_tokens usage) (completion_tokens usage) ai_config in
  meter_stream (R := R) messages full_response ai_config
  = ([EvYield (PointsMarker points)], Normal (usage, points)).
Proof. reflexivity. Qed.

End SilentSteps.

(** A step of a flow that is one of the shared pieces, or a step of the
    flow monad. *)
Ltac silent_step :=
  first
    [ apply question_message_silent
    | apply vector_store_if_any_silent
    | apply chat_context_silent
    | apply estimate_and_check_silent
    | apply media_query_silent
    | apply stream_response_silent
    | within_step ].

Section NoSave.
Context `{tk : Tiktoken} `{world : World}.

Lemma silent_no_save_flow {R A} (m : Flow R A) :
  within silent (fun _ => True) m -> only no_save m.
Proof. intros [H _]. eapply only_weaken; [|exact H]. apply silent_no_save. Qed.

Lemma meter_stream_no_save {R} (messages : list message) (full_response : string)
    (ai_config : AiConfig) :
  only no_save (meter_stream (R := R) messages full_response ai_config).
Proof. unfold meter_stream. only_steps. Qed.

End NoSave.

(** A step of a proof that a flow writes no record. *)
Ltac no_save_step :=
  first
    [ apply silent_no_save_flow;
      first
        [ apply question_message_silent
        | apply vector_store_if_any_silent
        | apply chat_context_silent
        | apply estimate_and_check_silent
        | apply media_query_silent
        | apply stream_response_silent ]
    | apply meter_stream_no_save
    | only_step ].

Section SaveOrder.
Context `{tk : Tiktoken} `{world : World}.

Lemma save_order_prefix (stage : nat) (pre t : list event) :
  Forall (fun ev => no_save ev = true) pre ->
  save_order stage (pre ++ t) = save_order stage t.
Proof.
  induction 1 as [|ev pre Hev _ IH]; [reflexivity|].
  destruct ev; cbn [app save_order]; try exact IH; discriminate Hev.
Qed.

Lemma save_order_suffix (stage : nat) (t extra : list event) :
  save_order stage t = true -> Forall (fun ev => no_save ev = true) extra ->
  save_order stage (t ++ extra) = true.
Proof.
  revert stage. induction t as [|ev t IH]; intros stage Ht Hextra.
  - cbn [app]. rewrite <- (app_nil_r extra). by rewrite save_order_prefix.
  - destruct ev; cbn [app save_order] in *; try (by apply IH);
      apply andb_true_iff in Ht as [-> Ht]; by apply IH.
Qed.

Lemma ordered_bind_before {R A B} (stage : nat) (m : Flow R A) (k : A -> Flow R B) :
  only no_save m -> (forall a, save_order stage (k a).1 = true) ->
  save_order stage (bind m k).1 = true.
Proof.
  intros Hm Hk. rewrite events_bind, save_order_prefix by exact Hm.
  destruct m.2; [apply Hk|reflexivity..].
Qed.

Lemma ordered_bind_after {R A B} (stage : nat) (m : Flow R A) (k : A -> Flow R B) :
  save_order stage m.1 = true -> (forall a, only no_save (k a)) ->
  save_order stage (bind m k).1 = true.
Proof.
  intros Hm Hk. rewrite events_bind. apply save_order_suffix; [exact Hm|].
  destruct m.2; [apply Hk|constructor..].
Qed.

Lemma persist_ordered {R} (email sessionId : string) (reGenerate : bool)
    (title query full_response : string) (usage : token_usage) (outputTime : float)
    (chatType : Z) (files : list string) (model : string) (points : float) :
  save_order 0
    (persist (R := R) email sessionId reGenerate title query full_response usage outputTime
       chatType files model points).1 = true.
Proof.
  unfold persist.
  destruct (save_chat_log _); [|reflexivity].
  destruct user_doc as [doc|]; [|reflexivity].
  cbn [lift_opt call bind pure app fst].
  destruct (save_usage_log _); [|reflexivity].
  destruct (save_user_points points); reflexivity.
Qed.

Lemma finish_events (body : Flow (list output) (list output)) : (finish body).1 = body.1.
Proof. by destruct body as [t [a|e|r]]. Qed.

Lemma text_response_ordered (query : string) (files : list string)
    (chat_history : list IRouterChatLog) (model email sessionId : string)
    (reGenerate : bool) (chatType : Z) :
  save_order 0
    (generate_text_response query files chat_history model email sessionId reGenerate
       chatType).1 = true.
Proof.
  unfold generate_text_response. rewrite finish_events.
  apply ordered_bind_before; [only_steps|intros _].
  apply ordered_bind_before; [only_steps|intros _].
  destruct (get_ai_config model) as [ai_config|]; [|reflexivity].
  apply ordered_bind_before.
  - apply silent_no_save_flow. repeat silent_step; by apply within_return.
  - intros [full_response usage].
    apply ordered_bind_after; [apply persist_ordered|intros; apply only_pure].
Qed.

Lemma image_response_ordered (query : string) (files : list string)
    (chat_history : list IRouterChatLog) (model email sessionId : string)
    (reGenerate : bool) (chatType : Z) :
  save_order 0
    (generate_image_response query files chat_history model email sessionId reGenerate
       chatType).1 = true.
Proof.
  unfold generate_image_response. rewrite finish_events.
  apply ordered_bind_before; [only_steps|intros _].
  apply ordered_bind_before; [only_steps|intros _].
  destruct (get_ai_config model) as [ai_config|]; [|reflexivity].
  apply ordered_bind_before;
    [apply silent_no_save_flow, media_query_silent|intros enhanced_query].
  apply ordered_bind_before;
    [apply silent_no_save_flow, estimate_and_check_silent|intros [p ok]].
  destruct (negb ok); [reflexivity|].
  apply ordered_bind_before; [only_steps|intros response].
  apply ordered_bind_before; [only_steps|intros full_response].
  apply ordered_bind_after; [apply persist_ordered|intros; apply only_pure].
Qed.

Lemma audio_response_ordered (query : string) (files : list string)
    (chat_history : list IRouterChatLog) (model email sessionId : string)
    (reGenerate : bool) (chatType : Z) :
  save_order 0
    (generate_audio_response query files chat_history model email sessionId reGenerate
       chatType).1 = true.
Proof.
  unfold generate_audio_response. rewrite finish_events.
  apply ordered_bind_before; [only_steps|intros _].
  apply ordered_bind_before; [only_steps|intros _].
  destruct (get_ai_config model) as [ai_config|]; [|reflexivity].
  apply ordered_bind_before;
    [apply silent_no_save_flow, media_query_silent|intros enhanced_query].
  apply ordered_bind_before;
    [apply silent_no_save_flow, estimate_and_check_silent|intros [p ok]].
  destruct (negb ok); [reflexivity|].
  apply ordered_bind_before; [only_steps|intros audio].
  apply ordered_bind_before; [only_steps|intros _].
  apply ordered_bind_after; [apply persist_ordered|intros; apply only_pure].
Qed.

Lemma stream_response_ordered (query : string) (files : list string)
    (chat_history : list IRouterChatLog) (model email sessionId : string)
    (reGenerate : bool) (chatType : Z) (learningPrompt : string) :
  save_order 0
    (generate_stream_response query files chat_history model email sessionId reGenerate
       chatType learningPrompt) = true.
Proof.
  unfold generate_stream_response. rewrite events_try_except.
  apply save_order_suffix.
  2:{ match goal with |- context [match ?e with _ => _ end] => destruct e end;
        by repeat constructor. }
  apply ordered_bind_before; [only_steps|intros _].
  apply ordered_bind_before; [only_steps|intros _].
  destruct (get_ai_config model) as [ai_config|]; [|reflexivity].
  apply ordered_bind_before.
  - repeat no_save_step.
  - intros [full_response [usage points]].
    apply ordered_bind_before; [only_steps|intros _]. apply persist_ordered.
Qed.

End SaveOrder.

(** X21: in each of the four flows the chat log is saved first, the usage
    log second and the points are debited last, each at most once; so
    points are never debited unless both records were written before, and a
    failure of one write leaves the later ones undone. *)
Theorem records_are_written_in_order `{tk : Tiktoken} `{world : World}
    (query : string) (files : list string) (chat_history : list IRouterChatLog)
    (model email sessionId : string) (reGenerate : bool) (chatType : Z)
    (learningPrompt : string) :
  save_order 0
    (generate_text_response query files chat_history model email sessionId reGenerate
       chatType).1 = true
  /\ save_order 0
       (generate_image_response query files chat_history model email sessionId reGenerate
          chatType).1 = true
  /\ save_order 0
       (generate_audio_response query files chat_history model email sessionId reGenerate
          chatType).1 = true
  /\ save_order 0
       (generate_stream_response query files chat_history model email sessionId reGenerate
          chatType learningPrompt) = true.
Proof.
  split; [apply text_response_ordered|]. split; [apply image_response_ordered|].
  split; [apply audio_response_ordered|apply stream_response_ordered].
Qed.

(** A run in which the usage log cannot be written: the chat log is saved,
    the debit is not attempted. *)
Example no_debit_without_usage_log :
  let w := {| py_repr := fun _ => "<repr>"; b64encode := fun s => s;
              elapsed_seconds := 1.5%float; timestamp := "20240101_000000";
              AWS_CDN_URL := "https://cdn.example"; AWS_BUCKET_NAME := "bucket";
              requests_get := fun _ => Ok "bytes"; upload_file := fun _ _ _ => Ok tt;
              identify_files := fun files => ([], files);
              vector_store_for := fun _ => Ok true;
              retriever_ainvoke := fun _ => Ok [];
              initialize := fun _ => Ok tt;
              check_user_available_to_chat := fun _ _ => Ok true;
              user_doc := Some ∅;
              save_user_points := fun _ => Ok tt;
              get_ai_config := fun _ => Some (demo_config "openai");
              get_system_prompt := "You are Edith.";
              save_chat_log := fun _ => Ok tt;
              save_usage_log := fun _ => Err (Exception "database is down");
              llm_astream := fun _ _ => (["Hi"], None);
              llm_ainvoke := fun _ _ => Ok "Hi";
              images_generate := fun _ => Err (Exception "unused");
              speech_create := fun _ => Ok "mp3" |} in
  let run := generate_text_response (tk := word_tiktoken) (world := w)
               "Hello" [] [] "gpt-4o" "a@b" "s1" false 0 in
  map is_save run.1 = [false; false; false; false; true; true]
  /\ existsb (fun ev => match ev with EvSaveUserPoints _ => true | _ => false end) run.1 = false
  /\ run.2 = [ErrorMarker (internal_error (Exception "database is down"))].
Proof. repeat split; vm_compute; reflexivity. Qed.
(** ** What the flows bill *)

Section Yields.
Context {R A B : Type}.

Lemma yields_bind (N : B -> Prop) (m : Flow R A) (k : A -> Flow R B) :
  (forall a, forall b, (k a).2 = Normal b -> N b) ->
  forall b, (bind m k).2 = Normal b -> N b.
Proof.
  intros Hk b. destruct m as [t [a|e|r]]; cbn [bind snd].
  - specialize (Hk a b). destruct (k a) as [t' e']. exact Hk.
  - intros E. discriminate E.
  - intros E. discriminate E.
Qed.

Lemma yields_try_except (N : A -> Prop) (m : Flow R A) (handler : exn -> Flow R A) :
  (forall a, m.2 = Normal a -> N a) ->
  (forall e a, (handler e).2 = Normal a -> N a) ->
  forall a, (try_except m handler).2 = Normal a -> N a.
Proof.
  intros Hm Hh a. destruct m as [t [a'|e|r]]; cbn [try_except snd] in *.
  - apply Hm.
  - specialize (Hh e a). destruct (handler e) as [t' e']. exact Hh.
  - intros E. discriminate E.
Qed.

End Yields.

Section Billing.
Context `{tk : Tiktoken} `{world : World}.
Implicit Types (I : token_usage -> Prop) (ai_config : AiConfig).

Lemma records_silent (usage : token_usage) (points : float) (ev : event) :
  silent ev = true -> records usage points ev.
Proof.
  destruct ev as [| | | | | | | | | |o| | |]; try done; [destruct o; done].
Qed.

Lemma records_silent_trace (usage : token_usage) (points : float) (t : list event) :
  Forall (fun ev => silent ev = true) t -> Forall (records usage points) t.
Proof. intros H. eapply Forall_impl; [exact H|]. apply records_silent. Qed.

Lemma persist_records {R} (email sessionId : string) (reGenerate : bool)
    (title query full_response : string) (usage : token_usage) (outputTime : float)
    (chatType : Z) (files : list string) (model : string) (points : float) :
  Forall (records usage points)
    (persist (R := R) email sessionId reGenerate title query full_response usage outputTime
       chatType files model points).1.
Proof.
  unfold persist.
  destruct (save_chat_log _); [|by repeat constructor].
  destruct user_doc as [doc|]; [|by repeat constructor].
  cbn [lift_opt call bind pure app fst].
  destruct (save_usage_log _); [|by repeat constructor].
  destruct (save_user_points points); by repeat constructor.
Qed.

Lemma persist_ending {R} (email sessionId : string) (reGenerate : bool)
    (title query full_response : string) (usage : token_usage) (outputTime : float)
    (chatType : Z) (files : list string) (model : string) (points : float) :
  forall r,
    (persist (R := R) email sessionId reGenerate title query full_response usage outputTime
       chatType files model points).2 <> Returned r.
Proof.
  intros r. unfold persist.
  destruct (save_chat_log _); [|intros E; discriminate E].
  destruct user_doc as [doc|]; [|intros E; discriminate E].
  cbn [lift_opt call bind pure app snd].
  destruct (save_usage_log _); [|intros E; discriminate E].
  destruct (save_user_points points); intros E; discriminate E.
Qed.

Lemma finish_eq (body : Flow (list output) (list output)) :
  finish body = (body.1, result_of body.2).
Proof. by destruct body as [t [a|e|r]]. Qed.

Lemma no_points_in_error (e : error_response) (p : float) :
  PointsMarker p ∉ [ErrorMarker e].
Proof. intros H. apply list_elem_of_singleton in H. discriminate H. Qed.

Lemma track_usage_invariant (messages : list message) (response model : string) :
  usage_invariant (track_actual_token_usage messages response model).
Proof.
  destruct (track_actual_token_usage_cases messages response model) as [->|(p & Hp & ->)].
  - unfold usage_invariant; simpl; lia.
  - apply estimate_tokens_lower_bound in Hp.
    pose proof (tokens_of_nonneg (_get_encoding model) response).
    unfold usage_invariant; simpl; lia.
Qed.


Lemma zero_usage_invariant : usage_invariant zero_usage.
Proof. unfold usage_invariant; simpl; lia. Qed.

(** Steps that bill nothing, in front of a billed flow. *)
Lemma billing_bind_before {R A B} ai_config I (out : ending R B -> list output)
    (N : A -> Prop) (m : Flow R A) (k : A -> Flow R B) :
  I zero_usage ->
  within silent (fun r => forall p, PointsMarker p ∉ out (Returned r)) m ->
  (forall e p, PointsMarker p ∉ out (Raised e)) ->
  (forall a, m.2 = Normal a -> N a) ->
  (forall a, N a -> billing ai_config I out (k a)) ->
  billing ai_config I out (bind m k).
Proof.
  intros Hzero [Hm Hret] Hraise HN Hk. unfold only in Hm.
  destruct m as [t [a|e|r]]; cbn [fst snd] in *.
  - destruct (Hk a (HN a eq_refl)) as (usage & HI & Hrec & Hout).
    exists usage. split; [exact HI|]. unfold bind. destruct (k a) as [t' e'].
    cbn [fst snd] in *. split; [|exact Hout].
    apply Forall_app. split; [by apply records_silent_trace|exact Hrec].
  - exists zero_usage. split; [exact Hzero|]. split; cbn [bind fst snd].
    + by apply records_silent_trace.
    + intros p Hp. by destruct (Hraise e p).
  - exists zero_usage. split; [exact Hzero|]. split; cbn [bind fst snd].
    + by apply records_silent_trace.
    + intros p Hp. by destruct (Hret r eq_refl p).
Qed.


(** The end of a non-streamed flow: the records are written and the
    response is composed with the same points. *)
Lemma billing_tail ai_config I (email sessionId : string) (reGenerate : bool)
    (title query full_response : string) (usage : token_usage) (outputTime : float)
    (chatType : Z) (files : list string) (model : string) :
  I usage ->
  let points := get_points (prompt_tokens usage) (completion_tokens usage) ai_config in
  billing ai_config I result_of
    (persist email sessionId reGenerate title query full_response usage outputTime
       chatType files model points ;;
     pure (compose_response full_response points outputTime)).
Proof.
  intros HI points. exists usage. split; [exact HI|]. fold points.
  pose proof (persist_records (R := list output) email sessionId reGenerate title query
                full_response usage outputTime chatType files model points) as Hrec.
  pose proof (persist_ending (R := list output) email sessionId reGenerate title query
                full_response usage outputTime chatType files model points) as Hend.
  destruct (persist email sessionId reGenerate title query full_response usage outputTime
              chatType files model points) as [t [a|e|r]]; cbn [fst snd bind pure] in *.
  - rewrite app_nil_r. split; [exact Hrec|]. cbn [result_of compose_response].
    intros p Hp. apply elem_of_cons in Hp as [Hp|Hp]; [discriminate Hp|].
    apply elem_of_cons in Hp as [[= ->]|Hp]; [reflexivity|].
    apply list_elem_of_singleton in Hp. discriminate Hp.
  - split; [exact Hrec|]. intros p Hp. by destruct (no_points_in_error _ _ Hp).
  - by destruct (Hend r).
Qed.

(** The same in front of the metered part of the streamed flow. *)
Lemma metered_bind_before {R A} ai_config I (m : Flow R A)
    (k : A -> Flow R (string * (token_usage * float))) :
  only silent m -> (forall a, metered ai_config I (k a)) ->
  metered ai_config I (bind m k).
Proof.
  unfold only. intros Hm Hk. destruct m as [t [a|e|r]]; cbn [fst snd] in *;
    [|exact Hm..].
  specialize (Hk a). unfold metered, bind in *. destruct (k a) as [t' e'].
  cbn [fst snd] in *. destruct e' as [[full_response [usage points]]|e|r].
  - destruct Hk as (Hp & HI & Hrec). split; [exact Hp|]. split; [exact HI|].
    apply Forall_app. split; [by apply records_silent_trace|exact Hrec].
  - by apply Forall_app.
  - by apply Forall_app.
Qed.

Lemma metered_try_except {R} ai_config I (m : Flow R (string * (token_usage * float)))
    (handler : exn -> Flow R (string * (token_usage * float))) :
  metered ai_config I m ->
  (forall e, only silent (handler e) /\ forall a, (handler e).2 <> Normal a) ->
  metered ai_config I (try_except m handler).
Proof.
  intros Hm Hh. destruct m as [t [a|e|r]]; [exact Hm| |exact Hm].
  destruct (Hh e) as [Hsilent Hend]. unfold metered, try_except, only in *.
  destruct (handler e) as [t' e']. cbn [fst snd] in *.
  destruct e' as [a|e''|r]; [by destruct (Hend a)|by apply Forall_app..].
Qed.

(** The meter itself: it yields the points of the usage it measured. *)
Lemma metered_end {R} ai_config I (messages : list message) (full_response : string) :
  I (track_actual_token_usage messages full_response (model ai_config)) ->
  metered (R := R) ai_config I
    (do measured <- meter_stream messages full_response ai_config;
     pure (full_response, measured)).
Proof.
  intros HI. rewrite meter_stream_eq. cbn [bind pure app]. unfold metered. cbn [fst snd].
  split; [reflexivity|]. split; [exact HI|]. by repeat constructor.
Qed.

Lemma metered_denied {R} ai_config I (e : error_response) (r : R) :
  metered ai_config I (emit (EvYield (ErrorMarker e)) ;; return_ r).
Proof. unfold metered. cbn. by repeat constructor. Qed.

(** What follows the metered part is billed with what the meter passed on. *)
Lemma billing_after_meter {R B} ai_config I (out : ending R B -> list output)
    (m : Flow R (string * (token_usage * float)))
    (k : string * (token_usage * float) -> Flow R B) :
  I zero_usage -> metered ai_config I m ->
  (forall e p, PointsMarker p ∉ out (Raised e)) ->
  (forall r p, PointsMarker p ∉ out (Returned r)) ->
  (forall full_response usage points,
     Forall (records usage points) (k (full_response, (usage, points))).1
     /\ forall q, PointsMarker q ∈ out (k (full_response, (usage, points))).2 -> q = points) ->
  billing ai_config I out (bind m k).
Proof.
  intros Hzero Hm Hraise Hret Hk. unfold metered, only in Hm.
  destruct m as [t [[full_response [usage points]]|e|r]]; cbn [fst snd] in *.
  - destruct Hm as (-> & HI & Hrec). exists usage. split; [exact HI|].
    destruct (Hk full_response usage
                (get_points (prompt_tokens usage) (completion_tokens usage) ai_config))
      as [Hrec' Hout].
    unfold bind. destruct (k _) as [t' e']. cbn [fst snd] in *.
    split; [by apply Forall_app|exact Hout].
  - exists zero_usage. split; [exact Hzero|]. split; cbn [bind fst snd].
    + by apply records_silent_trace.
    + intros p Hp. by destruct (Hraise e p).
  - exists zero_usage. split; [exact Hzero|]. split; cbn [bind fst snd].
    + by apply records_silent_trace.
    + intros p Hp. by destruct (Hret r p).
Qed.

(** The points markers yielded in a trace are among its events. *)
Lemma billed_trace (usage : token_usage) (points : float) (t : list event) :
  Forall (records usage points) t ->
  forall q, PointsMarker q ∈ yielded t -> q = points.
Proof.
  induction 1 as [|ev t Hev _ IH]; intros q Hq; [by apply elem_of_nil in Hq|].
  unfold yielded in Hq. cbn [flat_map] in Hq. apply elem_of_app in Hq as [Hq|Hq];
    [|by apply IH].
  destruct ev as [| | | | | | | | | |o| | |]; try by apply elem_of_nil in Hq.
  apply list_elem_of_singleton in Hq. subst o. exact Hev.
Qed.

End Billing.

(** One step of a proof about the value a flow ends with. *)
Ltac yields_step :=
  match goal with
  | |- forall b, (bind _ _).2 = Normal b -> _ => apply yields_bind; intros ?; cbv beta
  | |- forall b, (try_except _ _).2 = Normal b -> _ =>
      apply yields_try_except; [|intros ?; cbv beta]
  | |- forall b, (return_ _).2 = Normal b -> _ =>
      let E := fresh in intros ? E; discriminate E
  | |- forall b, (raise _).2 = Normal b -> _ =>
      let E := fresh in intros ? E; discriminate E
  | |- forall b, (if ?c then _ else _).2 = Normal b -> _ => destruct c
  | |- forall b, (let '(_, _) := ?x in _).2 = Normal b -> _ => destruct x
  | |- forall b, (match ?x with _ => _ end).2 = Normal b -> _ => destruct x
  end.

(** One step through the part of the streamed flow that ends with the
    meter. *)
Ltac metered_step :=
  match goal with
  | |- metered _ _ (bind (meter_stream _ _ _) _) =>
      apply metered_end; apply track_usage_invariant
  | |- metered _ _ (bind (emit (EvYield (ErrorMarker _))) (fun _ => return_ _)) =>
      apply metered_denied
  | |- metered _ _ (bind _ _) =>
      apply metered_bind_before;
      [apply (within_only silent (fun _ => True)); repeat silent_step|intros ?]
  | |- metered _ _ (if ?c then _ else _) => destruct c
  | |- metered _ _ (let '(_, _) := ?x in _) => destruct x
  end.

Lemma billed_of_billing `{world : World} (ai_config : AiConfig) (I : token_usage -> Prop)
    (body : Flow (list output) (list output)) :
  billing ai_config I result_of body ->
  exists usage, I usage /\ billed_as ai_config usage (finish body).
Proof. rewrite finish_eq. by intros H. Qed.

(** X22: a non-streamed chat run of a configured model is billed as one
    usage whose total is prompt plus completion: the chat log, the usage log
    and the debit carry that usage and the points [get_points] gives for
    it, and the [[POINTS]] marker of the response shows the same points. *)
Theorem text_response_is_billed_consistently `{tk : Tiktoken} `{world : World}
    (query : string) (files : list string)
    (chat_history : list IRouterChatLog) (model email sessionId : string)
    (reGenerate : bool) (chatType : Z) (ai_config : AiConfig) :
  get_ai_config model = Some ai_config ->
  exists usage,
    usage_invariant usage
    /\ billed_as ai_config usage
         (generate_text_response query files chat_history model email sessionId reGenerate
            chatType).
Proof.
  intros Hconfig. unfold generate_text_response. apply billed_of_billing. rewrite Hconfig.
  apply (billing_bind_before _ _ _ (fun _ => True));
    [apply zero_usage_invariant|repeat within_step|intros; apply no_points_in_error|done|].
  intros _ _.
  apply (billing_bind_before _ _ _ (fun _ => True));
    [apply zero_usage_invariant|repeat within_step|intros; apply no_points_in_error|done|].
  intros _ _.
  apply (billing_bind_before _ _ _ (fun outcome => usage_invariant outcome.2));
    [apply zero_usage_invariant| |intros; apply no_points_in_error| |].
  - repeat silent_step; apply within_return; intros; apply no_points_in_error.
  - repeat yields_step; intros ? [= <-]; apply track_usage_invariant.
  - intros [full_response usage] HI. by apply billing_tail.
Qed.

Lemma text_response_is_billed_consistently_witness :
  let w := demo_world "openai" true in
  get_ai_config (World := w) "gpt-4o" = Some (demo_config "openai")
  /\ exists usage,
       usage_invariant usage
       /\ billed_as (demo_config "openai") usage
            (generate_text_response (tk := word_tiktoken) (world := w)
               "Hello" [] [] "gpt-4o" "a@b" "s1" false 0).
Proof.
  intros w.
  assert (H : get_ai_config (World := w) "gpt-4o" = Some (demo_config "openai"))
    by reflexivity.
  split; [exact H|].
  exact (text_response_is_billed_consistently (tk := word_tiktoken) (world := w)
           "Hello" [] [] "gpt-4o" "a@b" "s1" false 0 (demo_config "openai") H).
Defined.

(** On that run the three writes and the response carry the same points. *)
Example text_response_bill :
  let run := generate_text_response (tk := word_tiktoken) (world := demo_world "openai" true)
               "Hello" [] [] "gpt-4o" "a@b" "s1" false 0 in
  exists r r' p,
    List.filter is_save run.1 = [EvSaveChatLog r; EvSaveUsageLog r'; EvSaveUserPoints p]
    /\ cl_points r = p /\ ul_pointsUsage r' = p
    /\ ul_total r' = ul_input r' + ul_output r'
    /\ run.2 = [Text "Hi there"; PointsMarker p; OutputTimeMarker 1.5%float].
Proof. eexists _, _, _. vm_compute. repeat split; reflexivity. Qed.



(** X23: a streamed run of a configured model, with or without files, is
    billed as one usage whose total is prompt plus completion: the chat log,
    the usage log and the debit carry that usage and its points, and a
    [[POINTS]] marker that was yielded shows the same points. *)
Theorem stream_response_is_billed_consistently `{tk : Tiktoken} `{world : World}
    (query : string) (files : list string)
    (chat_history : list IRouterChatLog) (model email sessionId : string)
    (reGenerate : bool) (chatType : Z) (learningPrompt : string) (ai_config : AiConfig) :
  get_ai_config model = Some ai_config ->
  let t := generate_stream_response query files chat_history model email sessionId
             reGenerate chatType learningPrompt in
  exists usage, usage_invariant usage /\ billed_as ai_config usage (t, yielded t).
Proof.
  intros Hconfig t. subst t. unfold generate_stream_response. rewrite Hconfig.
  match goal with
  | |- context [try_except ?b ?h] => set (body := b); set (handler := h)
  end.
  assert (Hbody : billing ai_config usage_invariant (fun _ => []) body).
  { subst body.
    apply (billing_bind_before _ _ _ (fun _ => True));
      [apply zero_usage_invariant|repeat within_step
      |intros e p Hp; by apply elem_of_nil in Hp|done|].
    intros _ _.
    apply (billing_bind_before _ _ _ (fun _ => True));
      [apply zero_usage_invariant|repeat within_step
      |intros e p Hp; by apply elem_of_nil in Hp|done|].
    intros _ _.
    apply billing_after_meter;
      [apply zero_usage_invariant| |intros e p Hp; by apply elem_of_nil in Hp
      |intros r p Hp; by apply elem_of_nil in Hp|].
    - repeat metered_step.
      apply metered_try_except; [repeat metered_step|].
      intros e. split; [only_steps|intros a E; discriminate E].
    - intros full_response usage points. split; [|intros q Hq; by apply elem_of_nil in Hq].
      rewrite events_bind. apply Forall_app. split; [by repeat constructor|].
      apply persist_records. }
  destruct Hbody as (usage & HI & Hrec & _). cbn [fst] in Hrec.
  exists usage. split; [exact HI|].
  assert (Hall : Forall (records usage
                           (get_points (prompt_tokens usage) (completion_tokens usage)
                              ai_config))
                   (try_except body handler).1).
  { rewrite events_try_except. apply Forall_app. split; [exact Hrec|].
    destruct body.2; subst handler; by repeat constructor. }
  split; [exact Hall|]. exact (billed_trace _ _ _ Hall).
Qed.

Lemma stream_response_is_billed_consistently_witness :
  let w := demo_world "openai" true in
  let t := generate_stream_response (tk := word_tiktoken) (world := w)
             "Hello" ["notes.txt"] [] "gpt-4o" "a@b" "s1" false 0 "" in
  get_ai_config (World := w) "gpt-4o" = Some (demo_config "openai")
  /\ exists usage,
       usage_invariant usage /\ billed_as (demo_config "openai") usage (t, yielded t).
Proof.
  intros w t.
  assert (H : get_ai_config (World := w) "gpt-4o" = Some (demo_config "openai"))
    by reflexivity.
  split; [exact H|].
  exact (stream_response_is_billed_consistently (tk := word_tiktoken) (world := w)
           "Hello" ["notes.txt"] [] "gpt-4o" "a@b" "s1" false 0 "" (demo_config "openai") H).
Defined.
